(** * Relay server: session store, question intake, reply intake, long poll

    A shallow embedding of the relay server's core
    ([relay-server/src/store.ts], [routes/questions.ts], [routes/replies.ts],
    [routes/webhook.ts]) and the properties of its session state machine,
    followed by its surroundings: authentication ([middleware/auth.ts]),
    link codes and [routes/linkChatbot.ts], the sender's retries and
    factory ([outbound/kakaoSender.ts]) and the requests of the local
    bridge ([local-bridge/src/index.ts]).

    Conventions.
    - A JavaScript string is a Rocq [string]: the UTF-8 bytes of the text.
      Equality of well-formed strings is equality of their bytes, and on
      ASCII text (ISO timestamps, UUIDs) the byte order is JavaScript's
      code-unit order.
    - [Map<string, Session>] iterates in insertion order and never loses an
      entry here, so the store is the list of its sessions in insertion
      order.  A session object mutated in place is written back under its
      key.
    - Every call to the clock or to the UUID generator is an input of the
      handler that makes it (the [..Env] records). *)

From Stdlib Require Import String Ascii List ZArith Bool Lia NArith.
From Stdlib Require Import QArith Qround DecimalString.
Close Scope Q_scope.
Import ListNotations.
Open Scope string_scope.
Open Scope Z_scope.

(* ------------------------------------------------------------------ *)
(** ** JavaScript values used by the handlers                          *)
(* ------------------------------------------------------------------ *)

(** Truthiness of a [string | undefined] value: [undefined] and the empty
    string are falsy. *)
Definition truthy (s : option string) : bool :=
  match s with
  | Some x => negb (x =? "")%string
  | None => false
  end.

(** [a ?? b] on optional strings. *)
Definition nullish {A : Type} (a : option A) (b : option A) : option A :=
  match a with
  | Some _ => a
  | None => b
  end.

(** [a > b] on strings: code-unit order. *)
Definition str_gt (a b : string) : bool := (b <? a)%string.

(** [arr.findIndex(p)], with [None] for [-1]. *)
Fixpoint findIndex {A : Type} (p : A -> bool) (l : list A) : option nat :=
  match l with
  | [] => None
  | x :: rest =>
      if p x then Some O
      else match findIndex p rest with
           | Some i => Some (S i)
           | None => None
           end
  end.

(** The built-in string operations whose Unicode tables are not reproduced
    here.  The handlers are written against this interface; [AsciiOps]
    below is the instance used to run them on concrete inputs. *)
Class StringOps := {
  trim : string -> string;
  toLowerCase : string -> string
}.

(** Opaque JSON payloads ([Record<string, unknown>]). *)
#[local] Unset Elimination Schemes.
Inductive Json :=
| JNull
| JBool (b : bool)
| JNum (literal : string)
| JStr (s : string)
| JArr (items : list Json)
| JObj (fields : list (string * Json)).
#[local] Set Elimination Schemes.

(* ------------------------------------------------------------------ *)
(** ** types.ts                                                        *)
(* ------------------------------------------------------------------ *)

Inductive SessionStatus := IDLE | WAITING_USER | RESOLVED | EXPIRED | CANCELED.

Inductive Severity := INFO | WARNING | DANGER.

Inductive ReplyType := TEXT | CHOICE | CANCEL.

Definition SessionStatus_eqb (a b : SessionStatus) : bool :=
  match a, b with
  | IDLE, IDLE | WAITING_USER, WAITING_USER | RESOLVED, RESOLVED
  | EXPIRED, EXPIRED | CANCELED, CANCELED => true
  | _, _ => false
  end.

Module PendingQuestion.
Record t := mk {
  message_id : string;
  text : string;
  choices : option (list string);
  timeout_sec : option Z;
  severity : Severity;
  metadata : option (list (string * Json));
  created_at : string
}.
End PendingQuestion.

Module Reply.
Record t := mk {
  reply_id : string;
  type : ReplyType;
  text : option string;
  choice : option string;
  created_at : string
}.
End Reply.

Module Session.
Record t := mk {
  session_id : string;
  status : SessionStatus;
  pending_question : option PendingQuestion.t;
  replies : list Reply.t;
  created_at : string;
  updated_at : string;
  owner_user_id : option string
}.
End Session.

(* ------------------------------------------------------------------ *)
(** ** store.ts                                                        *)
(* ------------------------------------------------------------------ *)

(** [const sessions = new Map<string, Session>()], in insertion order. *)
Definition Store := list Session.t.

Definition has_id (sessionId : string) (s : Session.t) : bool :=
  (Session.session_id s =? sessionId)%string.

Definition getSession (sessionId : string) (sessions : Store) : option Session.t :=
  find (has_id sessionId) sessions.

(** Writing a mutated session object back under its key. *)
Definition putSession (s : Session.t) (sessions : Store) : Store :=
  map (fun x => if has_id (Session.session_id s) x then s else x) sessions.

(** [getOrCreateSession]; [t_created] and [t_updated] are the two readings
    of [now()] taken when the session is built. *)
Definition getOrCreateSession (t_created t_updated : string)
    (sessionId : string) (initialStatus : SessionStatus)
    (ownerUserId : option string) (sessions : Store) : Store * Session.t :=
  match getSession sessionId sessions with
  | Some session => (sessions, session)
  | None =>
      let session :=
        Session.mk sessionId initialStatus None [] t_created t_updated ownerUserId in
      ((sessions ++ [session])%list, session)
  end.

Definition setPendingQuestion (t_now : string) (session : Session.t)
    (question : PendingQuestion.t) : Session.t :=
  Session.mk (Session.session_id session)
             WAITING_USER
             (Some question)
             (Session.replies session)
             (Session.created_at session)
             t_now
             (Session.owner_user_id session).

Definition addReply (t_now : string) (session : Session.t) (reply : Reply.t)
    : Session.t :=
  Session.mk (Session.session_id session)
             RESOLVED
             None
             (Session.replies session ++ [reply])%list
             (Session.created_at session)
             t_now
             (Session.owner_user_id session).

(** The loop body shared by the two scans: keep [latest] unless [session]
    is strictly newer. *)
Definition pick_latest (latest : option Session.t) (session : Session.t)
    : option Session.t :=
  match latest with
  | None => Some session
  | Some l =>
      if str_gt (Session.updated_at session) (Session.updated_at l)
      then Some session else latest
  end.

Definition findMostRecentWaitingSession (sessions : Store) : option Session.t :=
  fold_left
    (fun latest session =>
       if negb (SessionStatus_eqb (Session.status session) WAITING_USER) then latest
       else pick_latest latest session)
    sessions None.

Definition owner_is (userId : string) (session : Session.t) : bool :=
  match Session.owner_user_id session with
  | Some o => (o =? userId)%string
  | None => false
  end.

Definition findMostRecentWaitingSessionForUser (userId : string)
    (sessions : Store) : option Session.t :=
  fold_left
    (fun latest session =>
       if negb (SessionStatus_eqb (Session.status session) WAITING_USER) then latest
       else if negb (owner_is userId session) then latest
       else pick_latest latest session)
    sessions None.

(* ------------------------------------------------------------------ *)
(** ** String built-ins on UTF-8 text                                  *)
(* ------------------------------------------------------------------ *)

Module JsString.

Definition byte (c : ascii) : N := N_of_ascii c.

(** ECMAScript WhiteSpace and LineTerminator code points, by the length
    of their UTF-8 encoding: U+0009..U+000D and U+0020; U+00A0; U+1680,
    U+2000..U+200A, U+2028, U+2029, U+202F, U+205F, U+3000, U+FEFF. *)
Definition ws1 (a : N) : bool :=
  (((9 <=? a) && (a <=? 13)) || (a =? 32))%N.

Definition ws2 (a b : N) : bool := ((a =? 194) && (b =? 160))%N.

Definition ws3 (a b c : N) : bool :=
  (((a =? 225) && (b =? 154) && (c =? 128))
   || ((a =? 226) && (b =? 128)
       && (((128 <=? c) && (c <=? 138)) || (c =? 168) || (c =? 169) || (c =? 175)))
   || ((a =? 226) && (b =? 129) && (c =? 159))
   || ((a =? 227) && (b =? 128) && (c =? 128))
   || ((a =? 239) && (b =? 187) && (c =? 191)))%N.

Fixpoint trimStart (s : string) : string :=
  match s with
  | String a r1 =>
      if ws1 (byte a) then trimStart r1
      else match r1 with
           | String b r2 =>
               if ws2 (byte a) (byte b) then trimStart r2
               else match r2 with
                    | String c r3 =>
                        if ws3 (byte a) (byte b) (byte c) then trimStart r3 else s
                    | EmptyString => s
                    end
           | EmptyString => s
           end
  | EmptyString => s
  end.

Definition isBlank (s : string) : bool := (trimStart s =? "")%string.

Fixpoint trimEnd (s : string) : string :=
  match s with
  | String a r => if isBlank s then "" else String a (trimEnd r)
  | EmptyString => s
  end.

Definition trim (s : string) : string := trimEnd (trimStart s).

(** Lower-casing of the Basic Latin letters; every other byte is kept.
    This is [String.prototype.toLowerCase] on text whose cased
    characters are all ASCII (Hangul has no case). *)
Definition lowerByte (c : ascii) : ascii :=
  let n := byte c in
  if ((65 <=? n) && (n <=? 90))%N then ascii_of_N (n + 32) else c.

Fixpoint toLowerCase (s : string) : string :=
  match s with
  | String c r => String (lowerByte c) (toLowerCase r)
  | EmptyString => EmptyString
  end.

Definition isDigit (c : ascii) : bool :=
  ((48 <=? byte c) && (byte c <=? 57))%N.

Definition digitValue (c : ascii) : Z := Z.of_N (byte c) - 48.

(** The value of the longest prefix of decimal digits; [None] when
    there is no digit. *)
Fixpoint digits (s : string) (acc : option Z) : option Z :=
  match s with
  | String c r =>
      if isDigit c
      then digits r (Some (10 * match acc with Some v => v | None => 0 end
                           + digitValue c))
      else acc
  | EmptyString => acc
  end.

(** [parseInt(s, 10)]: leading white space, an optional sign, then
    decimal digits; [None] is [NaN].  The result is the exact integer
    (JavaScript rounds beyond 2^53, which no comparison below sees). *)
Definition parseInt (s : string) : option Z :=
  match trimStart s with
  | String c r =>
      if (byte c =? 45)%N then option_map Z.opp (digits r None)
      else if (byte c =? 43)%N then digits r None
      else digits (String c r) None
  | EmptyString => None
  end.

End JsString.

#[export] Instance AsciiOps : StringOps :=
  {| trim := JsString.trim; toLowerCase := JsString.toLowerCase |}.

(** [n || d] on numbers: [NaN] and [0] are falsy. *)
Definition num_or (n : option Z) (d : Z) : Z :=
  match n with
  | Some v => if v =? 0 then d else v
  | None => d
  end.

(* ------------------------------------------------------------------ *)
(** ** Process configuration and request authentication                *)
(* ------------------------------------------------------------------ *)

(** The environment variables read at start-up, and whether an outbound
    sender was built ([senderEnabled] of [outbound/kakaoSender.ts]). *)
Record Config := {
  FIXED_USER_KEY : string;
  DDB_TABLE : string;
  senderEnabled : bool
}.

(** [const isMultiUserMode = !!DDB_TABLE]. *)
Definition isMultiUserMode (cfg : Config) : bool :=
  truthy (Some (DDB_TABLE cfg)).

Inductive AuthMethod := static_token | cognito_jwt.

(** [req.auth], as [requireAuth] sets it before a handler runs. *)
Record Auth := {
  user_id : string;
  method : AuthMethod
}.

(* ------------------------------------------------------------------ *)
(** ** routes/questions.ts                                             *)
(* ------------------------------------------------------------------ *)

Module QuestionsBody.
Record t := mk {
  text : option string;
  choices : option (list string);
  timeout_sec : option Z;
  severity : option Severity;
  metadata : option (list (string * Json));
  target_user_id : option string
}.
End QuestionsBody.

Module QuestionsRequest.
Record t := mk {
  session_id : string;          (* req.params.session_id *)
  body : QuestionsBody.t;
  auth : option Auth
}.
End QuestionsRequest.

(** The values the handler draws from the clock and the UUID generator,
    in the order of the calls. *)
Module QuestionsEnv.
Record t := mk {
  t_created : string;           (* now() for created_at of a new session *)
  t_updated : string;           (* now() for updated_at of a new session *)
  message_id : string;          (* generateMessageId() *)
  question_created_at : string; (* new Date().toISOString() *)
  t_set : string                (* now() inside setPendingQuestion *)
}.
End QuestionsEnv.

Module SendQuestionInput.
Record t := mk {
  session_id : string;
  message_id : string;
  question_text : string;
  choices : list string;
  kakao_user_key : string;
  target_user_id : option string
}.
End SendQuestionInput.

Inductive QuestionsResponse :=
| BAD_REQUEST                                    (* 400 *)
| FORBIDDEN                                      (* 403 *)
| PENDING_EXISTS                                 (* 409 *)
| Created (session_id message_id : string) (status : SessionStatus). (* 201 *)

Module QuestionsResult.
Record t := mk {
  sessions : Store;
  response : QuestionsResponse;
  push : option SendQuestionInput.t   (* kakaoSender.sendQuestion, if called *)
}.
End QuestionsResult.

(** [req.auth?.method === 'cognito_jwt'], with the caller's id when so. *)
Definition cognitoCaller (a : option Auth) : option string :=
  match a with
  | Some x => match method x with
              | cognito_jwt => Some (user_id x)
              | static_token => None
              end
  | None => None
  end.

(** Lines 49-58: a Cognito caller that names somebody else as target. *)
Definition targetMismatch (caller target_user_id : option string) : bool :=
  match caller, target_user_id with
  | Some uid, Some target => truthy (Some target) && negb (uid =? target)%string
  | _, _ => false
  end.

(** Lines 61-63: [isCognitoAuth ? (target_user_id ?? req.auth!.user_id) : undefined]. *)
Definition ownerUserIdOf (caller target_user_id : option string) : option string :=
  match caller with
  | Some uid => nullish target_user_id (Some uid)
  | None => None
  end.

Definition post_question (cfg : Config) (env : QuestionsEnv.t)
    (req : QuestionsRequest.t) (sessions : Store) : QuestionsResult.t :=
  let session_id := QuestionsRequest.session_id req in
  let b := QuestionsRequest.body req in
  let caller := cognitoCaller (QuestionsRequest.auth req) in
  match QuestionsBody.text b, QuestionsBody.severity b with
  | Some text, Some severity =>
      if (text =? "")%string then QuestionsResult.mk sessions BAD_REQUEST None
      else if targetMismatch caller (QuestionsBody.target_user_id b)
      then QuestionsResult.mk sessions FORBIDDEN None
      else
        let ownerUserId := ownerUserIdOf caller (QuestionsBody.target_user_id b) in
        let '(sessions1, session) :=
          getOrCreateSession (QuestionsEnv.t_created env) (QuestionsEnv.t_updated env)
                             session_id WAITING_USER ownerUserId sessions in
        match Session.status session, Session.pending_question session with
        | WAITING_USER, Some _ => QuestionsResult.mk sessions1 PENDING_EXISTS None
        | _, _ =>
            let message_id := QuestionsEnv.message_id env in
            let session' :=
              setPendingQuestion (QuestionsEnv.t_set env) session
                (PendingQuestion.mk message_id text (QuestionsBody.choices b)
                   (QuestionsBody.timeout_sec b) severity (QuestionsBody.metadata b)
                   (QuestionsEnv.question_created_at env)) in
            QuestionsResult.mk
              (putSession session' sessions1)
              (Created session_id message_id WAITING_USER)
              (if senderEnabled cfg
               then Some (SendQuestionInput.mk session_id message_id text
                            (match QuestionsBody.choices b with
                             | Some cs => cs
                             | None => []
                             end)
                            (FIXED_USER_KEY cfg) ownerUserId)
               else None)
        end
  | _, _ => QuestionsResult.mk sessions BAD_REQUEST None
  end.

(** A request that passes the handler's validation (line 40) and its
    target check (lines 49-58). *)
Definition accepted (req : QuestionsRequest.t) : bool :=
  let b := QuestionsRequest.body req in
  truthy (QuestionsBody.text b)
  && match QuestionsBody.severity b with Some _ => true | None => false end
  && negb (targetMismatch (cognitoCaller (QuestionsRequest.auth req))
                          (QuestionsBody.target_user_id b)).

(* ------------------------------------------------------------------ *)
(** ** routes/replies.ts                                               *)
(* ------------------------------------------------------------------ *)

Module RepliesRequest.
Record t := mk {
  session_id : string;          (* req.params.session_id *)
  since : option string;        (* req.query.since *)
  wait_sec : option string      (* req.query.wait_sec *)
}.
End RepliesRequest.

Module RepliesEnv.
Record t := mk {
  t_created : string;
  t_updated : string;
  date_now : Z                  (* Date.now(), milliseconds *)
}.
End RepliesEnv.

Module RepliesResponse.
Record t := mk {
  session_id : string;
  status : SessionStatus;
  replies : list Reply.t
}.
End RepliesResponse.

(** [Math.min(Math.max(parseInt(wait_sec, 10) || 25, 0), 60)]; an absent
    parameter reads as [NaN]. *)
Definition waitSec (wait_sec : option string) : Z :=
  Z.min
    (Z.max (num_or (match wait_sec with
                    | Some w => JsString.parseInt w
                    | None => None
                    end) 25) 0)
    60.

Definition collectReplies (sinceId : option string) (replies : list Reply.t)
    : list Reply.t :=
  if truthy sinceId then
    match findIndex (fun r => match sinceId with
                              | Some id => (Reply.reply_id r =? id)%string
                              | None => false
                              end) replies with
    | Some idx => skipn (idx + 1) replies
    | None => replies
    end
  else replies.

(** What the handler has done when it returns: answered, or armed the
    one-second timer with the deadline it computed. *)
Inductive PollOutcome :=
| Responded (r : RepliesResponse.t)
| Suspended (deadline : Z).

Definition get_replies (env : RepliesEnv.t) (req : RepliesRequest.t)
    (sessions : Store) : Store * PollOutcome :=
  let session_id := RepliesRequest.session_id req in
  let '(sessions1, session) :=
    getOrCreateSession (RepliesEnv.t_created env) (RepliesEnv.t_updated env)
                       session_id IDLE None sessions in
  let deadline := RepliesEnv.date_now env + waitSec (RepliesRequest.wait_sec req) * 1000 in
  let immediate := collectReplies (RepliesRequest.since req) (Session.replies session) in
  match immediate with
  | _ :: _ =>
      (sessions1, Responded (RepliesResponse.mk session_id (Session.status session) immediate))
  | [] => (sessions1, Suspended deadline)
  end.

(** One firing of [poll]: [session] is the captured session object as it
    is when the timer fires. *)
Definition poll (date_now : Z) (req : RepliesRequest.t) (deadline : Z)
    (session : Session.t) : PollOutcome :=
  let replies := collectReplies (RepliesRequest.since req) (Session.replies session) in
  match replies with
  | _ :: _ =>
      Responded (RepliesResponse.mk (RepliesRequest.session_id req)
                                    (Session.status session) replies)
  | [] =>
      if deadline <=? date_now
      then Responded (RepliesResponse.mk (RepliesRequest.session_id req)
                                         (Session.status session) replies)
      else Suspended deadline
  end.

(* ------------------------------------------------------------------ *)
(** ** routes/webhook.ts                                               *)
(* ------------------------------------------------------------------ *)

(** The fields of the Kakao skill payload that the handler reads. *)
Module WebhookBody.
Record t := mk {
  utterance : option string;    (* body.userRequest.utterance *)
  appUserId : option string;    (* body.userRequest.user.properties.appUserId *)
  kakaoUserId : option string;  (* body.userRequest.user.id *)
  user_key : option string;     (* body.user_key *)
  text : option string          (* body.text *)
}.
End WebhookBody.

(** The outcome of a call to the token vault: a user id or [null], or an
    exception, which the handler catches and logs. *)
Inductive Lookup :=
| Returned (userId : option string)
| Threw.

Module WebhookEnv.
Record t := mk {
  t_called : string;            (* new Date().toISOString() on arrival *)
  kakaoLookup : Lookup;         (* getUserIdByKakaoUserKey(userKey) *)
  chatbotLookup : Lookup;       (* getUserIdByChatbotUserId(userKey) *)
  linkCode : string;            (* createLinkCode(userKey) *)
  reply_id : string;            (* generateReplyId() *)
  reply_created_at : string;    (* new Date().toISOString() *)
  t_add : string                (* now() inside addReply *)
}.
End WebhookEnv.

Module QuickReply.
Record t := mk {
  label : string;
  action : string;
  messageText : string
}.
End QuickReply.

(** [{ version, template: { outputs: [{ simpleText: { text } }], quickReplies? } }] *)
Module KakaoResponse.
Record t := mk {
  version : string;
  text : string;
  quickReplies : option (list QuickReply.t)
}.
End KakaoResponse.

Definition kakaoResponse (text : string) : KakaoResponse.t :=
  KakaoResponse.mk "2.0" text None.

(** The module state of the server: the session table of [store.ts] and
    the two diagnostic variables of [webhook.ts].  (The link-code table
    lives in a module of its own and is not part of this state; the code
    it hands out is [WebhookEnv.linkCode].) *)
Module Server.
Record t := mk {
  sessions : Store;
  webhookCallCount : nat;
  lastWebhookAt : option string
}.
End Server.

Definition nl : string := String (ascii_of_nat 10) "".

Definition MSG_NO_USER_KEY : string := "사용자를 식별할 수 없습니다.".
Definition MSG_REJECTED_USER : string := "허용되지 않은 사용자입니다.".
Definition MSG_NO_WAITING : string := "현재 대기 중인 질문이 없습니다.".
Definition MSG_NO_QUESTION_TEXT : string := "(질문 내용 없음)".
Definition MSG_RECEIVED : string := "응답을 접수했습니다.".
Definition MSG_LINK (linkCode : string) : string :=
  "연동이 필요합니다." ++ nl ++ "연동 코드: " ++ linkCode ++ nl ++ nl
  ++ "이 코드를 Claude Code에 알려주세요.".

Definition QUERY_KEYWORDS : list string := ["pending"; "질문"; "?"].

(** How the handler settles who is writing (lines 80-124). *)
Inductive Resolution :=
| Routed (userId : option string)   (* carry on; [None] is the global search *)
| Unlinked                          (* hand out a link code *)
| Rejected.                         (* single-user mode, foreign key *)

Definition resolveUser (cfg : Config) (env : WebhookEnv.t) (userKey : string)
    : Resolution :=
  if isMultiUserMode cfg then
    let userId1 :=
      match WebhookEnv.kakaoLookup env with
      | Returned r => r
      | Threw => None
      end in
    let userId2 :=
      if truthy userId1 then userId1
      else match WebhookEnv.chatbotLookup env with
           | Returned r => r
           | Threw => userId1
           end in
    if negb (truthy userId2) && truthy (Some (FIXED_USER_KEY cfg))
       && (userKey =? FIXED_USER_KEY cfg)%string
    then Routed None
    else if negb (truthy userId2) then Unlinked
    else Routed userId2
  else
    if negb (userKey =? FIXED_USER_KEY cfg)%string then Rejected
    else Routed None.

(** Lines 56-62: [appUserId ?? kakaoUserId ?? req.body?.user_key]. *)
Definition userKeyOf (body : WebhookBody.t) : option string :=
  nullish (WebhookBody.appUserId body)
    (nullish (WebhookBody.kakaoUserId body) (WebhookBody.user_key body)).

(** Line 63: [utterance ?? req.body?.text ?? '']. *)
Definition userTextOf (body : WebhookBody.t) : string :=
  match nullish (WebhookBody.utterance body) (WebhookBody.text body) with
  | Some t => t
  | None => ""
  end.

(** Lines 132-134: the scoped scan for a truthy [userId], else the global one. *)
Definition selectSession (userId : option string) (sessions : Store)
    : option Session.t :=
  match userId with
  | Some uid =>
      if truthy userId
      then findMostRecentWaitingSessionForUser uid sessions
      else findMostRecentWaitingSession sessions
  | None => findMostRecentWaitingSession sessions
  end.

Section Webhook.

Context {ops : StringOps}.

(** [s.trim().toLowerCase()] *)
Definition normalize (s : string) : string := toLowerCase (trim s).

(** [QUERY_KEYWORDS.includes(normalizedText)] *)
Definition isQueryMode (normalizedText : string) : bool :=
  existsb (fun k => (k =? normalizedText)%string) QUERY_KEYWORDS.

(** The query-mode answer (lines 143-161). *)
Definition queryResponse (question : option PendingQuestion.t) : KakaoResponse.t :=
  let questionText :=
    match question with
    | Some q => PendingQuestion.text q
    | None => MSG_NO_QUESTION_TEXT
    end in
  KakaoResponse.mk "2.0" questionText
    match question with
    | Some q =>
        match PendingQuestion.choices q with
        | Some ((_ :: _) as cs) =>
            Some (map (fun c => QuickReply.mk c "message" c) cs)
        | _ => None
        end
    | None => None
    end.

(** The reply type and choice (lines 166-177). *)
Definition classify (question : option PendingQuestion.t)
    (normalizedText : string) : ReplyType * option string :=
  match question with
  | Some q =>
      match PendingQuestion.choices q with
      | Some ((_ :: _) as cs) =>
          match find (fun c => (normalize c =? normalizedText)%string) cs with
          | Some matched =>
              if truthy (Some matched) then (CHOICE, Some matched)
              else (TEXT, None)
          | None => (TEXT, None)
          end
      | _ => (TEXT, None)
      end
  | None => (TEXT, None)
  end.

Definition webhook (cfg : Config) (env : WebhookEnv.t) (body : WebhookBody.t)
    (st : Server.t) : Server.t * KakaoResponse.t :=
  let sessions := Server.sessions st in
  let count := S (Server.webhookCallCount st) in
  let called := Some (WebhookEnv.t_called env) in
  let arrived := Server.mk sessions count called in
  let userText := userTextOf body in
  match userKeyOf body with
  | Some key =>
      if (key =? "")%string then (arrived, kakaoResponse MSG_NO_USER_KEY)
      else
        match resolveUser cfg env key with
        | Unlinked => (arrived, kakaoResponse (MSG_LINK (WebhookEnv.linkCode env)))
        | Rejected => (arrived, kakaoResponse MSG_REJECTED_USER)
        | Routed userId =>
            let normalizedText := normalize userText in
            match selectSession userId sessions with
            | None => (arrived, kakaoResponse MSG_NO_WAITING)
            | Some session =>
                if isQueryMode normalizedText
                then (arrived, queryResponse (Session.pending_question session))
                else
                  let '(replyType, choice) :=
                    classify (Session.pending_question session) normalizedText in
                  let reply :=
                    Reply.mk (WebhookEnv.reply_id env) replyType
                             (if (userText =? "")%string then None else Some userText)
                             choice (WebhookEnv.reply_created_at env) in
                  (Server.mk
                     (putSession (addReply (WebhookEnv.t_add env) session reply) sessions)
                     count called,
                   kakaoResponse MSG_RECEIVED)
            end
        end
  | None => (arrived, kakaoResponse MSG_NO_USER_KEY)
  end.

(** The sender of [body] gets past user resolution, routed to [userId]. *)
Definition permitted (cfg : Config) (env : WebhookEnv.t) (body : WebhookBody.t)
    (userId : option string) : Prop :=
  exists key, userKeyOf body = Some key /\ key <> ""
              /\ resolveUser cfg env key = Routed userId.

(** A reply whose [choice] is not a query keyword in disguise. *)
Definition reply_ok (r : Reply.t) : Prop :=
  forall c, Reply.type r = CHOICE -> Reply.choice r = Some c ->
            isQueryMode (normalize c) = false.

Definition replies_ok (sessions : Store) : Prop :=
  Forall (fun s => Forall reply_ok (Session.replies s)) sessions.

(** The same message delivered once per entry of [envs]. *)
Fixpoint redeliver (cfg : Config) (envs : list WebhookEnv.t) (body : WebhookBody.t)
    (st : Server.t) : Server.t * list KakaoResponse.t :=
  match envs with
  | [] => (st, [])
  | env :: rest =>
      let '(st1, r) := webhook cfg env body st in
      let '(st2, rs) := redeliver cfg rest body st1 in
      (st2, r :: rs)
  end.

End Webhook.

(* ------------------------------------------------------------------ *)
(** ** The server as a state machine                                   *)
(* ------------------------------------------------------------------ *)

(** One request handled to completion.  Node runs a handler without
    interleaving from the point where it first touches the session table
    (the only [await]s, the token-vault lookups of the webhook, come
    before), so for the session table a request is one step.  The two
    diagnostic variables are written when a webhook call arrives; nothing
    below depends on them. *)
Inductive Op :=
| PostQuestion (env : QuestionsEnv.t) (req : QuestionsRequest.t)
| PollReplies (env : RepliesEnv.t) (req : RepliesRequest.t)
| WebhookIntake (env : WebhookEnv.t) (body : WebhookBody.t).

Section Machine.

Context {ops : StringOps}.
Variable cfg : Config.

Definition step (st : Server.t) (op : Op) : Server.t :=
  match op with
  | PostQuestion env req =>
      Server.mk (QuestionsResult.sessions (post_question cfg env req (Server.sessions st)))
                (Server.webhookCallCount st) (Server.lastWebhookAt st)
  | PollReplies env req =>
      Server.mk (fst (get_replies env req (Server.sessions st)))
                (Server.webhookCallCount st) (Server.lastWebhookAt st)
  | WebhookIntake env body => fst (webhook cfg env body st)
  end.

Definition run (l : list Op) (st : Server.t) : Server.t := fold_left step l st.

Definition initial : Server.t := Server.mk [] 0 None.

Definition reachable (st : Server.t) : Prop := exists l, run l initial = st.

End Machine.

(** A session holds a question exactly when it waits for the user. *)
Definition session_ok (s : Session.t) : Prop :=
  Session.pending_question s <> None <-> Session.status s = WAITING_USER.

(** Keys of the session table are unique, and every session is well formed. *)
Definition store_ok (sessions : Store) : Prop :=
  NoDup (map Session.session_id sessions) /\ Forall session_ok sessions.

(** [q] is a pending question of the session [sessionId]. *)
Definition pending_of (sessions : Store) (sessionId : string)
    (q : PendingQuestion.t) : Prop :=
  exists s, In s sessions /\ Session.session_id s = sessionId
            /\ Session.pending_question s = Some q.

(** A candidate of the user-scoped scan. *)
Definition waiting_for (userId : string) (s : Session.t) : Prop :=
  Session.status s = WAITING_USER /\ Session.owner_user_id s = Some userId.

(* ------------------------------------------------------------------ *)
(** ** Concrete runs                                                   *)
(* ------------------------------------------------------------------ *)

Module Sample.

(** Single-user mode and multi-user mode. *)
Definition cfgA : Config := Build_Config "kakao-user-1" "" false.
Definition cfgB : Config := Build_Config "kakao-user-1" "kakao-tokens" true.

Definition staticAuth : option Auth := Some (Build_Auth "static-token" static_token).

Definition at_sec (n : string) : string := "2026-01-01T00:00:" ++ n ++ ".000Z".

Definition qenv (sec mid : string) : QuestionsEnv.t :=
  QuestionsEnv.mk (at_sec sec) (at_sec sec) mid (at_sec sec) (at_sec sec).

Definition question (text : string) (choices : option (list string)) : QuestionsBody.t :=
  QuestionsBody.mk (Some text) choices None (Some WARNING) None None.

(** [POST /v1/sessions/S1/questions] with "Deploy?" and Yes / No. *)
Definition deploy : QuestionsRequest.t :=
  QuestionsRequest.mk "S1" (question "Deploy?" (Some ["Yes"; "No"])) staticAuth.

Definition tooLate : QuestionsRequest.t :=
  QuestionsRequest.mk "S1" (question "Again?" None) staticAuth.

Definition noText : QuestionsRequest.t :=
  QuestionsRequest.mk "S1" (QuestionsBody.mk (Some "") None None (Some INFO) None None)
                      staticAuth.

Definition says (utterance : string) : WebhookBody.t :=
  WebhookBody.mk (Some utterance) None (Some "kakao-user-1") None None.

Definition wenv (sec rid : string) : WebhookEnv.t :=
  WebhookEnv.mk (at_sec sec) (Returned None) (Returned None) "A1B2C3" rid
                (at_sec sec) (at_sec sec).

Definition renv : RepliesEnv.t :=
  RepliesEnv.mk (at_sec "30") (at_sec "30") 1767225630000.

Definition waiting (sid owner updated : string) (choices : option (list string))
    : Session.t :=
  Session.mk sid WAITING_USER
    (Some (PendingQuestion.mk ("m-" ++ sid) "Deploy?" choices None WARNING None updated))
    [] updated updated (Some owner).

(** Two waiting sessions, the one of [userB] being the newer. *)
Definition twoUsers : Store :=
  [ waiting "SA" "userA" (at_sec "10") None;
    waiting "SB" "userB" (at_sec "20") None ].

Definition reply (rid : string) : Reply.t :=
  Reply.mk rid TEXT (Some "ok") None (at_sec "40").

Definition answered : Session.t :=
  Session.mk "S3" RESOLVED None [reply "r1"; reply "r2"; reply "r3"]
             (at_sec "01") (at_sec "40") None.

Definition pollS2 : RepliesRequest.t := RepliesRequest.mk "S2" None (Some "5").

Definition pollS3 (since : option string) : RepliesRequest.t :=
  RepliesRequest.mk "S3" since None.

(** [GET /v1/sessions/S4/replies?wait_sec=0] *)
Definition pollNoWait : RepliesRequest.t := RepliesRequest.mk "S4" None (Some "0").

(** A question one of whose choices is the empty string, then an empty
    message from the permitted user. *)
Definition blankChoice : list Op :=
  [ PostQuestion (qenv "01" "m-1")
      (QuestionsRequest.mk "S1" (question "Pick" (Some [""; "No"])) staticAuth);
    WebhookIntake (wenv "05" "r-1") (says "") ].

(** "Deploy?" with Yes / No, then the user's message. *)
Definition answeredWith (utterance : string) : list Op :=
  [ PostQuestion (qenv "01" "m-1") deploy;
    WebhookIntake (wenv "05" "r-1") (says utterance) ].

(** A question that offers "?" as a choice. *)
Definition askMark : list Op :=
  [ PostQuestion (qenv "01" "m-1")
      (QuestionsRequest.mk "S1" (question "Sure" (Some ["?"; "No"])) staticAuth) ].

(** A message from a Kakao user that the token vault maps to [userA]. *)
Definition wenvA : WebhookEnv.t :=
  WebhookEnv.mk (at_sec "25") (Returned (Some "userA")) (Returned None) "A1B2C3" "r-9"
                (at_sec "25") (at_sec "25").

Definition fromLinked (utterance : string) : WebhookBody.t :=
  WebhookBody.mk (Some utterance) None (Some "kakao-user-7") None None.

(** The run that posts [deploy] to session S1 of an empty server. *)
Definition posted : list Op := [PostQuestion (qenv "01" "m-1") deploy].

End Sample.

(** What a scan for the sessions selected by [cand] knows about [latest]
    after the sessions [seen]: nothing was selected so far, or [latest] is
    a selected session that none of the selected ones is newer than. *)
Definition scan_inv (cand : Session.t -> bool) (seen : list Session.t)
    (latest : option Session.t) : Prop :=
  match latest with
  | None => forall c, In c seen -> cand c = false
  | Some l =>
      In l seen /\ cand l = true
      /\ forall c, In c seen -> cand c = true ->
                   str_gt (Session.updated_at c) (Session.updated_at l) = false
  end.

(* ------------------------------------------------------------------ *)
(** ** Further notions on the session table                            *)
(* ------------------------------------------------------------------ *)

(** [l] is, among the sessions selected by [cand], the first of the most
    recent ones: those before it are strictly older, those after it are
    not newer. *)
Definition first_latest (cand : Session.t -> bool) (sessions : list Session.t)
    (l : Session.t) : Prop :=
  exists pre post,
    sessions = (pre ++ l :: post)%list /\ cand l = true
    /\ (forall c, In c pre -> cand c = true ->
                  str_gt (Session.updated_at l) (Session.updated_at c) = true)
    /\ (forall c, In c post -> cand c = true ->
                  str_gt (Session.updated_at c) (Session.updated_at l) = false).

Definition scan_first (cand : Session.t -> bool) (seen : list Session.t)
    (latest : option Session.t) : Prop :=
  match latest with
  | None => forall c, In c seen -> cand c = false
  | Some l => first_latest cand seen l
  end.

Definition is_waiting (s : Session.t) : bool :=
  SessionStatus_eqb (Session.status s) WAITING_USER.

(** [new] is the session [old] at a later time: same id, creation time
    and owner, and the replies of [old] followed by later ones. *)
Definition session_extends (old new : Session.t) : Prop :=
  Session.session_id new = Session.session_id old
  /\ Session.created_at new = Session.created_at old
  /\ Session.owner_user_id new = Session.owner_user_id old
  /\ exists later, Session.replies new = (Session.replies old ++ later)%list.

(** [new] is the table [old] at a later time: the same sessions in the
    same order, each one extended, followed by the sessions created since. *)
Definition store_extends (old new : Store) : Prop :=
  exists kept created,
    new = (kept ++ created)%list /\ Forall2 session_extends old kept.

(** The statuses and reply types the server produces. *)
Definition session_live (s : Session.t) : Prop :=
  match Session.status s with
  | IDLE => Session.replies s = []
  | WAITING_USER => True
  | RESOLVED => Session.replies s <> []
  | EXPIRED | CANCELED => False
  end.

Definition reply_typed (r : Reply.t) : Prop :=
  match Reply.type r with
  | TEXT => Reply.choice r = None
  | CHOICE => exists c, Reply.choice r = Some c /\ c <> ""
  | CANCEL => False
  end.

Definition store_live (sessions : Store) : Prop :=
  Forall (fun s => session_live s /\ Forall reply_typed (Session.replies s)) sessions.

(* ------------------------------------------------------------------ *)
(** ** routes/replies.ts: the timer loop                               *)
(* ------------------------------------------------------------------ *)

(** The firings of [setTimeout(poll, 1000)] after the handler returned:
    each with its reading of [Date.now()] and the captured session object
    as it is then.  The result is the number of the firing that answers
    and the answer; [None] while the request is still suspended after the
    last of [ticks]. *)
Fixpoint poll_loop (req : RepliesRequest.t) (deadline : Z)
    (ticks : list (Z * Session.t)) : option (nat * RepliesResponse.t) :=
  match ticks with
  | [] => None
  | (date_now, session) :: rest =>
      match poll date_now req deadline session with
      | Responded r => Some (1%nat, r)
      | Suspended _ =>
          match poll_loop req deadline rest with
          | Some (n, r) => Some (S n, r)
          | None => None
          end
      end
  end.

(** The whole request: the handler, then the timer loop.  Firing 0 is the
    immediate answer. *)
Definition long_poll (env : RepliesEnv.t) (req : RepliesRequest.t)
    (sessions : Store) (ticks : list (Z * Session.t))
    : Store * option (nat * RepliesResponse.t) :=
  match get_replies env req sessions with
  | (sessions1, Responded r) => (sessions1, Some (0%nat, r))
  | (sessions1, Suspended deadline) => (sessions1, poll_loop req deadline ticks)
  end.

(** Timers fire no earlier than asked: the firing number [k] (from 0)
    comes at least [1000 * (k + 1)] ms after the handler read the clock. *)
Definition timely (date_now : Z) (ticks : list (Z * Session.t)) : Prop :=
  forall k t s, nth_error ticks k = Some (t, s) ->
                date_now + 1000 * (Z.of_nat k + 1) <= t.

(* ------------------------------------------------------------------ *)
(** ** local-bridge/src/index.ts: what [askUser] makes of a poll        *)
(* ------------------------------------------------------------------ *)

Inductive AskStatus := ASK_RESOLVED | ASK_EXPIRED | ASK_CANCELED | ASK_ERROR.

Module AskUserOutput.
Record t := mk {
  status : AskStatus;
  reply_text : option string;
  choice : option string;
  reply_id : option string;
  error_code : option string;
  error_message : option string
}.
End AskUserOutput.

(** Lines 276-292: the first reply of the poll is adopted; without a
    reply, [EXPIRED] and [CANCELED] end the wait; [None] is another turn
    of the loop. *)
Definition askUser_onPoll (data : RepliesResponse.t) : option AskUserOutput.t :=
  match RepliesResponse.replies data with
  | reply :: _ =>
      Some (AskUserOutput.mk ASK_RESOLVED (Reply.text reply) (Reply.choice reply)
              (Some (Reply.reply_id reply)) None None)
  | [] =>
      match RepliesResponse.status data with
      | EXPIRED => Some (AskUserOutput.mk ASK_EXPIRED None None None None None)
      | CANCELED => Some (AskUserOutput.mk ASK_CANCELED None None None None None)
      | _ => None
      end
  end.

(* ------------------------------------------------------------------ *)
(** ** Notions for the end-to-end properties                           *)
(* ------------------------------------------------------------------ *)

(** The pending question that an accepted request installs. *)
Definition questionOf (env : QuestionsEnv.t) (b : QuestionsBody.t)
    (text : string) (severity : Severity) : PendingQuestion.t :=
  PendingQuestion.mk (QuestionsEnv.message_id env) text (QuestionsBody.choices b)
    (QuestionsBody.timeout_sec b) severity (QuestionsBody.metadata b)
    (QuestionsEnv.question_created_at env).

(** The session a request is about, before the question is installed:
    the stored one, or the one [getOrCreateSession] builds. *)
Definition sessionFor (env : QuestionsEnv.t) (req : QuestionsRequest.t)
    (sessions : Store) : Session.t :=
  snd (getOrCreateSession (QuestionsEnv.t_created env) (QuestionsEnv.t_updated env)
         (QuestionsRequest.session_id req) WAITING_USER
         (ownerUserIdOf (cognitoCaller (QuestionsRequest.auth req))
                        (QuestionsBody.target_user_id (QuestionsRequest.body req)))
         sessions).

(** The webhook route [userId] reaches the session [s]: the global route
    reaches every session, a scoped one the sessions of its user. *)
Definition reaches (userId : option string) (s : Session.t) : Prop :=
  match userId with
  | None => True
  | Some u => u <> "" /\ Session.owner_user_id s = Some u
  end.

Definition no_session_waits (sessions : Store) : Prop :=
  forall c, In c sessions -> Session.status c <> WAITING_USER.

(** The push that goes with an installed question (lines 94-104). *)
Definition pushOf (cfg : Config) (env : QuestionsEnv.t) (req : QuestionsRequest.t)
    (text : string) : option SendQuestionInput.t :=
  if senderEnabled cfg
  then Some (SendQuestionInput.mk (QuestionsRequest.session_id req)
               (QuestionsEnv.message_id env) text
               (match QuestionsBody.choices (QuestionsRequest.body req) with
                | Some cs => cs
                | None => []
                end)
               (FIXED_USER_KEY cfg)
               (ownerUserIdOf (cognitoCaller (QuestionsRequest.auth req))
                  (QuestionsBody.target_user_id (QuestionsRequest.body req))))
  else None.

(** The user id the two vault lookups leave in [userId] (lines 85-103):
    the Kakao-key lookup first, the chatbot-id lookup when that gave
    nothing truthy; an exception leaves [userId] as it is. *)
Definition vaultUserId (env : WebhookEnv.t) : option string :=
  let userId1 :=
    match WebhookEnv.kakaoLookup env with
    | Returned r => r
    | Threw => None
    end in
  if truthy userId1 then userId1
  else match WebhookEnv.chatbotLookup env with
       | Returned r => r
       | Threw => userId1
       end.

(* ------------------------------------------------------------------ *)
(** ** middleware/auth.ts                                              *)
(* ------------------------------------------------------------------ *)

Module JsText.

(** [s.startsWith(p)] *)
Fixpoint startsWith (p s : string) : bool :=
  match p, s with
  | EmptyString, _ => true
  | String a p', String b s' => Ascii.eqb a b && startsWith p' s'
  | String _ _, EmptyString => false
  end.

(** [s.slice(n)] for [n] within the ASCII prefix of [s]. *)
Fixpoint sliceFrom (n : nat) (s : string) : string :=
  match n, s with
  | O, _ => s
  | S n', String _ s' => sliceFrom n' s'
  | S _, EmptyString => EmptyString
  end.

Definition isAsciiByte (c : ascii) : bool := (N_of_ascii c <? 128)%N.

Fixpoint isAscii (s : string) : bool :=
  match s with
  | String c r => isAsciiByte c && isAscii r
  | EmptyString => true
  end.

Definition upperByte (c : ascii) : ascii :=
  let n := N_of_ascii c in
  if ((97 <=? n) && (n <=? 122))%N then ascii_of_N (n - 32) else c.

(** [String.prototype.toUpperCase] on ASCII text. *)
Fixpoint upperAscii (s : string) : string :=
  match s with
  | String c r => String (upperByte c) (upperAscii r)
  | EmptyString => EmptyString
  end.

Definition hexDigit (n : N) : ascii :=
  if (n <? 10)%N then ascii_of_N (48 + n) else ascii_of_N (87 + n).

(** [Buffer.toString('hex')]: two lower-case digits per byte. *)
Fixpoint toHex (bytes : list ascii) : string :=
  match bytes with
  | [] => ""
  | b :: rest =>
      String (hexDigit (N_of_ascii b / 16))
        (String (hexDigit (N_of_ascii b mod 16)) (toHex rest))
  end.

Definition isUpperHexByte (c : ascii) : bool :=
  let n := N_of_ascii c in
  (((48 <=? n) && (n <=? 57)) || ((65 <=? n) && (n <=? 70)))%N.

Fixpoint isUpperHex (s : string) : bool :=
  match s with
  | String c r => isUpperHexByte c && isUpperHex r
  | EmptyString => true
  end.

End JsText.

(** [String.prototype.toUpperCase]: any function that upper-cases ASCII
    text letter by letter, as ECMAScript's does. *)
Class UpperCase := {
  toUpperCase : string -> string;
  toUpperCase_ascii :
    forall s, JsText.isAscii s = true -> toUpperCase s = JsText.upperAscii s
}.

#[export] Instance AsciiUpper : UpperCase :=
  {| toUpperCase := JsText.upperAscii;
     toUpperCase_ascii := fun s _ => eq_refl |}.

Module AuthConfig.
Record t := mk {
  AUTH_TOKEN : string;
  COGNITO_REGION : string;
  COGNITO_USER_POOL_ID : string;
  COGNITO_APP_CLIENT_ID : string
}.
End AuthConfig.

(** [!!(COGNITO_REGION && COGNITO_USER_POOL_ID && COGNITO_APP_CLIENT_ID)] *)
Definition cognitoEnabled (acfg : AuthConfig.t) : bool :=
  truthy (Some (AuthConfig.COGNITO_REGION acfg))
  && truthy (Some (AuthConfig.COGNITO_USER_POOL_ID acfg))
  && truthy (Some (AuthConfig.COGNITO_APP_CLIENT_ID acfg)).

(** What [verifyCognitoJwt(token)] settles to. *)
Inductive JwtOutcome :=
| JwtVerified (sub : string)
| JwtRejected.

(** [requireAuth]: [Some auth] when [next()] is called with [req.auth]
    set, [None] for the 401 answer.  [authorization] is the request's
    header and [verify] what the JWT check makes of a token. *)
Definition requireAuth (acfg : AuthConfig.t) (verify : string -> JwtOutcome)
    (authorization : option string) : option Auth :=
  match authorization with
  | Some header =>
      if negb (truthy (Some header)) || negb (JsText.startsWith "Bearer " header)
      then None
      else
        let token := JsText.sliceFrom (String.length "Bearer ") header in
        if truthy (Some (AuthConfig.AUTH_TOKEN acfg))
           && (token =? AuthConfig.AUTH_TOKEN acfg)%string
        then Some (Build_Auth "static-token" static_token)
        else if negb (cognitoEnabled acfg) then None
        else match verify token with
             | JwtVerified sub => Some (Build_Auth sub cognito_jwt)
             | JwtRejected => None
             end
  | None => None
  end.

(* ------------------------------------------------------------------ *)
(** ** store/linkCodes.ts                                              *)
(* ------------------------------------------------------------------ *)

Module LinkCodeEntry.
Record t := mk {
  chatbot_user_id : string;
  created_at : Z                  (* Date.now() *)
}.
End LinkCodeEntry.

(** [const store = new Map<string, LinkCodeEntry>()], in insertion order. *)
Definition LinkStore := list (string * LinkCodeEntry.t).

Definition LINK_CODE_TTL_MS : Z := 10 * 60 * 1000.

Definition linkGet (code : string) (store : LinkStore) : option LinkCodeEntry.t :=
  option_map snd (find (fun ce => (fst ce =? code)%string) store).

Definition linkDelete (code : string) (store : LinkStore) : LinkStore :=
  filter (fun ce => negb (fst ce =? code)%string) store.

(** [store.set(code, entry)]: a known key keeps its place. *)
Definition linkSet (code : string) (entry : LinkCodeEntry.t) (store : LinkStore)
    : LinkStore :=
  match linkGet code store with
  | Some _ => map (fun ce => if (fst ce =? code)%string then (code, entry) else ce) store
  | None => (store ++ [(code, entry)])%list
  end.

(** [now - entry.created_at > LINK_CODE_TTL_MS] *)
Definition linkExpired (now : Z) (entry : LinkCodeEntry.t) : bool :=
  LINK_CODE_TTL_MS <? now - LinkCodeEntry.created_at entry.

Definition cleanExpired (now : Z) (store : LinkStore) : LinkStore :=
  filter (fun ce => negb (linkExpired now (snd ce))) store.

Section LinkCodes.

Context {up : UpperCase}.

(** [createLinkCode]: [now_clean] is the clock read by [cleanExpired],
    [random] the three bytes of [crypto.randomBytes(3)], [now_set] the
    clock read for [created_at]. *)
Definition createLinkCode (now_clean : Z) (random : ascii * ascii * ascii)
    (now_set : Z) (chatbotUserId : string) (store : LinkStore) : LinkStore * string :=
  let store1 := cleanExpired now_clean store in
  let '(b1, b2, b3) := random in
  let code := toUpperCase (JsText.toHex [b1; b2; b3]) in
  (linkSet code (LinkCodeEntry.mk chatbotUserId now_set) store1, code).

(** [resolveLinkCode]; [None] is [null]. *)
Definition resolveLinkCode (now : Z) (code : string) (store : LinkStore)
    : LinkStore * option string :=
  match linkGet (toUpperCase code) store with
  | None => (store, None)
  | Some entry =>
      if linkExpired now entry
      then (linkDelete (toUpperCase code) store, None)
      else (linkDelete (toUpperCase code) store,
            Some (LinkCodeEntry.chatbot_user_id entry))
  end.

End LinkCodes.

(* ------------------------------------------------------------------ *)
(** ** routes/linkChatbot.ts                                           *)
(* ------------------------------------------------------------------ *)

Module LinkBody.
Record t := mk {
  link_code : option string;
  target_user_id : option string
}.
End LinkBody.

(** What [saveChatbotUserId] does: it returns or it throws. *)
Inductive SaveOutcome := SaveDone | SaveThrew.

Inductive LinkResponse :=
| LINK_CODE_REQUIRED                  (* 400 BAD_REQUEST, link_code is required *)
| LINK_TARGET_REQUIRED                (* 400 BAD_REQUEST, target_user_id is required *)
| LINK_FORBIDDEN                      (* 403 *)
| LINK_INVALID_CODE                   (* 400 INVALID_CODE *)
| LINK_OK (chatbot_user_id : string)  (* 200 *)
| LINK_INTERNAL_ERROR.                (* 500 *)

Module LinkResult.
Record t := mk {
  store : LinkStore;
  response : LinkResponse;
  saved : option (string * string)   (* saveChatbotUserId(userId, chatbotUserId) *)
}.
End LinkResult.

Section LinkChatbot.

Context {up : UpperCase}.

Definition link_chatbot (now : Z) (save : SaveOutcome) (auth : option Auth)
    (body : LinkBody.t) (store : LinkStore) : LinkResult.t :=
  match LinkBody.link_code body with
  | Some link_code =>
      if negb (truthy (Some link_code)) then LinkResult.mk store LINK_CODE_REQUIRED None
      else
        let caller := cognitoCaller auth in
        let userId :=
          match caller with
          | Some uid => nullish (LinkBody.target_user_id body) (Some uid)
          | None => LinkBody.target_user_id body
          end in
        match userId with
        | Some user =>
            if negb (truthy userId) then LinkResult.mk store LINK_TARGET_REQUIRED None
            else if targetMismatch caller (LinkBody.target_user_id body)
            then LinkResult.mk store LINK_FORBIDDEN None
            else
              let '(store1, chatbotUserId) := resolveLinkCode now link_code store in
              match chatbotUserId with
              | Some chatbot =>
                  if negb (truthy chatbotUserId)
                  then LinkResult.mk store1 LINK_INVALID_CODE None
                  else match save with
                       | SaveDone =>
                           LinkResult.mk store1 (LINK_OK chatbot) (Some (user, chatbot))
                       | SaveThrew =>
                           LinkResult.mk store1 LINK_INTERNAL_ERROR (Some (user, chatbot))
                       end
              | None => LinkResult.mk store1 LINK_INVALID_CODE None
              end
        | None => LinkResult.mk store LINK_TARGET_REQUIRED None
        end
  | None => LinkResult.mk store LINK_CODE_REQUIRED None
  end.

End LinkChatbot.


(** The webhook together with the link-code table: [createLinkCode(userKey)]
    runs on the one branch that answers an unlinked sender (lines 108-116),
    and the code it returns is the one the answer shows. *)
Definition withLinkCode (code : string) (env : WebhookEnv.t) : WebhookEnv.t :=
  WebhookEnv.mk (WebhookEnv.t_called env) (WebhookEnv.kakaoLookup env)
    (WebhookEnv.chatbotLookup env) code (WebhookEnv.reply_id env)
    (WebhookEnv.reply_created_at env) (WebhookEnv.t_add env).

Section WebhookLinks.
Context {ops : StringOps} {up : UpperCase}.

Definition webhook_links (cfg : Config) (env : WebhookEnv.t)
    (now_clean : Z) (random : ascii * ascii * ascii) (now_set : Z)
    (body : WebhookBody.t) (st : Server.t) (links : LinkStore)
    : (Server.t * KakaoResponse.t) * LinkStore :=
  match userKeyOf body with
  | Some key =>
      if (key =? "")%string then (webhook cfg env body st, links)
      else
        match resolveUser cfg env key with
        | Unlinked =>
            let '(links1, code) :=
              createLinkCode now_clean random now_set key links in
            (webhook cfg (withLinkCode code env) body st, links1)
        | Routed _ | Rejected => (webhook cfg env body st, links)
        end
  | None => (webhook cfg env body st, links)
  end.

End WebhookLinks.


(* ------------------------------------------------------------------ *)
(** ** Retries: outbound/kakaoSender.ts and local-bridge/src/index.ts  *)
(* ------------------------------------------------------------------ *)

(** What one call of the retried function settles to. *)
Inductive Attempt (T E : Type) :=
| Fulfilled (v : T)
| Failed (err : E).
Arguments Fulfilled {T E} v.
Arguments Failed {T E} err.

(** How a retry loop ends: a value, or a throw; [Throws None] is
    [throw undefined], what the statement after the loop would throw had no
    call been made. *)
Inductive Outcome (T E : Type) :=
| Gives (v : T)
| Throws (err : option E).
Arguments Gives {T E} v.
Arguments Throws {T E} err.

Module Retry.
Record t (T E : Type) := mk {
  outcome : Outcome T E;
  slept : list Z;               (* the [sleep(ms)] calls, in order *)
  calls : nat                   (* how often [fn] was called *)
}.
Arguments mk {T E} outcome slept calls.
Arguments outcome {T E} t.
Arguments slept {T E} t.
Arguments calls {T E} t.
End Retry.

Definition slept_then {T E : Type} (ms : Z) (r : Retry.t T E) : Retry.t T E :=
  Retry.mk (Retry.outcome r) (ms :: Retry.slept r) (S (Retry.calls r)).

(** The relay's sender (kakaoSender.ts, lines 104-132). *)
Module KakaoSender.

Inductive Thrown :=
| HttpError (status : Z)
| NetworkError.                 (* anything that is not an [HttpError] *)

Definition RETRY_DELAYS : list Z := [500; 1000; 2000].

Definition isRetryable (err : Thrown) : bool :=
  match err with
  | HttpError status => 500 <=? status
  | NetworkError => true
  end.

(** The [for] loop from [attempt] on; [fn k] is what the call made in
    round [k] settles to, [fuel] bounds the rounds. *)
Fixpoint retry_loop {T : Type} (fn : nat -> Attempt T Thrown) (fuel attempt : nat)
    (lastErr : option Thrown) : Retry.t T Thrown :=
  match fuel with
  | O => Retry.mk (Throws lastErr) [] 0
  | S fuel' =>
      if (attempt <=? List.length RETRY_DELAYS)%nat then
        match fn attempt with
        | Fulfilled v => Retry.mk (Gives v) [] 1
        | Failed err =>
            if (attempt <? List.length RETRY_DELAYS)%nat && isRetryable err
            then slept_then (nth attempt RETRY_DELAYS 0)
                   (retry_loop fn fuel' (S attempt) (Some err))
            else Retry.mk (Throws (Some err)) [] 1
        end
      else Retry.mk (Throws lastErr) [] 0
  end.

Definition withRetry {T : Type} (fn : nat -> Attempt T Thrown) : Retry.t T Thrown :=
  retry_loop fn (S (S (List.length RETRY_DELAYS))) 0 None.

End KakaoSender.

(** The bridge (index.ts, lines 101-124): every throw is retried. *)
Module Bridge.

Definition DELAYS : list Z := [500; 1000; 2000].
Definition MAX_RETRIES : nat := 3.

Fixpoint retry_loop {T E : Type} (fn : nat -> Attempt T E) (fuel attempt : nat)
    (lastError : option E) : Retry.t T E :=
  match fuel with
  | O => Retry.mk (Throws lastError) [] 0
  | S fuel' =>
      if (attempt <=? MAX_RETRIES)%nat then
        match fn attempt with
        | Fulfilled v => Retry.mk (Gives v) [] 1
        | Failed err =>
            let next := retry_loop fn fuel' (S attempt) (Some err) in
            if (attempt <? MAX_RETRIES)%nat
            then slept_then (nth attempt DELAYS 2000) next
            else Retry.mk (Retry.outcome next) (Retry.slept next) (S (Retry.calls next))
        end
      else Retry.mk (Throws lastError) [] 0
  end.

Definition withRetry {T E : Type} (fn : nat -> Attempt T E) : Retry.t T E :=
  retry_loop fn (S (S MAX_RETRIES)) 0 None.

End Bridge.

(** What a retry loop makes of the call it ends on. *)
Definition settled {T E : Type} (a : Attempt T E) : Outcome T E :=
  match a with
  | Fulfilled v => Gives v
  | Failed err => Throws (Some err)
  end.


(* ------------------------------------------------------------------ *)
(** ** local-bridge/src/index.ts: fetching and the polling schedule    *)
(* ------------------------------------------------------------------ *)

(** The [Response] of a [fetch]. *)
Module HttpResponse.
Record t := mk {
  status : Z;
  body : string
}.
End HttpResponse.

Inductive AuthSource :=
| no_auth                       (* 'none' *)
| credentials
| env_cognito_id
| env_cognito_access
| env_static_token.

Definition fromCredentials (a : AuthSource) : bool :=
  match a with
  | credentials => true
  | _ => false
  end.

(** What the calls inside [relayFetchWithRefresh] settle to, should they
    be made: [loadCredentials()] (with [None] for [null]), the [id_token]
    of [refreshAndSave(...)], and the second [relayFetch]. *)
Module RefreshEnv.
Record t (E : Type) := mk {
  loadCredentials : Attempt (option string) E;
  refreshAndSave : Attempt string E;
  retried : Attempt HttpResponse.t E
}.
Arguments mk {E} loadCredentials refreshAndSave retried.
Arguments loadCredentials {E} t.
Arguments refreshAndSave {E} t.
Arguments retried {E} t.
End RefreshEnv.

(** The result of [relayFetchWithRefresh], [currentAuthToken] afterwards,
    and the bearer tokens of the requests that were sent, in order. *)
Module Fetched.
Record t (E : Type) := mk {
  result : Attempt HttpResponse.t E;
  token : string;
  sent : list string
}.
Arguments mk {E} result token sent.
Arguments result {E} t.
Arguments token {E} t.
Arguments sent {E} t.
End Fetched.

(** Lines 73-96; [first] is what the first [relayFetch] settles to. *)
Definition relayFetchWithRefresh {E : Type} (authSource : AuthSource)
    (currentAuthToken : string) (first : Attempt HttpResponse.t E)
    (env : RefreshEnv.t E) : Fetched.t E :=
  match first with
  | Failed err => Fetched.mk (Failed err) currentAuthToken [currentAuthToken]
  | Fulfilled res =>
      let unchanged :=
        Fetched.mk (Fulfilled res) currentAuthToken [currentAuthToken] in
      if (HttpResponse.status res =? 401)%Z && fromCredentials authSource then
        match RefreshEnv.loadCredentials env with
        | Fulfilled (Some creds) =>
            match RefreshEnv.refreshAndSave env with
            | Fulfilled id_token =>
                match RefreshEnv.retried env with
                | Fulfilled res2 =>
                    Fetched.mk (Fulfilled res2) id_token [currentAuthToken; id_token]
                | Failed _ =>
                    Fetched.mk (Fulfilled res) id_token [currentAuthToken; id_token]
                end
            | Failed _ => unchanged
            end
        | Fulfilled None => unchanged
        | Failed _ => unchanged
        end
      else unchanged
  end.

Definition POLL_WAIT : Z := 25.

(** [`${n}`] for an integer [n]. *)
Definition numberToString (n : Z) : string :=
  NilZero.string_of_int (Z.to_int n).

(** Line 239: [Math.ceil((deadline - Date.now()) / 1000)].  [deadline] is
    [Date.now() + timeout_sec * 1000], a fraction when [timeout_sec] has
    one. *)
Definition remainingSec (deadline : Q) (date_now : Z) : Z :=
  Qceiling ((deadline - inject_Z date_now) / inject_Z 1000)%Q.

(** One turn of the polling loop up to its request (lines 238-241):
    [now_loop] and [now_rem] are the two readings of [Date.now()].
    [Some w] is a poll with [?wait_sec=w], [None] leaves the loop. *)
Definition askUser_turn (deadline : Q) (now_loop now_rem : Z) : option Z :=
  if negb (Qle_bool deadline (inject_Z now_loop)) then
    let waitSec := Z.min (Z.min POLL_WAIT (remainingSec deadline now_rem)) 60 in
    if (waitSec <=? 0)%Z then None else Some waitSec
  else None.


(** The webhook calls among the requests of a run, in order. *)
Fixpoint webhookCalls (l : list Op) : list WebhookEnv.t :=
  match l with
  | [] => []
  | WebhookIntake env _ :: rest => env :: webhookCalls rest
  | _ :: rest => webhookCalls rest
  end.


(* ------------------------------------------------------------------ *)
(** ** outbound/kakaoSender.ts: which sender is built                  *)
(* ------------------------------------------------------------------ *)

(** The environment variables the factory reads; [None] is an unset one. *)
Module SenderEnv.
Record t := mk {
  KAKAO_PROVIDER : option string;
  KAKAO_PROVIDER_MODE : option string;
  KAKAO_CLIENT_ID : option string;
  KAKAO_OAUTH_CLIENT_ID : option string;
  KAKAO_OAUTH_SECRET : option string;
  KAKAO_SENDER_KEY : option string;
  KAKAO_TEMPLATE_CODE : option string;
  KAKAO_SENDER_NO : option string;
  KAKAO_PHONE_NUMBER : option string;
  KAKAO_BASE_URL : option string
}.
End SenderEnv.

Module BizMessageConfig.
Record t := mk {
  baseUrl : string;
  clientId : string;
  clientSecret : string;
  senderKey : string;
  templateCode : string;
  senderNo : string;
  phoneNumber : string
}.
End BizMessageConfig.

(** [process.env.X ?? d] *)
Definition envOr (v : option string) (d : string) : string :=
  match v with
  | Some x => x
  | None => d
  end.

(** [if (!v) missing.push(name)] *)
Definition pushMissing (v name : string) (missing : list string) : list string :=
  if negb (truthy (Some v)) then (missing ++ [name])%list else missing.

(** Lines 551-581. *)
Definition loadBizMessageConfig (e : SenderEnv.t) : option BizMessageConfig.t :=
  let clientId := envOr (SenderEnv.KAKAO_OAUTH_CLIENT_ID e) "" in
  let clientSecret := envOr (SenderEnv.KAKAO_OAUTH_SECRET e) "" in
  let senderKey := envOr (SenderEnv.KAKAO_SENDER_KEY e) "" in
  let templateCode := envOr (SenderEnv.KAKAO_TEMPLATE_CODE e) "" in
  let senderNo := envOr (SenderEnv.KAKAO_SENDER_NO e) "" in
  let phoneNumber := envOr (SenderEnv.KAKAO_PHONE_NUMBER e) "" in
  let missing :=
    pushMissing phoneNumber "KAKAO_PHONE_NUMBER"
      (pushMissing senderNo "KAKAO_SENDER_NO"
         (pushMissing templateCode "KAKAO_TEMPLATE_CODE"
            (pushMissing senderKey "KAKAO_SENDER_KEY"
               (pushMissing clientSecret "KAKAO_OAUTH_SECRET"
                  (pushMissing clientId "KAKAO_OAUTH_CLIENT_ID" []))))) in
  if (0 <? List.length missing)%nat then None
  else Some (BizMessageConfig.mk
               (envOr (SenderEnv.KAKAO_BASE_URL e) "bizmsg-web.kakaoenterprise.com")
               clientId clientSecret senderKey templateCode senderNo phoneNumber).

(** The classes that implement [KakaoSender]. *)
Inductive SenderImpl :=
| MockKakaoMemoSender
| KakaoMemoSender
| MockBizMessageKakaoSender
| BizMessageKakaoSender (config : BizMessageConfig.t)
| NoopKakaoSender.

(** Lines 583-613: the pair [{ sender, enabled }]. *)
Definition createSender (e : SenderEnv.t) : SenderImpl * bool :=
  let KAKAO_PROVIDER := envOr (SenderEnv.KAKAO_PROVIDER e) "" in
  let KAKAO_PROVIDER_MODE := envOr (SenderEnv.KAKAO_PROVIDER_MODE e) "LIVE" in
  let KAKAO_CLIENT_ID := envOr (SenderEnv.KAKAO_CLIENT_ID e) "" in
  if (KAKAO_PROVIDER =? "kakao_memo")%string then
    if (KAKAO_PROVIDER_MODE =? "MOCK")%string then (MockKakaoMemoSender, true)
    else if negb (truthy (Some KAKAO_CLIENT_ID)) then (NoopKakaoSender, false)
    else (KakaoMemoSender, true)
  else if (KAKAO_PROVIDER =? "bizmessage")%string then
    if (KAKAO_PROVIDER_MODE =? "MOCK")%string then (MockBizMessageKakaoSender, true)
    else match loadBizMessageConfig e with
         | None => (NoopKakaoSender, false)
         | Some config => (BizMessageKakaoSender config, true)
         end
  else (NoopKakaoSender, false).

(* ------------------------------------------------------------------ *)
(** ** Lemmas on the store                                             *)
(* ------------------------------------------------------------------ *)

Lemma status_eqb_spec (a b : SessionStatus) :
  SessionStatus_eqb a b = true <-> a = b.
Proof. destruct a, b; simpl; split; intro H; congruence. Qed.

Lemma has_id_true sid s : has_id sid s = true <-> Session.session_id s = sid.
Proof. unfold has_id. apply String.eqb_eq. Qed.

Lemma has_id_false sid s : has_id sid s = false <-> Session.session_id s <> sid.
Proof. unfold has_id. apply String.eqb_neq. Qed.

Lemma getSession_Some sid sessions s :
  getSession sid sessions = Some s -> In s sessions /\ Session.session_id s = sid.
Proof.
  unfold getSession. intro H. apply find_some in H.
  destruct H as [Hin Hid]. split; [assumption | now apply has_id_true].
Qed.

Lemma getSession_None sid sessions :
  getSession sid sessions = None -> ~ In sid (map Session.session_id sessions).
Proof.
  unfold getSession. intros H Hin. apply in_map_iff in Hin.
  destruct Hin as [s [Hid Hs]].
  pose proof (find_none _ _ H s Hs) as Hn.
  apply has_id_false in Hn. contradiction.
Qed.

Lemma getSession_In sessions s :
  NoDup (map Session.session_id sessions) -> In s sessions ->
  getSession (Session.session_id s) sessions = Some s.
Proof.
  unfold getSession. induction sessions as [|x rest IH]; simpl; intros Hnd Hin.
  - contradiction.
  - inversion Hnd as [|? ? Hx Hrest]; subst.
    destruct Hin as [-> | Hin].
    + replace (has_id (Session.session_id s) s) with true; [reflexivity|].
      symmetry. now apply has_id_true.
    + destruct (has_id (Session.session_id s) x) eqn:E.
      * apply has_id_true in E. exfalso. apply Hx. rewrite E.
        now apply in_map.
      * now apply IH.
Qed.

Lemma putSession_ids s sessions :
  map Session.session_id (putSession s sessions) = map Session.session_id sessions.
Proof.
  unfold putSession. induction sessions as [|x rest IH]; simpl; [reflexivity|].
  rewrite IH. destruct (has_id (Session.session_id s) x) eqn:E; [|reflexivity].
  apply has_id_true in E. now rewrite E.
Qed.

Lemma putSession_Forall (P : Session.t -> Prop) s sessions :
  P s ->
  (forall x, In x sessions -> Session.session_id x <> Session.session_id s -> P x) ->
  Forall P (putSession s sessions).
Proof.
  intros Hs Hothers. unfold putSession. apply Forall_forall. intros y Hy.
  apply in_map_iff in Hy. destruct Hy as [x [Hy Hx]].
  destruct (has_id (Session.session_id s) x) eqn:E; subst y; [assumption|].
  apply has_id_false in E. now apply Hothers.
Qed.

Lemma putSession_other s sessions x :
  In x sessions -> Session.session_id x <> Session.session_id s ->
  In x (putSession s sessions).
Proof.
  intros Hin Hne. unfold putSession. apply in_map_iff. exists x. split; [|assumption].
  apply has_id_false in Hne. now rewrite Hne.
Qed.



(** A lookup after a write-back. *)
Lemma getSession_putSession s sessions :
  In (Session.session_id s) (map Session.session_id sessions) ->
  getSession (Session.session_id s) (putSession s sessions) = Some s.
Proof.
  unfold getSession, putSession.
  induction sessions as [|x rest IH]; simpl; intro H; [contradiction|].
  destruct (has_id (Session.session_id s) x) eqn:E.
  - replace (has_id (Session.session_id s) s) with true; [reflexivity|].
    symmetry. now apply has_id_true.
  - rewrite E. apply IH. destruct H as [H|H]; [|assumption].
    apply has_id_false in E. congruence.
Qed.

Lemma getSession_app_new sid sessions s :
  getSession sid sessions = None -> Session.session_id s = sid ->
  getSession sid (sessions ++ [s])%list = Some s.
Proof.
  unfold getSession. intros Hnone Hid.
  induction sessions as [|x rest IH]; simpl in *.
  - replace (has_id sid s) with true; [reflexivity|].
    symmetry. now apply has_id_true.
  - destruct (has_id sid x); [discriminate | now apply IH].
Qed.

(* ------------------------------------------------------------------ *)
(** ** The order on timestamps                                         *)
(* ------------------------------------------------------------------ *)

Lemma ascii_compare_refl (a : ascii) : Ascii.compare a a = Eq.
Proof. unfold Ascii.compare. apply N.compare_refl. Qed.

Lemma ascii_compare_lt_trans (a b c : ascii) :
  Ascii.compare a b = Lt -> Ascii.compare b c = Lt -> Ascii.compare a c = Lt.
Proof.
  unfold Ascii.compare. rewrite !N.compare_lt_iff. apply N.lt_trans.
Qed.

Lemma string_compare_refl (a : string) : (a ?= a)%string = Eq.
Proof.
  induction a as [|x a IH]; simpl; [reflexivity|].
  now rewrite ascii_compare_refl.
Qed.

Lemma string_compare_lt_trans (a b c : string) :
  (a ?= b)%string = Lt -> (b ?= c)%string = Lt -> (a ?= c)%string = Lt.
Proof.
  revert b c. induction a as [|x a IH]; intros [|y b] [|z c]; simpl;
    try discriminate; try reflexivity.
  destruct (Ascii.compare x y) eqn:Exy; try discriminate;
    destruct (Ascii.compare y z) eqn:Eyz; try discriminate; intros Hab Hbc.
  - apply Ascii.compare_eq_iff in Exy, Eyz. subst.
    rewrite ascii_compare_refl. now apply IH with b.
  - apply Ascii.compare_eq_iff in Exy. subst. now rewrite Eyz.
  - apply Ascii.compare_eq_iff in Eyz. subst. now rewrite Exy.
  - now rewrite (ascii_compare_lt_trans _ _ _ Exy Eyz).
Qed.

Lemma str_gt_irrefl (a : string) : str_gt a a = false.
Proof. unfold str_gt, String.ltb. now rewrite string_compare_refl. Qed.

(** If [c] is not newer than [l] and [s] is newer than [l], then [c] is
    not newer than [s]. *)
Lemma str_gt_displaced (l s c : string) :
  str_gt c l = false -> str_gt s l = true -> str_gt c s = false.
Proof.
  unfold str_gt, String.ltb. intros Hc Hs.
  destruct (l ?= s)%string eqn:Els; try discriminate.
  destruct (s ?= c)%string eqn:Esc; try reflexivity.
  now rewrite (string_compare_lt_trans _ _ _ Els Esc) in Hc.
Qed.

(* ------------------------------------------------------------------ *)
(** ** The most-recent-waiting scans                                   *)
(* ------------------------------------------------------------------ *)

Section Scan.

Variable cand : Session.t -> bool.
Variable body : option Session.t -> Session.t -> option Session.t.
Hypothesis body_spec :
  forall latest s, body latest s = if cand s then pick_latest latest s else latest.

Lemma scan_inv_step seen latest s :
  scan_inv cand seen latest -> scan_inv cand (seen ++ [s]) (body latest s).
Proof.
  intro Hinv. rewrite body_spec. destruct (cand s) eqn:Hs.
  - destruct latest as [l|]; simpl in *.
    + destruct Hinv as [Hl [Hcl Hmax]].
      destruct (str_gt (Session.updated_at s) (Session.updated_at l)) eqn:Hgt; simpl.
      * split; [apply in_or_app; right; now left|]. split; [assumption|].
        intros c Hc Hcc. apply in_app_or in Hc. destruct Hc as [Hc|[<-|[]]].
        -- eapply str_gt_displaced; [now apply Hmax | exact Hgt].
        -- apply str_gt_irrefl.
      * split; [apply in_or_app; now left|]. split; [assumption|].
        intros c Hc Hcc. apply in_app_or in Hc. destruct Hc as [Hc|[<-|[]]].
        -- now apply Hmax.
        -- exact Hgt.
    + split; [apply in_or_app; right; now left|]. split; [assumption|].
      intros c Hc Hcc. apply in_app_or in Hc. destruct Hc as [Hc|[<-|[]]].
      * rewrite (Hinv c Hc) in Hcc. discriminate.
      * apply str_gt_irrefl.
  - destruct latest as [l|]; simpl in *.
    + destruct Hinv as [Hl [Hcl Hmax]].
      split; [apply in_or_app; now left|]. split; [assumption|].
      intros c Hc Hcc. apply in_app_or in Hc. destruct Hc as [Hc|[<-|[]]].
      * now apply Hmax.
      * congruence.
    + intros c Hc. apply in_app_or in Hc. destruct Hc as [Hc|[<-|[]]].
      * now apply Hinv.
      * assumption.
Qed.

Lemma scan_inv_fold rest : forall seen latest,
  scan_inv cand seen latest ->
  scan_inv cand (seen ++ rest) (fold_left body rest latest).
Proof.
  induction rest as [|s rest IH]; intros seen latest Hinv; simpl.
  - now rewrite app_nil_r.
  - replace (seen ++ s :: rest)%list with ((seen ++ [s]) ++ rest)%list
      by (rewrite <- app_assoc; reflexivity).
    apply IH. now apply scan_inv_step.
Qed.

Lemma scan_inv_result sessions :
  scan_inv cand sessions (fold_left body sessions None).
Proof.
  apply (scan_inv_fold sessions [] None). simpl. intros c [].
Qed.

End Scan.

Lemma scoped_body_spec (userId : string) (latest : option Session.t) (s : Session.t) :
  (if negb (SessionStatus_eqb (Session.status s) WAITING_USER) then latest
   else if negb (owner_is userId s) then latest
   else pick_latest latest s)
  = if SessionStatus_eqb (Session.status s) WAITING_USER && owner_is userId s
    then pick_latest latest s else latest.
Proof.
  destruct (SessionStatus_eqb (Session.status s) WAITING_USER), (owner_is userId s);
    reflexivity.
Qed.

Lemma waiting_for_spec (userId : string) (s : Session.t) :
  SessionStatus_eqb (Session.status s) WAITING_USER && owner_is userId s = true
  <-> waiting_for userId s.
Proof.
  unfold waiting_for, owner_is. rewrite andb_true_iff, status_eqb_spec.
  destruct (Session.owner_user_id s) as [o|].
  - rewrite String.eqb_eq. split; intros [H1 H2]; split; congruence.
  - split; intros [H1 H2]; discriminate.
Qed.

Lemma global_body_spec (latest : option Session.t) (s : Session.t) :
  (if negb (SessionStatus_eqb (Session.status s) WAITING_USER) then latest
   else pick_latest latest s)
  = if SessionStatus_eqb (Session.status s) WAITING_USER
    then pick_latest latest s else latest.
Proof. destruct (SessionStatus_eqb (Session.status s) WAITING_USER); reflexivity. Qed.

(** Whatever either scan returns is a session of the table that waits for
    the user. *)
Lemma scoped_scan_Some userId sessions s :
  findMostRecentWaitingSessionForUser userId sessions = Some s ->
  In s sessions /\ waiting_for userId s.
Proof.
  intro H.
  pose proof (scan_inv_result _ _ (scoped_body_spec userId) sessions) as Hinv.
  unfold findMostRecentWaitingSessionForUser in H. rewrite H in Hinv.
  destruct Hinv as [Hin [Hc _]]. split; [assumption | now apply waiting_for_spec].
Qed.

Lemma global_scan_Some sessions s :
  findMostRecentWaitingSession sessions = Some s ->
  In s sessions /\ Session.status s = WAITING_USER.
Proof.
  intro H.
  pose proof (scan_inv_result _ _ global_body_spec sessions) as Hinv.
  unfold findMostRecentWaitingSession in H. rewrite H in Hinv.
  destruct Hinv as [Hin [Hc _]]. split; [assumption | now apply status_eqb_spec].
Qed.

(* ------------------------------------------------------------------ *)
(** ** Properties of the session store                                 *)
(* ------------------------------------------------------------------ *)

(** C2. [addReply] appends the reply at the end of the session's replies,
    clears [pending_question], sets the status to [RESOLVED] and sets
    [updated_at] to the clock reading; it does so for every session and
    every reply, whatever the status and the pending question were, and
    leaves the other fields alone.  Written back to the table, the
    resolved session is what a lookup of its id returns, and the sessions
    with other ids stay. *)
Theorem addReply_resolves (t_now : string) (session : Session.t) (reply : Reply.t) :
  let session' := addReply t_now session reply in
  Session.replies session' = (Session.replies session ++ [reply])%list
  /\ Session.pending_question session' = None
  /\ Session.status session' = RESOLVED
  /\ Session.updated_at session' = t_now
  /\ Session.session_id session' = Session.session_id session
  /\ Session.created_at session' = Session.created_at session
  /\ Session.owner_user_id session' = Session.owner_user_id session
  /\ forall sessions,
       In session sessions ->
       getSession (Session.session_id session) (putSession session' sessions)
       = Some session'
       /\ forall x, In x sessions ->
                    Session.session_id x <> Session.session_id session ->
                    In x (putSession session' sessions).
Proof.
  cbv zeta. repeat (split; [reflexivity|]).
  intros sessions Hin. split.
  - apply (getSession_putSession (addReply t_now session reply)).
    simpl. now apply in_map.
  - intros x Hx Hne. now apply putSession_other.
Qed.

(** A reply recorded on the first session of a two-session table. *)
Lemma addReply_resolves_witness :
  getSession "SA"
    (putSession (addReply (Sample.at_sec "50")
                   (Sample.waiting "SA" "userA" (Sample.at_sec "10") None)
                   (Sample.reply "r1"))
                Sample.twoUsers)
  = Some (addReply (Sample.at_sec "50")
            (Sample.waiting "SA" "userA" (Sample.at_sec "10") None)
            (Sample.reply "r1")).
Proof.
  destruct (addReply_resolves (Sample.at_sec "50")
              (Sample.waiting "SA" "userA" (Sample.at_sec "10") None)
              (Sample.reply "r1")) as [_ [_ [_ [_ [_ [_ [_ H]]]]]]].
  destruct (H Sample.twoUsers (or_introl eq_refl)) as [Hget _]. exact Hget.
Defined.

(** The same on a session that is idle and holds no question. *)
Example addReply_on_idle :
  addReply (Sample.at_sec "50")
           (Session.mk "S9" IDLE None [] (Sample.at_sec "01") (Sample.at_sec "01") None)
           (Sample.reply "r1")
  = Session.mk "S9" RESOLVED None [Sample.reply "r1"]
               (Sample.at_sec "01") (Sample.at_sec "50") None.
Proof. reflexivity. Qed.

(** C6. The user-scoped scan returns only a session of the table that has
    status [WAITING_USER] and is owned by the given user, and no such
    session has a later [updated_at]; it returns nothing exactly when the
    user has no waiting session, whatever the other users' sessions are. *)
Theorem scoped_scan_selects_latest_of_user (userId : string) (sessions : Store) :
  (forall s, findMostRecentWaitingSessionForUser userId sessions = Some s ->
     In s sessions /\ waiting_for userId s
     /\ forall c, In c sessions -> waiting_for userId c ->
                  str_gt (Session.updated_at c) (Session.updated_at s) = false)
  /\ (findMostRecentWaitingSessionForUser userId sessions = None
      <-> forall c, In c sessions -> ~ waiting_for userId c)
  /\ (userId <> "" ->
      selectSession (Some userId) sessions
      = findMostRecentWaitingSessionForUser userId sessions).
Proof.
  assert (Hsel : userId <> "" ->
                 selectSession (Some userId) sessions
                 = findMostRecentWaitingSessionForUser userId sessions).
  { intro Hne. unfold selectSession, truthy.
    apply String.eqb_neq in Hne. now rewrite Hne. }
  apply and_assoc. split; [|exact Hsel]. clear Hsel.
  pose proof (scan_inv_result _ _ (scoped_body_spec userId) sessions) as Hinv.
  unfold findMostRecentWaitingSessionForUser.
  destruct (fold_left _ sessions None) as [l|]; simpl in Hinv.
  - destruct Hinv as [Hin [Hc Hmax]]. split.
    + intros s [= <-]. split; [assumption|]. split; [now apply waiting_for_spec|].
      intros c Hcin Hcw. apply Hmax; [assumption | now apply waiting_for_spec].
    + split; [discriminate|]. intro Hnone. exfalso.
      apply (Hnone l Hin). now apply waiting_for_spec.
  - split; [discriminate|]. split; [|reflexivity].
    intros _ c Hcin Hcw. apply waiting_for_spec in Hcw.
    rewrite (Hinv c Hcin) in Hcw. discriminate.
Qed.

(** With [userA]'s and [userB]'s sessions both waiting and [userB]'s the
    newer, the scan for [userA] is [userA]'s session, and the scan for a
    user without a session is empty. *)
Example scoped_scan_two_users :
  findMostRecentWaitingSessionForUser "userA" Sample.twoUsers
    = Some (Sample.waiting "SA" "userA" (Sample.at_sec "10") None)
  /\ findMostRecentWaitingSessionForUser "userC" Sample.twoUsers = None
  /\ findMostRecentWaitingSession Sample.twoUsers
    = Some (Sample.waiting "SB" "userB" (Sample.at_sec "20") None).
Proof. repeat split. Qed.

Lemma scoped_scan_selects_latest_of_user_witness :
  In (Sample.waiting "SA" "userA" (Sample.at_sec "10") None) Sample.twoUsers
  /\ waiting_for "userA" (Sample.waiting "SA" "userA" (Sample.at_sec "10") None).
Proof.
  destruct (scoped_scan_selects_latest_of_user "userA" Sample.twoUsers) as [H _].
  destruct (H _ eq_refl) as [Hin [Hw _]]. split; assumption.
Defined.

(* ------------------------------------------------------------------ *)
(** ** What each handler does to the session table                     *)
(* ------------------------------------------------------------------ *)

Lemma putSession_app_new s' s0 sessions :
  getSession (Session.session_id s') sessions = None ->
  Session.session_id s0 = Session.session_id s' ->
  putSession s' (sessions ++ [s0])%list = (sessions ++ [s'])%list.
Proof.
  intros Hnone Hid. unfold putSession. rewrite map_app. simpl.
  replace (has_id (Session.session_id s') s0) with true
    by (symmetry; now apply has_id_true).
  f_equal. rewrite <- (map_id sessions) at 2. apply map_ext_in.
  intros x Hx. unfold getSession in Hnone.
  now rewrite (find_none _ _ Hnone x Hx).
Qed.

Lemma getOrCreateSession_found t1 t2 sid init owner sessions s :
  getSession sid sessions = Some s ->
  getOrCreateSession t1 t2 sid init owner sessions = (sessions, s).
Proof. unfold getOrCreateSession. now intros ->. Qed.

Lemma getOrCreateSession_new t1 t2 sid init owner sessions :
  getSession sid sessions = None ->
  getOrCreateSession t1 t2 sid init owner sessions
  = ((sessions ++ [Session.mk sid init None [] t1 t2 owner])%list,
     Session.mk sid init None [] t1 t2 owner).
Proof. unfold getOrCreateSession. now intros ->. Qed.

Lemma NoDup_snoc (A : Type) (l : list A) (a : A) :
  NoDup l -> ~ In a l -> NoDup (l ++ [a]).
Proof.
  induction l as [|x l IH]; simpl; intros Hnd Hin.
  - constructor; [intros []|constructor].
  - inversion Hnd as [|? ? Hx Hl]; subst. constructor.
    + intro H. apply in_app_or in H. destruct H as [H|[H|[]]]; [contradiction|].
      apply Hin. now left.
    + apply IH; [assumption|]. intro H. apply Hin. now right.
Qed.

Lemma session_ok_set t s q : session_ok (setPendingQuestion t s q).
Proof. unfold session_ok, setPendingQuestion. simpl. split; congruence. Qed.

Lemma session_ok_reply t s r : session_ok (addReply t s r).
Proof. unfold session_ok, addReply. simpl. split; congruence. Qed.

Lemma store_ok_put s sessions :
  store_ok sessions -> session_ok s -> store_ok (putSession s sessions).
Proof.
  intros [Hnd Hall] Hs. split.
  - now rewrite putSession_ids.
  - apply putSession_Forall; [assumption|].
    intros x Hx _. rewrite Forall_forall in Hall. now apply Hall.
Qed.

Lemma store_ok_new sid init t1 t2 owner sessions :
  store_ok sessions -> getSession sid sessions = None ->
  session_ok (Session.mk sid init None [] t1 t2 owner) ->
  store_ok (sessions ++ [Session.mk sid init None [] t1 t2 owner])%list.
Proof.
  intros [Hnd Hall] Hnone Hs. split.
  - rewrite map_app. simpl. apply NoDup_snoc; [assumption|].
    now apply getSession_None.
  - apply Forall_app. split; [assumption | now constructor].
Qed.

(** The table after a question post: untouched, or the session of the
    request now holds the posted question and is the only one touched. *)
Lemma post_question_sessions cfg env req sessions :
  let r := post_question cfg env req sessions in
  (QuestionsResult.sessions r = sessions
   /\ QuestionsResult.push r = None
   /\ QuestionsResult.response r <>
        Created (QuestionsRequest.session_id req) (QuestionsEnv.message_id env) WAITING_USER)
  \/ (exists s q,
        Session.session_id s = QuestionsRequest.session_id req
        /\ PendingQuestion.message_id q = QuestionsEnv.message_id env
        /\ QuestionsResult.response r =
             Created (QuestionsRequest.session_id req) (QuestionsEnv.message_id env) WAITING_USER
        /\ ((getSession (QuestionsRequest.session_id req) sessions = Some s
             /\ (Session.status s <> WAITING_USER \/ Session.pending_question s = None)
             /\ QuestionsResult.sessions r
                = putSession (setPendingQuestion (QuestionsEnv.t_set env) s q) sessions)
            \/ (getSession (QuestionsRequest.session_id req) sessions = None
                /\ Session.replies s = [] /\ Session.status s = WAITING_USER
                /\ QuestionsResult.sessions r
                   = (sessions ++ [setPendingQuestion (QuestionsEnv.t_set env) s q])%list))).
Proof.
  unfold post_question. cbv zeta.
  destruct (QuestionsBody.text (QuestionsRequest.body req)) as [text|];
    [|left; simpl; repeat split; discriminate].
  destruct (QuestionsBody.severity (QuestionsRequest.body req)) as [severity|];
    [|left; simpl; repeat split; discriminate].
  destruct (text =? "")%string; [left; simpl; repeat split; discriminate|].
  destruct (targetMismatch _ _); [left; simpl; repeat split; discriminate|].
  destruct (getSession (QuestionsRequest.session_id req) sessions) as [s|] eqn:Hget.
  - erewrite getOrCreateSession_found by exact Hget.
    destruct (getSession_Some _ _ _ Hget) as [_ Hid].
    destruct (Session.status s) eqn:Hst, (Session.pending_question s) eqn:Hpq;
      try (left; simpl; repeat split; discriminate);
      match goal with
      | |- context [setPendingQuestion _ _ ?q] => right; exists s, q
      end; simpl;
      (split; [exact Hid|]); (split; [reflexivity|]); (split; [reflexivity|]);
      left; (split; [reflexivity|]); (split; [|reflexivity]);
      first [left; congruence | right; congruence].
  - rewrite getOrCreateSession_new by exact Hget. cbn iota beta.
    match goal with
    | |- context [setPendingQuestion _ ?s0 ?q] => right; exists s0, q
    end. simpl.
    split; [reflexivity|]. split; [reflexivity|]. split; [reflexivity|].
    right. split; [reflexivity|]. split; [reflexivity|]. split; [reflexivity|].
    now apply putSession_app_new.
Qed.

Lemma get_replies_sessions env req sessions :
  (getSession (RepliesRequest.session_id req) sessions <> None
   /\ fst (get_replies env req sessions) = sessions)
  \/ (getSession (RepliesRequest.session_id req) sessions = None
      /\ fst (get_replies env req sessions)
         = (sessions ++ [Session.mk (RepliesRequest.session_id req) IDLE None []
                           (RepliesEnv.t_created env) (RepliesEnv.t_updated env) None])%list).
Proof.
  unfold get_replies.
  destruct (getSession (RepliesRequest.session_id req) sessions) as [s|] eqn:Hget.
  - left. split; [discriminate|].
    erewrite getOrCreateSession_found by exact Hget.
    now destruct (collectReplies _ _).
  - right. split; [reflexivity|].
    rewrite getOrCreateSession_new by exact Hget.
    now destruct (collectReplies _ _).
Qed.

Lemma selectSession_Some userId sessions s :
  selectSession userId sessions = Some s ->
  In s sessions /\ Session.status s = WAITING_USER.
Proof.
  unfold selectSession. destruct userId as [uid|].
  - destruct (truthy (Some uid)); intro H.
    + destruct (scoped_scan_Some _ _ _ H) as [Hin [Hst _]]. now split.
    + now apply global_scan_Some.
  - apply global_scan_Some.
Qed.

Section WebhookEffects.

Context {ops : StringOps}.
Variable cfg : Config.

(** The table after a webhook call: untouched, or an answer was recorded
    on the selected waiting session. *)
Lemma webhook_sessions env body st :
  Server.sessions (fst (webhook cfg env body st)) = Server.sessions st
  \/ exists userId s replyType choice,
       permitted cfg env body userId
       /\ selectSession userId (Server.sessions st) = Some s
       /\ isQueryMode (normalize (userTextOf body)) = false
       /\ classify (Session.pending_question s) (normalize (userTextOf body))
          = (replyType, choice)
       /\ Server.sessions (fst (webhook cfg env body st))
          = putSession
              (addReply (WebhookEnv.t_add env) s
                 (Reply.mk (WebhookEnv.reply_id env) replyType
                    (if (userTextOf body =? "")%string then None
                     else Some (userTextOf body))
                    choice (WebhookEnv.reply_created_at env)))
              (Server.sessions st).
Proof.
  unfold webhook. cbv zeta.
  destruct (userKeyOf body) as [key|] eqn:Hkey; [|now left].
  destruct (key =? "")%string eqn:Hne; [now left|].
  destruct (resolveUser cfg env key) as [userId| |] eqn:Hres; try now left.
  destruct (selectSession userId (Server.sessions st)) as [s|] eqn:Hsel; [|now left].
  destruct (isQueryMode _) eqn:Hq; [now left|].
  destruct (classify _ _) as [replyType choice] eqn:Hcl.
  right. exists userId, s, replyType, choice. simpl.
  split; [|repeat split; assumption || reflexivity].
  exists key. apply String.eqb_neq in Hne. now repeat split.
Qed.

Lemma step_store_ok st op :
  store_ok (Server.sessions st) -> store_ok (Server.sessions (step cfg st op)).
Proof.
  intro Hok. destruct op as [env req | env req | env body]; simpl.
  - destruct (post_question_sessions cfg env req (Server.sessions st))
      as [[-> _] | [s [q [Hid [_ [_ [[Hget [_ ->]] | [Hget [_ [_ ->]]]]]]]]]].
    + assumption.
    + apply store_ok_put; [assumption | apply session_ok_set].
    + destruct s as [sid stat pq rs tc tu ow]. simpl in *. subst sid.
      unfold setPendingQuestion. simpl.
      destruct Hok as [Hnd Hall]. split.
      * rewrite map_app. simpl. apply NoDup_snoc; [assumption|].
        now apply getSession_None.
      * apply Forall_app. split; [assumption|]. constructor; [|constructor].
        unfold session_ok. simpl. split; congruence.
  - destruct (get_replies_sessions env req (Server.sessions st))
      as [[_ ->] | [Hget ->]]; [assumption|].
    apply store_ok_new; [assumption | assumption |].
    unfold session_ok. simpl. split; [congruence | discriminate].
  - destruct (webhook_sessions env body st)
      as [-> | [userId [s [rt [ch [_ [_ [_ [_ ->]]]]]]]]]; [assumption|].
    apply store_ok_put; [assumption | apply session_ok_reply].
Qed.

Lemma run_store_ok l : forall st,
  store_ok (Server.sessions st) -> store_ok (Server.sessions (run cfg l st)).
Proof.
  induction l as [|op l IH]; intros st Hok; simpl; [assumption|].
  apply IH. now apply step_store_ok.
Qed.

Lemma reachable_store_ok st : reachable cfg st -> store_ok (Server.sessions st).
Proof.
  intros [l <-]. apply run_store_ok. simpl. split; constructor.
Qed.

End WebhookEffects.

(* ------------------------------------------------------------------ *)
(** ** Properties of the session state machine                         *)
(* ------------------------------------------------------------------ *)

(** C4. In every state reached from the empty server by question posts,
    reply polls and webhook deliveries, a session has a pending question
    if and only if its status is [WAITING_USER], and a session id has at
    most one pending question. *)
Theorem reachable_pending_iff_waiting {ops : StringOps} (cfg : Config) (st : Server.t) :
  reachable cfg st ->
  (forall s, In s (Server.sessions st) ->
     (Session.pending_question s <> None <-> Session.status s = WAITING_USER))
  /\ (forall sessionId q1 q2,
        pending_of (Server.sessions st) sessionId q1 ->
        pending_of (Server.sessions st) sessionId q2 -> q1 = q2).
Proof.
  intro Hreach. destruct (reachable_store_ok cfg st Hreach) as [Hnd Hall]. split.
  - intros s Hs. rewrite Forall_forall in Hall. exact (Hall s Hs).
  - intros sid q1 q2 [s1 [Hin1 [Hid1 Hq1]]] [s2 [Hin2 [Hid2 Hq2]]].
    pose proof (getSession_In _ s1 Hnd Hin1) as H1.
    pose proof (getSession_In _ s2 Hnd Hin2) as H2.
    rewrite Hid1 in H1. rewrite Hid2 in H2. congruence.
Qed.

Lemma reachable_pending_iff_waiting_witness :
  reachable Sample.cfgA (run Sample.cfgA Sample.posted initial)
  /\ forall sessionId q1 q2,
       pending_of (Server.sessions (run Sample.cfgA Sample.posted initial)) sessionId q1 ->
       pending_of (Server.sessions (run Sample.cfgA Sample.posted initial)) sessionId q2 ->
       q1 = q2.
Proof.
  split.
  - exists Sample.posted. reflexivity.
  - apply (reachable_pending_iff_waiting Sample.cfgA).
    exists Sample.posted. reflexivity.
Defined.

(** C1. On a reachable server, a question post to a session that has a
    pending question changes nothing: the session table (hence the pending
    question with its [message_id], the status, the replies and
    [updated_at] of every session) and the rest of the server state are
    what they were, and no outbound push is made.  The answer is the
    conflict [PENDING_EXISTS] for every request that passes the handler's
    validation and target check, and [BAD_REQUEST] or [FORBIDDEN] for the
    others. *)
Theorem pending_question_conflict {ops : StringOps} (cfg : Config) (st : Server.t)
    (env : QuestionsEnv.t) (req : QuestionsRequest.t)
    (s : Session.t) (q : PendingQuestion.t) :
  reachable cfg st ->
  getSession (QuestionsRequest.session_id req) (Server.sessions st) = Some s ->
  Session.pending_question s = Some q ->
  let r := post_question cfg env req (Server.sessions st) in
  QuestionsResult.sessions r = Server.sessions st
  /\ step cfg st (PostQuestion env req) = st
  /\ getSession (QuestionsRequest.session_id req) (QuestionsResult.sessions r) = Some s
  /\ QuestionsResult.push r = None
  /\ (accepted req = true -> QuestionsResult.response r = PENDING_EXISTS)
  /\ (accepted req = false ->
      QuestionsResult.response r = BAD_REQUEST \/ QuestionsResult.response r = FORBIDDEN).
Proof.
  intros Hreach Hget Hq.
  destruct (reachable_store_ok cfg st Hreach) as [_ Hall].
  destruct (getSession_Some _ _ _ Hget) as [Hin _].
  rewrite Forall_forall in Hall. pose proof (Hall s Hin) as [Hw _].
  assert (Hst : Session.status s = WAITING_USER) by (apply Hw; congruence).
  assert (Hr : QuestionsResult.sessions (post_question cfg env req (Server.sessions st))
               = Server.sessions st
            /\ QuestionsResult.push (post_question cfg env req (Server.sessions st)) = None
            /\ (accepted req = true ->
                QuestionsResult.response (post_question cfg env req (Server.sessions st))
                = PENDING_EXISTS)
            /\ (accepted req = false ->
                QuestionsResult.response (post_question cfg env req (Server.sessions st))
                = BAD_REQUEST
                \/ QuestionsResult.response (post_question cfg env req (Server.sessions st))
                   = FORBIDDEN)).
  { unfold accepted, post_question, truthy. cbv zeta.
    destruct (QuestionsBody.text (QuestionsRequest.body req)) as [text|];
      [|simpl; repeat split; (discriminate || now left)].
    destruct (QuestionsBody.severity (QuestionsRequest.body req)) as [severity|];
      [|simpl; rewrite andb_false_r; repeat split; (discriminate || now left)].
    destruct (text =? "")%string;
      [simpl; repeat split; (discriminate || now left)|].
    destruct (targetMismatch _ _);
      [simpl; repeat split; (discriminate || now right)|].
    erewrite getOrCreateSession_found by exact Hget.
    rewrite Hst, Hq. simpl. repeat split. discriminate. }
  destruct Hr as [Hs [Hp [Hacc Hrej]]]. cbv zeta.
  split; [exact Hs|]. split.
  { simpl. rewrite Hs. now destruct st. }
  split; [now rewrite Hs|]. split; [exact Hp|]. split; assumption.
Qed.

(** A second question for session S1 while "Deploy?" is pending: conflict,
    and the server is as it was; a post without text is a bad request. *)
Lemma pending_question_conflict_witness :
  step Sample.cfgA (run Sample.cfgA Sample.posted initial)
       (PostQuestion (Sample.qenv "02" "m-2") Sample.tooLate)
  = run Sample.cfgA Sample.posted initial
  /\ QuestionsResult.response
       (post_question Sample.cfgA (Sample.qenv "02" "m-2") Sample.tooLate
          (Server.sessions (run Sample.cfgA Sample.posted initial)))
     = PENDING_EXISTS.
Proof.
  assert (Hreach : reachable Sample.cfgA (run Sample.cfgA Sample.posted initial))
    by (exists Sample.posted; reflexivity).
  destruct (pending_question_conflict Sample.cfgA _ (Sample.qenv "02" "m-2")
              Sample.tooLate _ _ Hreach eq_refl eq_refl) as [_ [Hstep [_ [_ [Hacc _]]]]].
  split; [exact Hstep | exact (Hacc eq_refl)].
Defined.

Example bad_request_while_pending :
  QuestionsResult.response
    (post_question Sample.cfgA (Sample.qenv "02" "m-2") Sample.noText
       (Server.sessions (run Sample.cfgA Sample.posted initial)))
  = BAD_REQUEST.
Proof. reflexivity. Qed.

(** C5. A question post (one that passes validation and the target check)
    to a session id the table does not have adds that session at the end
    of the table, in [WAITING_USER], holding the posted question; a poll
    of such an id adds the session with status [IDLE], no replies and no
    question; and [getOrCreateSession] on an id the table has returns the
    table and the stored session as they are, whatever initial status and
    owner it is given. *)
Theorem implicit_creation :
  (forall cfg env req sessions,
     getSession (QuestionsRequest.session_id req) sessions = None ->
     accepted req = true ->
     let r := post_question cfg env req sessions in
     exists s,
       QuestionsResult.sessions r = (sessions ++ [s])%list
       /\ getSession (QuestionsRequest.session_id req) (QuestionsResult.sessions r) = Some s
       /\ Session.session_id s = QuestionsRequest.session_id req
       /\ Session.status s = WAITING_USER
       /\ Session.replies s = []
       /\ (exists q, Session.pending_question s = Some q
                     /\ PendingQuestion.message_id q = QuestionsEnv.message_id env)
       /\ QuestionsResult.response r
          = Created (QuestionsRequest.session_id req) (QuestionsEnv.message_id env)
                    WAITING_USER)
  /\ (forall env req sessions,
        getSession (RepliesRequest.session_id req) sessions = None ->
        let sessions' := fst (get_replies env req sessions) in
        exists s,
          sessions' = (sessions ++ [s])%list
          /\ getSession (RepliesRequest.session_id req) sessions' = Some s
          /\ Session.session_id s = RepliesRequest.session_id req
          /\ Session.status s = IDLE
          /\ Session.replies s = []
          /\ Session.pending_question s = None)
  /\ (forall t_created t_updated sessionId initialStatus ownerUserId sessions s,
        getSession sessionId sessions = Some s ->
        getOrCreateSession t_created t_updated sessionId initialStatus ownerUserId sessions
        = (sessions, s)).
Proof.
  split; [|split].
  - intros cfg env req sessions Hnone Hacc. cbv zeta.
    destruct (post_question_sessions cfg env req sessions)
      as [[Hs [_ Hresp]] | [s [q [Hid [Hmid [Hresp [[Hget _] | [_ [Hrs [Hst Hs]]]]]]]]]].
    + exfalso. apply Hresp. revert Hacc. unfold accepted, post_question, truthy. cbv zeta.
      destruct (QuestionsBody.text _) as [text|]; [|discriminate].
      destruct (QuestionsBody.severity _) as [severity|];
        [|rewrite andb_false_r; discriminate].
      destruct (text =? "")%string; [discriminate|].
      destruct (targetMismatch _ _); [discriminate|]. intros _.
      rewrite getOrCreateSession_new by exact Hnone. reflexivity.
    + congruence.
    + exists (setPendingQuestion (QuestionsEnv.t_set env) s q).
      split; [exact Hs|]. rewrite Hs. split.
      * apply getSession_app_new; [assumption | exact Hid].
      * simpl. repeat split; try assumption. exists q. now split.
  - intros env req sessions Hnone. cbv zeta.
    destruct (get_replies_sessions env req sessions) as [[Hsome _] | [_ ->]];
      [contradiction|].
    eexists. split; [reflexivity|]. split; [|simpl; repeat split].
    now apply getSession_app_new.
  - intros. now apply getOrCreateSession_found.
Qed.

Lemma implicit_creation_witness :
  (exists s, Server.sessions (run Sample.cfgA Sample.posted initial) = [s]
             /\ Session.status s = WAITING_USER)
  /\ (exists s, fst (get_replies Sample.renv Sample.pollS2 []) = [s]
                /\ Session.status s = IDLE /\ Session.replies s = [])
  /\ getOrCreateSession (Sample.at_sec "30") (Sample.at_sec "30") "SA" IDLE
       (Some "userB") Sample.twoUsers
     = (Sample.twoUsers, Sample.waiting "SA" "userA" (Sample.at_sec "10") None).
Proof.
  destruct implicit_creation as [Hpost [Hpoll Hget]].
  split; [|split].
  - destruct (Hpost Sample.cfgA (Sample.qenv "01" "m-1") Sample.deploy [] eq_refl eq_refl)
      as [s [Hs [_ [_ [Hst _]]]]].
    exists s. split; [exact Hs | exact Hst].
  - destruct (Hpoll Sample.renv Sample.pollS2 [] eq_refl)
      as [s [Hs [_ [_ [Hst [Hrs _]]]]]].
    exists s. split; [exact Hs | split; [exact Hst | exact Hrs]].
  - apply Hget. reflexivity.
Defined.

(* ------------------------------------------------------------------ *)
(** ** Reply retrieval                                                 *)
(* ------------------------------------------------------------------ *)

Lemma findIndex_first (A : Type) (p : A -> bool) (pre : list A) (x : A) (post : list A) :
  (forall y, In y pre -> p y = false) -> p x = true ->
  findIndex p (pre ++ x :: post) = Some (length pre).
Proof.
  induction pre as [|y pre IH]; simpl; intros Hpre Hx.
  - now rewrite Hx.
  - rewrite (Hpre y (or_introl eq_refl)). rewrite IH; [reflexivity| |assumption].
    intros z Hz. apply Hpre. now right.
Qed.

Lemma findIndex_none (A : Type) (p : A -> bool) (l : list A) :
  (forall y, In y l -> p y = false) -> findIndex p l = None.
Proof.
  induction l as [|y l IH]; simpl; intro H; [reflexivity|].
  rewrite (H y (or_introl eq_refl)). rewrite IH; [reflexivity|].
  intros z Hz. apply H. now right.
Qed.

(** With a [since] id that occurs: the replies after its first occurrence. *)
Lemma collectReplies_after (id : string) (pre : list Reply.t) (r : Reply.t)
    (post : list Reply.t) :
  id <> "" -> Reply.reply_id r = id ->
  (forall y, In y pre -> Reply.reply_id y <> id) ->
  collectReplies (Some id) (pre ++ r :: post) = post.
Proof.
  intros Hne Hr Hpre. unfold collectReplies, truthy.
  apply String.eqb_neq in Hne. rewrite Hne. simpl.
  rewrite findIndex_first.
  - replace (length pre + 1)%nat with (length pre + 1 + 0)%nat by lia.
    replace (length pre + 1 + 0)%nat with (length (pre ++ [r]) + 0)%nat
      by (rewrite length_app; simpl; lia).
    replace (pre ++ r :: post)%list with ((pre ++ [r]) ++ post)%list
      by (rewrite <- app_assoc; reflexivity).
    rewrite Nat.add_0_r. now rewrite skipn_app, skipn_all, Nat.sub_diag.
  - intros y Hy. apply String.eqb_neq. now apply Hpre.
  - now apply String.eqb_eq.
Qed.

(** With a [since] that is absent, empty, or the id of no reply: all of them. *)
Lemma collectReplies_stale (sinceId : option string) (replies : list Reply.t) :
  (forall id r, sinceId = Some id -> In r replies -> Reply.reply_id r <> id) ->
  collectReplies sinceId replies = replies.
Proof.
  intro H. unfold collectReplies. destruct (truthy sinceId); [|reflexivity].
  rewrite findIndex_none; [reflexivity|].
  intros y Hy. destruct sinceId as [id|]; [|reflexivity].
  apply String.eqb_neq. now apply (H id).
Qed.

(** C7. For a session whose replies are [r1; r2; r3], a poll with [since]
    the id of [r1] answers at once with exactly [r2; r3], and a poll whose
    [since] is the id of none of the three answers at once with all of
    [r1; r2; r3]; neither changes the table.  (Reply ids are UUIDs, so
    never the empty string.) *)
Theorem since_filter (env : RepliesEnv.t) (sessionId : string) (wait_sec : option string)
    (sessions : Store) (s : Session.t) (r1 r2 r3 : Reply.t) :
  getSession sessionId sessions = Some s ->
  Session.replies s = [r1; r2; r3] ->
  Reply.reply_id r1 <> "" ->
  get_replies env (RepliesRequest.mk sessionId (Some (Reply.reply_id r1)) wait_sec) sessions
  = (sessions, Responded (RepliesResponse.mk sessionId (Session.status s) [r2; r3]))
  /\ forall since,
       (forall id r, since = Some id -> In r [r1; r2; r3] -> Reply.reply_id r <> id) ->
       get_replies env (RepliesRequest.mk sessionId since wait_sec) sessions
       = (sessions, Responded (RepliesResponse.mk sessionId (Session.status s) [r1; r2; r3])).
Proof.
  intros Hget Hrs Hne. split.
  - unfold get_replies. simpl.
    erewrite getOrCreateSession_found by exact Hget. rewrite Hrs.
    change [r1; r2; r3] with ([] ++ r1 :: [r2; r3])%list.
    rewrite collectReplies_after; [reflexivity | exact Hne | reflexivity |].
    intros y [].
  - intros since Hstale. unfold get_replies. simpl.
    erewrite getOrCreateSession_found by exact Hget. rewrite Hrs.
    now rewrite collectReplies_stale by exact Hstale.
Qed.

Lemma since_filter_witness :
  get_replies Sample.renv (Sample.pollS3 (Some "r1")) [Sample.answered]
  = ([Sample.answered],
     Responded (RepliesResponse.mk "S3" RESOLVED [Sample.reply "r2"; Sample.reply "r3"]))
  /\ get_replies Sample.renv (Sample.pollS3 (Some "r0")) [Sample.answered]
     = ([Sample.answered],
        Responded (RepliesResponse.mk "S3" RESOLVED
                     [Sample.reply "r1"; Sample.reply "r2"; Sample.reply "r3"])).
Proof.
  assert (Hne : Reply.reply_id (Sample.reply "r1") <> "") by discriminate.
  destruct (since_filter Sample.renv "S3" None [Sample.answered] Sample.answered
              (Sample.reply "r1") (Sample.reply "r2") (Sample.reply "r3")
              eq_refl eq_refl Hne) as [Hafter Hstale].
  split; [exact Hafter|].
  apply (Hstale (Some "r0")). intros id r [= <-] [<-|[<-|[<-|[]]]]; discriminate.
Defined.

(** With [since] the id of a later reply, only what follows it is sent. *)
Example since_second :
  collectReplies (Some "r2") (Session.replies Sample.answered) = [Sample.reply "r3"].
Proof. reflexivity. Qed.

(** An absent [wait_sec] waits 25 seconds. *)
Lemma waitSec_default : waitSec None = 25.
Proof. reflexivity. Qed.

(** A [wait_sec] that parses to a non-zero [v] waits [v] clamped to [0, 60]. *)
Lemma waitSec_clamped (w : string) (v : Z) :
  JsString.parseInt w = Some v -> v <> 0 ->
  waitSec (Some w) = Z.min (Z.max v 0) 60.
Proof.
  intros Hp Hv. unfold waitSec, num_or. rewrite Hp.
  apply Z.eqb_neq in Hv. now rewrite Hv.
Qed.

Lemma waitSec_range (w : option string) : 0 <= waitSec w <= 60.
Proof. unfold waitSec. lia. Qed.

Example waitSec_examples :
  waitSec (Some "2") = 2 /\ waitSec (Some "61") = 60 /\ waitSec (Some "600") = 60
  /\ waitSec (Some "-3") = 0 /\ waitSec (Some "abc") = 25 /\ waitSec (Some "") = 25.
Proof. repeat split. Qed.

(** C8 (the code at [wait_sec=0]). A supplied [wait_sec] of 0 is falsy in
    [parseInt(..) || 25], so the wait is 25 seconds, not
    [min (max 0 0) 60 = 0], and the deadline of a poll that finds no reply
    is 25000 ms after [Date.now()]. *)
Theorem waitSec_zero_waits_default :
  waitSec (Some "0") = 25
  /\ waitSec (Some "0") <> Z.min (Z.max 0 0) 60
  /\ snd (get_replies Sample.renv Sample.pollNoWait [])
     = Suspended (RepliesEnv.date_now Sample.renv + 25000).
Proof. repeat split. discriminate. Qed.

(* ------------------------------------------------------------------ *)
(** ** Reply intake                                                    *)
(* ------------------------------------------------------------------ *)

Section Intake.

Context {ops : StringOps}.
Variable cfg : Config.

(** A choice is recorded only if it normalises to the message. *)
Lemma classify_CHOICE question normalizedText replyType c :
  classify question normalizedText = (replyType, Some c) ->
  replyType = CHOICE /\ c <> "" /\ normalize c = normalizedText
  /\ exists q cs, question = Some q /\ PendingQuestion.choices q = Some cs /\ In c cs.
Proof.
  unfold classify. destruct question as [q|]; [|discriminate].
  destruct (PendingQuestion.choices q) as [[|c0 cs]|] eqn:Hcs; try discriminate.
  destruct (find _ (c0 :: cs)) as [m|] eqn:Hfind; [|discriminate].
  destruct (truthy (Some m)) eqn:Ht; [|discriminate].
  intros [= <- <-]. apply find_some in Hfind. destruct Hfind as [Hin Heq].
  split; [reflexivity|]. split.
  - unfold truthy in Ht. apply negb_true_iff in Ht. now apply String.eqb_neq.
  - split; [now apply String.eqb_eq|]. exists q, (c0 :: cs). now repeat split.
Qed.

Lemma classify_TEXT question normalizedText replyType :
  classify question normalizedText = (replyType, None) -> replyType = TEXT.
Proof.
  unfold classify. destruct question as [q|]; [|now intros [= <-]].
  destruct (PendingQuestion.choices q) as [[|c0 cs]|]; try now intros [= <-].
  destruct (find _ (c0 :: cs)) as [m|]; [|now intros [= <-]].
  destruct (truthy (Some m)); [discriminate | now intros [= <-]].
Qed.

(** The first choice that normalises to the message is recorded, in its
    own spelling, unless it is the empty string. *)
Lemma classify_match q cs normalizedText c :
  PendingQuestion.choices q = Some cs ->
  find (fun c => (normalize c =? normalizedText)%string) cs = Some c ->
  c <> "" ->
  classify (Some q) normalizedText = (CHOICE, Some c).
Proof.
  intros Hcs Hfind Hne. unfold classify. rewrite Hcs.
  destruct cs as [|c0 cs]; [discriminate|]. rewrite Hfind.
  unfold truthy. apply String.eqb_neq in Hne. now rewrite Hne.
Qed.

(** No choices, or none that normalises to the message: a text reply. *)
Lemma classify_no_match question normalizedText :
  (forall q cs c, question = Some q -> PendingQuestion.choices q = Some cs ->
                  In c cs -> normalize c <> normalizedText) ->
  classify question normalizedText = (TEXT, None).
Proof.
  intro H. unfold classify. destruct question as [q|]; [|reflexivity].
  destruct (PendingQuestion.choices q) as [[|c0 cs]|] eqn:Hcs; try reflexivity.
  destruct (find _ (c0 :: cs)) as [m|] eqn:Hfind; [|reflexivity].
  apply find_some in Hfind. destruct Hfind as [Hin Heq].
  apply String.eqb_eq in Heq. exfalso. exact (H q _ m eq_refl Hcs Hin Heq).
Qed.

(** An empty-string choice that is the first to match is not recorded. *)
Lemma classify_blank q cs :
  PendingQuestion.choices q = Some ("" :: cs) ->
  classify (Some q) (normalize "") = (TEXT, None).
Proof.
  intro Hcs. unfold classify. rewrite Hcs. simpl.
  now rewrite String.eqb_refl.
Qed.

Lemma webhook_query env body st userId :
  permitted cfg env body userId ->
  isQueryMode (normalize (userTextOf body)) = true ->
  Server.sessions (fst (webhook cfg env body st)) = Server.sessions st
  /\ forall s, selectSession userId (Server.sessions st) = Some s ->
               snd (webhook cfg env body st) = queryResponse (Session.pending_question s).
Proof.
  intros [key [Hkey [Hne Hres]]] Hq. unfold webhook. cbv zeta.
  rewrite Hkey. apply String.eqb_neq in Hne. rewrite Hne, Hres.
  destruct (selectSession userId (Server.sessions st)) as [s|].
  - rewrite Hq. simpl. split; [reflexivity|]. now intros s' [= <-].
  - simpl. split; [reflexivity | discriminate].
Qed.

Lemma step_replies_ok st op :
  replies_ok (Server.sessions st) -> replies_ok (Server.sessions (step cfg st op)).
Proof.
  unfold replies_ok. intro Hok.
  destruct op as [env req | env req | env body]; simpl.
  - destruct (post_question_sessions cfg env req (Server.sessions st))
      as [[-> _] | [s [q [Hid [_ [_ [[Hget [_ ->]] | [Hget [Hrs [_ ->]]]]]]]]]].
    + assumption.
    + apply putSession_Forall.
      * simpl. destruct (getSession_Some _ _ _ Hget) as [Hin _].
        rewrite Forall_forall in Hok. now apply Hok.
      * intros x Hx _. rewrite Forall_forall in Hok. now apply Hok.
    + apply Forall_app. split; [assumption|]. constructor; [|constructor].
      simpl. rewrite Hrs. constructor.
  - destruct (get_replies_sessions env req (Server.sessions st))
      as [[_ ->] | [Hget ->]]; [assumption|].
    apply Forall_app. split; [assumption|]. repeat constructor.
  - destruct (webhook_sessions cfg env body st)
      as [-> | [userId [s [rt [ch [_ [Hsel [Hq [Hcl ->]]]]]]]]]; [assumption|].
    destruct (selectSession_Some _ _ _ Hsel) as [Hin _].
    rewrite Forall_forall in Hok. apply putSession_Forall.
    + simpl. apply Forall_app. split; [now apply Hok|].
      constructor; [|constructor]. intros c _. simpl. intros ->.
      destruct (classify_CHOICE _ _ _ _ Hcl) as [_ [_ [Hn _]]]. now rewrite Hn.
    + intros x Hx _. now apply Hok.
Qed.

Lemma reachable_replies_ok st : reachable cfg st -> replies_ok (Server.sessions st).
Proof.
  intros [l <-]. assert (H0 : replies_ok (Server.sessions initial)) by constructor.
  revert H0. generalize initial. induction l as [|op l IH]; intros st H; simpl.
  - assumption.
  - apply IH. now apply step_replies_ok.
Qed.

End Intake.

(** The choices "Yes" / "No": "yes", "YES", "Yes" and " yes " are all
    recorded as the choice "Yes" with the message as text; "yess" is a
    text reply. *)
Example choice_matching_examples :
  map Session.replies (Server.sessions (run Sample.cfgA (Sample.answeredWith "yes") initial))
    = [[Reply.mk "r-1" CHOICE (Some "yes") (Some "Yes") (Sample.at_sec "05")]]
  /\ map Session.replies (Server.sessions (run Sample.cfgA (Sample.answeredWith "YES") initial))
    = [[Reply.mk "r-1" CHOICE (Some "YES") (Some "Yes") (Sample.at_sec "05")]]
  /\ map Session.replies (Server.sessions (run Sample.cfgA (Sample.answeredWith "Yes") initial))
    = [[Reply.mk "r-1" CHOICE (Some "Yes") (Some "Yes") (Sample.at_sec "05")]]
  /\ map Session.replies (Server.sessions (run Sample.cfgA (Sample.answeredWith " yes ") initial))
    = [[Reply.mk "r-1" CHOICE (Some " yes ") (Some "Yes") (Sample.at_sec "05")]]
  /\ map Session.replies (Server.sessions (run Sample.cfgA (Sample.answeredWith "yess") initial))
    = [[Reply.mk "r-1" TEXT (Some "yess") None (Sample.at_sec "05")]]
  /\ map Session.status (Server.sessions (run Sample.cfgA (Sample.answeredWith "Yes") initial))
    = [RESOLVED].
Proof. repeat split. Qed.

(** C3 (the code at an empty-string choice). The pending question offers
    the choices "" and "No" and the permitted user sends the empty
    message: the message, trimmed and case-folded, equals the first
    choice, yet the recorded reply has type [TEXT] and no choice. *)
Theorem blank_choice_recorded_as_text :
  map Session.replies (Server.sessions (run Sample.cfgA Sample.blankChoice initial))
    = [[Reply.mk "r-1" TEXT None None (Sample.at_sec "05")]]
  /\ find (fun c => (normalize c =? normalize (userTextOf (Sample.says "")))%string)
          [""; "No"] = Some ""
  /\ map Session.status (Server.sessions (run Sample.cfgA Sample.blankChoice initial))
    = [RESOLVED].
Proof. repeat split. Qed.

Lemma redeliver_cons {ops : StringOps} cfg env envs body st :
  redeliver cfg (env :: envs) body st
  = (fst (redeliver cfg envs body (fst (webhook cfg env body st))),
     snd (webhook cfg env body st)
     :: snd (redeliver cfg envs body (fst (webhook cfg env body st)))).
Proof.
  simpl. destruct (webhook cfg env body st) as [st1 r]. simpl.
  now destruct (redeliver cfg envs body st1).
Qed.

(** A waiting session that the route reaches makes the handler's scan
    succeed: it selects a waiting session of the table that the route
    reaches and that no other such session is newer than. *)
Lemma selectSession_reached (userId : option string) (sessions : Store)
    (s0 : Session.t) :
  In s0 sessions -> Session.status s0 = WAITING_USER -> reaches userId s0 ->
  exists s,
    selectSession userId sessions = Some s
    /\ In s sessions /\ Session.status s = WAITING_USER /\ reaches userId s
    /\ forall c, In c sessions -> Session.status c = WAITING_USER ->
                 reaches userId c ->
                 str_gt (Session.updated_at c) (Session.updated_at s) = false.
Proof.
  intros Hin0 Hw0 Hr0. destruct userId as [u|]; simpl in Hr0.
  - destruct Hr0 as [Hne Ho0].
    assert (Hsel : selectSession (Some u) sessions
                   = findMostRecentWaitingSessionForUser u sessions).
    { unfold selectSession, truthy. apply String.eqb_neq in Hne. now rewrite Hne. }
    rewrite Hsel.
    pose proof (scan_inv_result _ _ (scoped_body_spec u) sessions) as Hinv.
    unfold findMostRecentWaitingSessionForUser.
    destruct (fold_left _ sessions None) as [l|]; simpl in Hinv.
    + destruct Hinv as [Hin [Hc Hmax]]. apply waiting_for_spec in Hc.
      destruct Hc as [Hw Ho]. exists l. split; [reflexivity|].
      split; [assumption|]. split; [assumption|].
      split; [simpl; now split|].
      intros c Hcin Hcw [_ Hco]. apply Hmax; [assumption|].
      apply waiting_for_spec. now split.
    + exfalso. assert (Hc : waiting_for u s0) by now split.
      apply waiting_for_spec in Hc. rewrite (Hinv s0 Hin0) in Hc. discriminate.
  - change (selectSession None sessions) with (findMostRecentWaitingSession sessions).
    pose proof (scan_inv_result _ _ global_body_spec sessions) as Hinv.
    unfold findMostRecentWaitingSession.
    destruct (fold_left _ sessions None) as [l|]; simpl in Hinv.
    + destruct Hinv as [Hin [Hc Hmax]]. apply status_eqb_spec in Hc.
      exists l. split; [reflexivity|]. split; [assumption|]. split; [assumption|].
      split; [exact I|].
      intros c Hcin Hcw _. apply Hmax; [assumption | now apply status_eqb_spec].
    + exfalso. apply status_eqb_spec in Hw0. rewrite (Hinv s0 Hin0) in Hw0.
      discriminate.
Qed.

(** A query delivered repeatedly: the table stays, every delivery is
    answered, and with the view of the session the scan selects. *)
Lemma redeliver_query {ops : StringOps} (cfg : Config) (body : WebhookBody.t)
    (userId : option string) (envs : list WebhookEnv.t) (st : Server.t) :
  Forall (fun env => permitted cfg env body userId) envs ->
  isQueryMode (normalize (userTextOf body)) = true ->
  Server.sessions (fst (redeliver cfg envs body st)) = Server.sessions st
  /\ length (snd (redeliver cfg envs body st)) = length envs
  /\ forall s, selectSession userId (Server.sessions st) = Some s ->
       Forall (fun r => r = queryResponse (Session.pending_question s))
              (snd (redeliver cfg envs body st)).
Proof.
  intros Hperm Hq. revert st.
  induction Hperm as [|env envs Henv _ IH]; intro st.
  - simpl. split; [reflexivity|]. split; [reflexivity|]. intros. constructor.
  - rewrite redeliver_cons. simpl.
    destruct (webhook_query cfg env body st userId Henv Hq) as [Hsame Hresp].
    destruct (IH (fst (webhook cfg env body st))) as [IHs [IHl IHr]].
    split; [now rewrite IHs|]. split; [now rewrite IHl|].
    intros s Hsel. constructor.
    + exact (Hresp s Hsel).
    + apply (IHr s). now rewrite Hsame.
Qed.

(** C9. A message from a permitted user whose trimmed, case-folded text
    is one of the query keywords, delivered any number of times, leaves
    the session table as it was (status, pending question, replies and
    [updated_at] of every session), and every delivery is answered.  When
    a waiting session that the sender's route reaches is in the table (any
    waiting session on the global route, one owned by the user on a scoped
    route), every answer is the view of one such session, the most recent
    of them; on a reachable server that session has a pending question and
    every answer shows its text, and its choices as quick replies when it
    has any.  The same holds of the session the handler's scan selects. *)
Theorem query_is_read_only {ops : StringOps} (cfg : Config) (body : WebhookBody.t)
    (userId : option string) (envs : list WebhookEnv.t) (st : Server.t) :
  Forall (fun env => permitted cfg env body userId) envs ->
  isQueryMode (normalize (userTextOf body)) = true ->
  Server.sessions (fst (redeliver cfg envs body st)) = Server.sessions st
  /\ length (snd (redeliver cfg envs body st)) = length envs
  /\ (forall s q,
       selectSession userId (Server.sessions st) = Some s ->
       Session.pending_question s = Some q ->
       Forall (fun r =>
                 r = queryResponse (Some q)
                 /\ KakaoResponse.text r = PendingQuestion.text q
                 /\ KakaoResponse.quickReplies r
                    = match PendingQuestion.choices q with
                      | Some ((_ :: _) as cs) =>
                          Some (map (fun c => QuickReply.mk c "message" c) cs)
                      | _ => None
                      end)
              (snd (redeliver cfg envs body st)))
  /\ (reachable cfg st ->
      forall s, selectSession userId (Server.sessions st) = Some s ->
                exists q, Session.pending_question s = Some q)
  /\ (forall s0,
       In s0 (Server.sessions st) -> Session.status s0 = WAITING_USER ->
       reaches userId s0 ->
       exists s,
         In s (Server.sessions st) /\ Session.status s = WAITING_USER
         /\ reaches userId s
         /\ (forall c, In c (Server.sessions st) ->
                       Session.status c = WAITING_USER -> reaches userId c ->
                       str_gt (Session.updated_at c) (Session.updated_at s) = false)
         /\ Forall (fun r => r = queryResponse (Session.pending_question s))
                   (snd (redeliver cfg envs body st))
         /\ (reachable cfg st ->
             exists q,
               Session.pending_question s = Some q
               /\ Forall (fun r =>
                            KakaoResponse.text r = PendingQuestion.text q
                            /\ KakaoResponse.quickReplies r
                               = match PendingQuestion.choices q with
                                 | Some ((_ :: _) as cs) =>
                                     Some (map (fun c => QuickReply.mk c "message" c) cs)
                                 | _ => None
                                 end)
                         (snd (redeliver cfg envs body st)))).
Proof.
  intros Hperm Hq.
  destruct (redeliver_query cfg body userId envs st Hperm Hq) as [Hsame [Hlen Hview]].
  assert (Hpending : reachable cfg st ->
            forall s, selectSession userId (Server.sessions st) = Some s ->
                      exists q, Session.pending_question s = Some q).
  { intros Hreach s Hsel.
    destruct (selectSession_Some _ _ _ Hsel) as [Hin Hst].
    destruct (reachable_store_ok cfg st Hreach) as [_ Hall].
    rewrite Forall_forall in Hall. destruct (Hall s Hin) as [_ Hw].
    destruct (Session.pending_question s) as [q|]; [now exists q|].
    now destruct (Hw Hst). }
  assert (Hshown : forall s q,
            selectSession userId (Server.sessions st) = Some s ->
            Session.pending_question s = Some q ->
            Forall (fun r =>
                      r = queryResponse (Some q)
                      /\ KakaoResponse.text r = PendingQuestion.text q
                      /\ KakaoResponse.quickReplies r
                         = match PendingQuestion.choices q with
                           | Some ((_ :: _) as cs) =>
                               Some (map (fun c => QuickReply.mk c "message" c) cs)
                           | _ => None
                           end)
                   (snd (redeliver cfg envs body st))).
  { intros s q Hsel Hpq. pose proof (Hview s Hsel) as Hall. rewrite Hpq in Hall.
    eapply Forall_impl; [|exact Hall]. intros r ->. repeat split. }
  split; [exact Hsame|]. split; [exact Hlen|]. split; [exact Hshown|].
  split; [exact Hpending|].
  intros s0 Hin0 Hw0 Hr0.
  destruct (selectSession_reached userId (Server.sessions st) s0 Hin0 Hw0 Hr0)
    as [s [Hsel [Hin [Hw [Hr Hmax]]]]].
  exists s. split; [exact Hin|]. split; [exact Hw|]. split; [exact Hr|].
  split; [exact Hmax|]. split; [exact (Hview s Hsel)|].
  intro Hreach. destruct (Hpending Hreach s Hsel) as [q Hpq].
  exists q. split; [exact Hpq|].
  eapply Forall_impl; [|exact (Hshown s q Hsel Hpq)].
  intros r [_ [Ht Hqr]]. now split.
Qed.

(** "pending" sent twice while "Deploy?" waits: the table is untouched and
    both answers show the question with its two choices. *)
Lemma query_is_read_only_witness :
  Server.sessions
    (fst (redeliver Sample.cfgA [Sample.wenv "05" "r-1"; Sample.wenv "06" "r-2"]
            (Sample.says "pending") (run Sample.cfgA Sample.posted initial)))
  = Server.sessions (run Sample.cfgA Sample.posted initial)
  /\ length
       (snd (redeliver Sample.cfgA [Sample.wenv "05" "r-1"; Sample.wenv "06" "r-2"]
               (Sample.says "pending") (run Sample.cfgA Sample.posted initial)))
     = 2%nat
  /\ Forall (fun r =>
               KakaoResponse.text r = "Deploy?"
               /\ KakaoResponse.quickReplies r
                  = Some [QuickReply.mk "Yes" "message" "Yes";
                          QuickReply.mk "No" "message" "No"])
       (snd (redeliver Sample.cfgA [Sample.wenv "05" "r-1"; Sample.wenv "06" "r-2"]
               (Sample.says "pending") (run Sample.cfgA Sample.posted initial))).
Proof.
  assert (Hp : forall env, permitted Sample.cfgA env (Sample.says "pending") None).
  { intro env. exists "kakao-user-1". repeat split. discriminate. }
  assert (Hall : Forall (fun env => permitted Sample.cfgA env (Sample.says "pending") None)
                        [Sample.wenv "05" "r-1"; Sample.wenv "06" "r-2"]).
  { constructor; [apply Hp|]. constructor; [apply Hp|]. constructor. }
  destruct (@query_is_read_only AsciiOps Sample.cfgA (Sample.says "pending") None
              [Sample.wenv "05" "r-1"; Sample.wenv "06" "r-2"]
              (run Sample.cfgA Sample.posted initial) Hall eq_refl)
    as [Hs [Hl [_ [_ Htable]]]].
  split; [exact Hs|]. split; [exact Hl|].
  destruct (Htable
              (hd (Sample.waiting "S0" "nobody" (Sample.at_sec "00") None)
                  (Server.sessions (run Sample.cfgA Sample.posted initial)))
              (or_introl eq_refl) eq_refl I)
    as [s [Hin [_ [_ [_ [_ Hreach]]]]]].
  destruct (Hreach (ex_intro _ Sample.posted eq_refl)) as [q [Hpq Hshown]].
  destruct Hin as [<-|[]]. injection Hpq as <-. exact Hshown.
Defined.

Example query_response_example :
  snd (webhook Sample.cfgA (Sample.wenv "05" "r-1") (Sample.says " Pending ")
         (run Sample.cfgA Sample.posted initial))
  = KakaoResponse.mk "2.0" "Deploy?"
      (Some [QuickReply.mk "Yes" "message" "Yes"; QuickReply.mk "No" "message" "No"]).
Proof. reflexivity. Qed.

(** C10. Query keywords shadow answer choices.  If a choice of the
    selected session's pending question normalises to a query keyword, a
    message from a permitted user that normalises to the same text is
    answered as a query: the session table is untouched, the session still
    waits with its question, and the answer is the question view.  And in
    no reachable state does a reply of type [CHOICE] carry a choice that
    normalises to a query keyword. *)
Theorem query_keywords_shadow_choices {ops : StringOps} (cfg : Config) :
  (forall env body st userId s q cs c,
     permitted cfg env body userId ->
     selectSession userId (Server.sessions st) = Some s ->
     Session.pending_question s = Some q ->
     PendingQuestion.choices q = Some cs -> In c cs ->
     isQueryMode (normalize c) = true ->
     normalize (userTextOf body) = normalize c ->
     Server.sessions (fst (webhook cfg env body st)) = Server.sessions st
     /\ In s (Server.sessions (fst (webhook cfg env body st)))
     /\ Session.status s = WAITING_USER
     /\ snd (webhook cfg env body st) = queryResponse (Some q))
  /\ (forall st, reachable cfg st ->
      forall s r c, In s (Server.sessions st) -> In r (Session.replies s) ->
                    Reply.type r = CHOICE -> Reply.choice r = Some c ->
                    isQueryMode (normalize c) = false).
Proof.
  split.
  - intros env body st userId s q cs c Hperm Hsel Hpq _ _ Hkw Hsame.
    rewrite <- Hsame in Hkw.
    destruct (webhook_query cfg env body st userId Hperm Hkw) as [Hs Hresp].
    destruct (selectSession_Some _ _ _ Hsel) as [Hin Hst].
    split; [exact Hs|]. split; [now rewrite Hs|]. split; [exact Hst|].
    now rewrite (Hresp s Hsel), Hpq.
  - intros st Hreach s r c Hs Hr Hty Hch.
    pose proof (reachable_replies_ok cfg st Hreach) as Hok. unfold replies_ok in Hok.
    rewrite Forall_forall in Hok. pose proof (Hok s Hs) as Hrs.
    rewrite Forall_forall in Hrs. exact (Hrs r Hr c Hty Hch).
Qed.

(** The question offers "?" as a choice; the user sends "?": nothing is
    recorded and the session keeps waiting. *)
Lemma query_keywords_shadow_choices_witness :
  Server.sessions
    (fst (webhook Sample.cfgA (Sample.wenv "05" "r-1") (Sample.says "?")
            (run Sample.cfgA Sample.askMark initial)))
  = Server.sessions (run Sample.cfgA Sample.askMark initial)
  /\ map Session.status (Server.sessions (run Sample.cfgA Sample.askMark initial))
     = [WAITING_USER].
Proof.
  destruct (@query_keywords_shadow_choices AsciiOps Sample.cfgA) as [H _].
  assert (Hp : permitted Sample.cfgA (Sample.wenv "05" "r-1") (Sample.says "?") None).
  { exists "kakao-user-1". repeat split. discriminate. }
  destruct (H (Sample.wenv "05" "r-1") (Sample.says "?")
              (run Sample.cfgA Sample.askMark initial) None _ _ _ "?"
              Hp eq_refl eq_refl eq_refl (or_introl eq_refl) eq_refl eq_refl)
    as [Hs _].
  split; [exact Hs | reflexivity].
Defined.

(** In multi-user mode a message resolved to [userA] is recorded on
    [userA]'s session although [userB]'s is the newer; [userB]'s keeps
    waiting.  A sender the vault does not know is handed a link code. *)
Example scoped_selection_example :
  map (fun s => (Session.session_id s, Session.status s, length (Session.replies s)))
      (Server.sessions
         (fst (webhook Sample.cfgB Sample.wenvA (Sample.fromLinked "go ahead")
                 (Server.mk Sample.twoUsers 0 None))))
  = [("SA", RESOLVED, 1%nat); ("SB", WAITING_USER, 0%nat)]
  /\ webhook Sample.cfgB (Sample.wenv "25" "r-9") (Sample.fromLinked "go ahead")
             (Server.mk Sample.twoUsers 0 None)
     = (Server.mk Sample.twoUsers 1 (Some (Sample.at_sec "25")),
        kakaoResponse (MSG_LINK "A1B2C3")).
Proof. split; reflexivity. Qed.

(* ------------------------------------------------------------------ *)
(** ** The long-poll timer and the string built-ins                    *)
(* ------------------------------------------------------------------ *)

(** A firing of the timer answers as soon as a reply is visible, answers
    with no reply once the deadline has passed, and re-arms otherwise. *)
Lemma poll_outcome (date_now : Z) (req : RepliesRequest.t) (deadline : Z)
    (session : Session.t) :
  poll date_now req deadline session
  = match collectReplies (RepliesRequest.since req) (Session.replies session) with
    | [] =>
        if deadline <=? date_now
        then Responded (RepliesResponse.mk (RepliesRequest.session_id req)
                                           (Session.status session) [])
        else Suspended deadline
    | replies =>
        Responded (RepliesResponse.mk (RepliesRequest.session_id req)
                                      (Session.status session) replies)
    end.
Proof.
  unfold poll. now destruct (collectReplies _ _).
Qed.

Example jsstring_examples :
  JsString.trim "  Yes	 " = "Yes"
  /\ JsString.trim " 질문 " = "질문"
  /\ JsString.toLowerCase "YeS?" = "yes?"
  /\ JsString.parseInt " -12abc" = Some (-12)
  /\ JsString.parseInt "0" = Some 0
  /\ JsString.parseInt "abc" = None.
Proof. repeat split. Qed.

(* ------------------------------------------------------------------ *)
(** ** More on the scans: the global scan and ties                     *)
(* ------------------------------------------------------------------ *)

Lemma str_gt_trans (a b c : string) :
  str_gt b a = true -> str_gt c b = true -> str_gt c a = true.
Proof.
  unfold str_gt, String.ltb. intros Hab Hbc.
  destruct (a ?= b)%string eqn:Eab; try discriminate.
  destruct (b ?= c)%string eqn:Ebc; try discriminate.
  now rewrite (string_compare_lt_trans _ _ _ Eab Ebc).
Qed.

(** If [c] is not newer than [l] and [s] is newer than [l], then [s] is
    newer than [c]. *)
Lemma str_gt_overtakes (l s c : string) :
  str_gt c l = false -> str_gt s l = true -> str_gt s c = true.
Proof.
  intros Hc Hs. unfold str_gt, String.ltb in Hc.
  destruct (l ?= c)%string eqn:Elc; try discriminate.
  - apply String.compare_eq_iff in Elc. now subst c.
  - apply str_gt_trans with l; [|exact Hs].
    unfold str_gt, String.ltb. rewrite String.compare_antisym, Elc. reflexivity.
Qed.

Section ScanFirst.

Variable cand : Session.t -> bool.
Variable body : option Session.t -> Session.t -> option Session.t.
Hypothesis body_spec :
  forall latest s, body latest s = if cand s then pick_latest latest s else latest.

Lemma scan_first_step seen latest s :
  scan_first cand seen latest -> scan_first cand (seen ++ [s]) (body latest s).
Proof.
  intro Hinv. rewrite body_spec. destruct (cand s) eqn:Hs.
  - destruct latest as [l|]; simpl in *.
    + destruct Hinv as [pre [post [Hseen [Hl [Hpre Hpost]]]]].
      destruct (str_gt (Session.updated_at s) (Session.updated_at l)) eqn:Hgt; simpl.
      * exists seen, []. split; [reflexivity|]. split; [assumption|].
        split; [|intros c []]. intros c Hc Hcc. subst seen.
        apply in_app_or in Hc. destruct Hc as [Hc|[<-|Hc]].
        -- apply str_gt_trans with (Session.updated_at l); [now apply Hpre | exact Hgt].
        -- exact Hgt.
        -- eapply str_gt_overtakes; [now apply Hpost | exact Hgt].
      * exists pre, (post ++ [s])%list. subst seen.
        split; [now rewrite <- app_assoc|]. split; [assumption|].
        split; [assumption|]. intros c Hc Hcc.
        apply in_app_or in Hc. destruct Hc as [Hc|[<-|[]]];
          [now apply Hpost | exact Hgt].
    + exists seen, []. split; [reflexivity|]. split; [assumption|].
      split; [|intros c []]. intros c Hc Hcc.
      rewrite (Hinv c Hc) in Hcc. discriminate.
  - destruct latest as [l|]; simpl in *.
    + destruct Hinv as [pre [post [Hseen [Hl [Hpre Hpost]]]]].
      exists pre, (post ++ [s])%list. subst seen.
      split; [now rewrite <- app_assoc|]. split; [assumption|].
      split; [assumption|]. intros c Hc Hcc.
      apply in_app_or in Hc. destruct Hc as [Hc|[<-|[]]];
        [now apply Hpost | congruence].
    + intros c Hc. apply in_app_or in Hc. destruct Hc as [Hc|[<-|[]]];
        [now apply Hinv | assumption].
Qed.

Lemma scan_first_fold rest : forall seen latest,
  scan_first cand seen latest ->
  scan_first cand (seen ++ rest) (fold_left body rest latest).
Proof.
  induction rest as [|s rest IH]; intros seen latest Hinv; simpl.
  - now rewrite app_nil_r.
  - replace (seen ++ s :: rest)%list with ((seen ++ [s]) ++ rest)%list
      by (rewrite <- app_assoc; reflexivity).
    apply IH. now apply scan_first_step.
Qed.

Lemma scan_first_result sessions :
  scan_first cand sessions (fold_left body sessions None).
Proof.
  apply (scan_first_fold sessions [] None). simpl. intros c [].
Qed.

End ScanFirst.

Lemma scoped_cand_spec (userId : string) (latest : option Session.t) (s : Session.t) :
  (if negb (SessionStatus_eqb (Session.status s) WAITING_USER) then latest
   else if negb (owner_is userId s) then latest
   else pick_latest latest s)
  = if is_waiting s && owner_is userId s then pick_latest latest s else latest.
Proof. apply scoped_body_spec. Qed.

(** X1. The global scan returns only a session of the table whose status
    is [WAITING_USER], and no waiting session has a later [updated_at];
    it returns nothing exactly when no session waits. *)
Theorem global_scan_selects_latest (sessions : Store) :
  (forall s, findMostRecentWaitingSession sessions = Some s ->
     In s sessions /\ Session.status s = WAITING_USER
     /\ forall c, In c sessions -> Session.status c = WAITING_USER ->
                  str_gt (Session.updated_at c) (Session.updated_at s) = false)
  /\ (findMostRecentWaitingSession sessions = None
      <-> forall c, In c sessions -> Session.status c <> WAITING_USER).
Proof.
  pose proof (scan_inv_result _ _ global_body_spec sessions) as Hinv.
  unfold findMostRecentWaitingSession.
  destruct (fold_left _ sessions None) as [l|]; simpl in Hinv.
  - destruct Hinv as [Hin [Hc Hmax]]. split.
    + intros s [= <-]. split; [assumption|]. split; [now apply status_eqb_spec|].
      intros c Hcin Hcw. apply Hmax; [assumption | now apply status_eqb_spec].
    + split; [discriminate|]. intro Hnone. exfalso.
      apply (Hnone l Hin). now apply status_eqb_spec.
  - split; [discriminate|]. split; [|reflexivity].
    intros _ c Hcin Hcw. apply status_eqb_spec in Hcw.
    rewrite (Hinv c Hcin) in Hcw. discriminate.
Qed.

Lemma global_scan_selects_latest_witness :
  In (Sample.waiting "SB" "userB" (Sample.at_sec "20") None) Sample.twoUsers
  /\ Session.status (Sample.waiting "SB" "userB" (Sample.at_sec "20") None) = WAITING_USER.
Proof.
  destruct (global_scan_selects_latest Sample.twoUsers) as [H _].
  destruct (H _ eq_refl) as [Hin [Hw _]]. split; assumption.
Defined.

(** X2. Ties go to the earlier session: what either scan returns comes,
    in the insertion order of the table, after candidates that are all
    strictly older and before candidates none of which is newer. *)
Theorem scans_prefer_earlier_on_ties (sessions : Store) :
  (forall l, findMostRecentWaitingSession sessions = Some l ->
             first_latest is_waiting sessions l)
  /\ (forall userId l,
        findMostRecentWaitingSessionForUser userId sessions = Some l ->
        first_latest (fun s => is_waiting s && owner_is userId s) sessions l).
Proof.
  split.
  - intros l H.
    pose proof (scan_first_result _ _ global_body_spec sessions) as Hinv.
    unfold findMostRecentWaitingSession in H. rewrite H in Hinv. exact Hinv.
  - intros userId l H.
    pose proof (scan_first_result _ _ (scoped_cand_spec userId) sessions) as Hinv.
    unfold findMostRecentWaitingSessionForUser in H. rewrite H in Hinv. exact Hinv.
Qed.

Lemma scans_prefer_earlier_on_ties_witness :
  first_latest is_waiting
    [Sample.waiting "SA" "userA" (Sample.at_sec "10") None;
     Sample.waiting "SC" "userA" (Sample.at_sec "10") None]
    (Sample.waiting "SA" "userA" (Sample.at_sec "10") None).
Proof.
  destruct (scans_prefer_earlier_on_ties
              [Sample.waiting "SA" "userA" (Sample.at_sec "10") None;
               Sample.waiting "SC" "userA" (Sample.at_sec "10") None]) as [H _].
  exact (H _ eq_refl).
Defined.

(* ------------------------------------------------------------------ *)
(** ** What the handlers keep: sessions, replies, statuses             *)
(* ------------------------------------------------------------------ *)

Lemma session_extends_refl (s : Session.t) : session_extends s s.
Proof.
  repeat split. exists []. now rewrite app_nil_r.
Qed.

Lemma session_extends_trans (a b c : Session.t) :
  session_extends a b -> session_extends b c -> session_extends a c.
Proof.
  intros [Hi1 [Hc1 [Ho1 [l1 Hr1]]]] [Hi2 [Hc2 [Ho2 [l2 Hr2]]]].
  split; [congruence|]. split; [congruence|]. split; [congruence|].
  exists (l1 ++ l2)%list. rewrite Hr2, Hr1. now rewrite app_assoc.
Qed.

Lemma Forall2_extends_refl (l : list Session.t) : Forall2 session_extends l l.
Proof.
  induction l; constructor; [apply session_extends_refl | assumption].
Qed.

Lemma Forall2_extends_trans (a b c : list Session.t) :
  Forall2 session_extends a b -> Forall2 session_extends b c ->
  Forall2 session_extends a c.
Proof.
  intro Hab. revert c. induction Hab as [|x y a b Hxy _ IH]; intros c Hbc.
  - inversion Hbc. constructor.
  - inversion Hbc as [|? z ? c' Hyz Hrest]; subst. constructor.
    + now apply session_extends_trans with y.
    + now apply IH.
Qed.

Lemma store_extends_refl (sessions : Store) : store_extends sessions sessions.
Proof.
  exists sessions, []. split; [now rewrite app_nil_r | apply Forall2_extends_refl].
Qed.

Lemma store_extends_trans (a b c : Store) :
  store_extends a b -> store_extends b c -> store_extends a c.
Proof.
  intros [k1 [c1 [-> H1]]] [k2 [c2 [-> H2]]].
  apply Forall2_app_inv_l in H2. destruct H2 as [k21 [k22 [H21 [H22 ->]]]].
  exists k21, (k22 ++ c2)%list. split; [now rewrite app_assoc|].
  now apply Forall2_extends_trans with k1.
Qed.

Lemma store_extends_new (sessions : Store) (s : Session.t) :
  store_extends sessions (sessions ++ [s])%list.
Proof.
  exists sessions, [s]. split; [reflexivity | apply Forall2_extends_refl].
Qed.

Lemma Forall2_map_pointwise (f : Session.t -> Session.t) (l : list Session.t) :
  (forall x, In x l -> session_extends x (f x)) ->
  Forall2 session_extends l (map f l).
Proof.
  induction l as [|x l IH]; simpl; intro H; constructor.
  - apply H. now left.
  - apply IH. intros y Hy. apply H. now right.
Qed.

Lemma store_extends_put (sessions : Store) (s s' : Session.t) :
  NoDup (map Session.session_id sessions) -> In s sessions ->
  session_extends s s' ->
  store_extends sessions (putSession s' sessions).
Proof.
  intros Hnd Hin Hext. exists (putSession s' sessions), [].
  split; [now rewrite app_nil_r|]. unfold putSession.
  apply Forall2_map_pointwise. intros x Hx.
  destruct (has_id (Session.session_id s') x) eqn:E.
  - apply has_id_true in E. destruct Hext as [Hid Hrest].
    pose proof (getSession_In _ _ Hnd Hx) as H1.
    pose proof (getSession_In _ _ Hnd Hin) as H2.
    rewrite E, Hid, H2 in H1. injection H1 as <-. now split.
  - apply session_extends_refl.
Qed.

Lemma getSession_putSession_other (s : Session.t) (sessions : Store) (sid : string) :
  sid <> Session.session_id s ->
  getSession sid (putSession s sessions) = getSession sid sessions.
Proof.
  intro Hne. unfold getSession, putSession.
  induction sessions as [|x rest IH]; simpl; [reflexivity|].
  destruct (has_id (Session.session_id s) x) eqn:E.
  - apply has_id_true in E.
    replace (has_id sid s) with false
      by (symmetry; apply has_id_false; congruence).
    replace (has_id sid x) with false
      by (symmetry; apply has_id_false; congruence).
    exact IH.
  - destruct (has_id sid x); [reflexivity | exact IH].
Qed.

Lemma getSession_extends (old kept created : Store) (sid : string) (s : Session.t) :
  Forall2 session_extends old kept -> getSession sid old = Some s ->
  exists s', getSession sid (kept ++ created)%list = Some s' /\ session_extends s s'.
Proof.
  unfold getSession. induction 1 as [|x y old kept Hxy _ IH]; simpl; [discriminate|].
  assert (Hid : has_id sid y = has_id sid x).
  { unfold has_id. destruct Hxy as [-> _]. reflexivity. }
  rewrite Hid. destruct (has_id sid x).
  - intros [= <-]. now exists y.
  - exact IH.
Qed.

Section Keeps.

Context {ops : StringOps}.
Variable cfg : Config.

(** An answer: the selected session is resolved with the reply built from
    the message, and the caller is told it was received. *)
Lemma webhook_answer env body st userId s :
  permitted cfg env body userId ->
  selectSession userId (Server.sessions st) = Some s ->
  isQueryMode (normalize (userTextOf body)) = false ->
  webhook cfg env body st
  = (Server.mk
       (putSession
          (addReply (WebhookEnv.t_add env) s
             (Reply.mk (WebhookEnv.reply_id env)
                (fst (classify (Session.pending_question s) (normalize (userTextOf body))))
                (if (userTextOf body =? "")%string then None else Some (userTextOf body))
                (snd (classify (Session.pending_question s) (normalize (userTextOf body))))
                (WebhookEnv.reply_created_at env)))
          (Server.sessions st))
       (S (Server.webhookCallCount st)) (Some (WebhookEnv.t_called env)),
     kakaoResponse MSG_RECEIVED).
Proof.
  intros [key [Hkey [Hne Hres]]] Hsel Hq. unfold webhook. cbv zeta.
  rewrite Hkey. apply String.eqb_neq in Hne. rewrite Hne, Hres, Hsel, Hq.
  now destruct (classify _ _).
Qed.

Lemma step_store_extends st op :
  store_ok (Server.sessions st) ->
  store_extends (Server.sessions st) (Server.sessions (step cfg st op)).
Proof.
  intros [Hnd Hall]. destruct op as [env req | env req | env body]; simpl.
  - destruct (post_question_sessions cfg env req (Server.sessions st))
      as [[-> _] | [s [q [Hid [_ [_ [[Hget [_ ->]] | [Hget [_ [_ ->]]]]]]]]]].
    + apply store_extends_refl.
    + destruct (getSession_Some _ _ _ Hget) as [Hin _].
      apply store_extends_put with s; [assumption | assumption |].
      repeat split. exists []. simpl. now rewrite app_nil_r.
    + apply store_extends_new.
  - destruct (get_replies_sessions env req (Server.sessions st))
      as [[_ ->] | [_ ->]]; [apply store_extends_refl | apply store_extends_new].
  - destruct (webhook_sessions cfg env body st)
      as [-> | [userId [s [rt [ch [_ [Hsel [_ [_ ->]]]]]]]]];
      [apply store_extends_refl|].
    destruct (selectSession_Some _ _ _ Hsel) as [Hin _].
    apply store_extends_put with s; [assumption | assumption |].
    repeat split. simpl. now eexists.
Qed.

Lemma run_store_extends l : forall st,
  store_ok (Server.sessions st) ->
  store_extends (Server.sessions st) (Server.sessions (run cfg l st)).
Proof.
  induction l as [|op l IH]; intros st Hok; simpl.
  - apply store_extends_refl.
  - apply store_extends_trans with (Server.sessions (step cfg st op)).
    + now apply step_store_extends.
    + apply IH. now apply step_store_ok.
Qed.

Lemma step_store_live st op :
  store_live (Server.sessions st) -> store_live (Server.sessions (step cfg st op)).
Proof.
  unfold store_live. intro Hok.
  destruct op as [env req | env req | env body]; simpl.
  - destruct (post_question_sessions cfg env req (Server.sessions st))
      as [[-> _] | [s [q [Hid [_ [_ [[Hget [_ ->]] | [Hget [Hrs [_ ->]]]]]]]]]].
    + assumption.
    + apply putSession_Forall.
      * destruct (getSession_Some _ _ _ Hget) as [Hin _].
        rewrite Forall_forall in Hok. destruct (Hok s Hin) as [_ Hrt].
        split; [exact I | exact Hrt].
      * intros x Hx _. rewrite Forall_forall in Hok. now apply Hok.
    + apply Forall_app. split; [assumption|]. constructor; [|constructor].
      split; [exact I|]. simpl. rewrite Hrs. constructor.
  - destruct (get_replies_sessions env req (Server.sessions st))
      as [[_ ->] | [Hget ->]]; [assumption|].
    apply Forall_app. split; [assumption|]. constructor; [|constructor].
    split; [reflexivity | constructor].
  - destruct (webhook_sessions cfg env body st)
      as [-> | [userId [s [rt [ch [_ [Hsel [Hq [Hcl ->]]]]]]]]]; [assumption|].
    destruct (selectSession_Some _ _ _ Hsel) as [Hin _].
    rewrite Forall_forall in Hok. apply putSession_Forall.
    + split.
      * unfold session_live. simpl. now destruct (Session.replies s).
      * simpl. apply Forall_app. split; [now apply Hok|].
        constructor; [|constructor]. unfold reply_typed. simpl.
        destruct ch as [c|].
        -- destruct (classify_CHOICE _ _ _ _ Hcl) as [-> [Hne _]]. now exists c.
        -- now rewrite (classify_TEXT _ _ _ Hcl).
    + intros x Hx _. now apply Hok.
Qed.

Lemma reachable_store_live st : reachable cfg st -> store_live (Server.sessions st).
Proof.
  intros [l <-]. assert (H0 : store_live (Server.sessions initial)) by constructor.
  revert H0. generalize initial. induction l as [|op l IH]; intros st H; simpl.
  - assumption.
  - apply IH. now apply step_store_live.
Qed.

End Keeps.

(** X3. Nothing is ever deleted or rewritten: after any further requests
    on a reachable server, the table consists of the sessions it had, in
    the same order, each with the same id, creation time and owner and
    with its replies followed by the later ones, and then the sessions
    created since.  In particular a session that could be looked up still
    can. *)
Theorem sessions_only_grow {ops : StringOps} (cfg : Config) (st : Server.t)
    (later : list Op) :
  reachable cfg st ->
  store_extends (Server.sessions st) (Server.sessions (run cfg later st))
  /\ forall sessionId s,
       getSession sessionId (Server.sessions st) = Some s ->
       exists s', getSession sessionId (Server.sessions (run cfg later st)) = Some s'
                  /\ session_extends s s'.
Proof.
  intro Hreach. pose proof (reachable_store_ok cfg st Hreach) as Hok.
  pose proof (run_store_extends cfg later st Hok) as Hext.
  split; [exact Hext|]. intros sid s Hget.
  destruct Hext as [kept [created [-> HF]]].
  now apply getSession_extends with (Server.sessions st).
Qed.

Lemma sessions_only_grow_witness :
  store_extends
    (Server.sessions (run Sample.cfgA Sample.posted initial))
    (Server.sessions
       (run Sample.cfgA [WebhookIntake (Sample.wenv "05" "r-1") (Sample.says "Yes")]
            (run Sample.cfgA Sample.posted initial))).
Proof.
  assert (Hreach : reachable Sample.cfgA (run Sample.cfgA Sample.posted initial))
    by (exists Sample.posted; reflexivity).
  exact (proj1 (sessions_only_grow Sample.cfgA _
                  [WebhookIntake (Sample.wenv "05" "r-1") (Sample.says "Yes")] Hreach)).
Defined.

(** X4. The reserved values are never produced: on a reachable server no
    session is [EXPIRED] or [CANCELED], an [IDLE] session has no reply, a
    [RESOLVED] one has at least one, and every reply is a [TEXT] reply
    without choice or a [CHOICE] reply with a non-empty choice, never a
    [CANCEL]. *)
Theorem reserved_values_unused {ops : StringOps} (cfg : Config) (st : Server.t) :
  reachable cfg st ->
  forall s, In s (Server.sessions st) ->
    Session.status s <> EXPIRED /\ Session.status s <> CANCELED
    /\ (Session.status s = IDLE -> Session.replies s = [])
    /\ (Session.status s = RESOLVED -> Session.replies s <> [])
    /\ forall r, In r (Session.replies s) ->
         Reply.type r <> CANCEL
         /\ (Reply.type r = TEXT -> Reply.choice r = None)
         /\ (Reply.type r = CHOICE -> exists c, Reply.choice r = Some c /\ c <> "").
Proof.
  intros Hreach s Hs.
  pose proof (reachable_store_live cfg st Hreach) as Hlive.
  unfold store_live in Hlive. rewrite Forall_forall in Hlive.
  destruct (Hlive s Hs) as [Hst Hrs]. unfold session_live in Hst.
  split; [intro E; now rewrite E in Hst|].
  split; [intro E; now rewrite E in Hst|].
  split; [intro E; now rewrite E in Hst|].
  split; [intro E; now rewrite E in Hst|].
  intros r Hr. rewrite Forall_forall in Hrs. pose proof (Hrs r Hr) as Hty.
  unfold reply_typed in Hty.
  split; [intro E; now rewrite E in Hty|].
  split; intro E; now rewrite E in Hty.
Qed.

Lemma reserved_values_unused_witness :
  Forall (fun s => Session.status s <> EXPIRED)
    (Server.sessions (run Sample.cfgA (Sample.answeredWith "Yes") initial)).
Proof.
  apply Forall_forall. intros s Hs.
  assert (Hreach : reachable Sample.cfgA
                     (run Sample.cfgA (Sample.answeredWith "Yes") initial))
    by (exists (Sample.answeredWith "Yes"); reflexivity).
  exact (proj1 (reserved_values_unused Sample.cfgA _ Hreach s Hs)).
Defined.

(** X5. An answer touches one session only.  When a permitted sender's
    message is not a query and a waiting session is selected, the reply
    ("received") is sent, the selected session is resolved with one more
    reply carrying the generated id and the message as typed (absent when
    empty), every other session id looks up as before, and no session is
    added or removed. *)
Theorem answer_resolves_selected_only {ops : StringOps} (cfg : Config)
    (env : WebhookEnv.t) (body : WebhookBody.t) (st : Server.t)
    (userId : option string) (s : Session.t) :
  permitted cfg env body userId ->
  selectSession userId (Server.sessions st) = Some s ->
  isQueryMode (normalize (userTextOf body)) = false ->
  snd (webhook cfg env body st) = kakaoResponse MSG_RECEIVED
  /\ (exists reply,
        getSession (Session.session_id s) (Server.sessions (fst (webhook cfg env body st)))
        = Some (addReply (WebhookEnv.t_add env) s reply)
        /\ Reply.reply_id reply = WebhookEnv.reply_id env
        /\ Reply.created_at reply = WebhookEnv.reply_created_at env
        /\ Reply.text reply
           = if (userTextOf body =? "")%string then None else Some (userTextOf body))
  /\ (forall sessionId, sessionId <> Session.session_id s ->
        getSession sessionId (Server.sessions (fst (webhook cfg env body st)))
        = getSession sessionId (Server.sessions st))
  /\ map Session.session_id (Server.sessions (fst (webhook cfg env body st)))
     = map Session.session_id (Server.sessions st).
Proof.
  intros Hperm Hsel Hq. rewrite (webhook_answer cfg env body st userId s Hperm Hsel Hq).
  simpl. destruct (selectSession_Some _ _ _ Hsel) as [Hin _].
  split; [reflexivity|]. split; [|split].
  - eexists. split.
    + apply (getSession_putSession (addReply _ s _)). simpl. now apply in_map.
    + repeat split.
  - intros sid Hne. now apply getSession_putSession_other.
  - apply putSession_ids.
Qed.

Lemma answer_resolves_selected_only_witness :
  snd (webhook Sample.cfgA (Sample.wenv "05" "r-1") (Sample.says "Yes")
         (run Sample.cfgA Sample.posted initial))
  = kakaoResponse MSG_RECEIVED.
Proof.
  assert (Hp : permitted Sample.cfgA (Sample.wenv "05" "r-1") (Sample.says "Yes") None).
  { exists "kakao-user-1". repeat split. discriminate. }
  exact (proj1 (@answer_resolves_selected_only AsciiOps Sample.cfgA
                  (Sample.wenv "05" "r-1") (Sample.says "Yes")
                  (run Sample.cfgA Sample.posted initial) None _ Hp eq_refl eq_refl)).
Defined.

(* ------------------------------------------------------------------ *)
(** ** From a question to its answer                                   *)
(* ------------------------------------------------------------------ *)

Lemma putSession_mem (s : Session.t) (sessions : Store) :
  In (Session.session_id s) (map Session.session_id sessions) ->
  In s (putSession s sessions).
Proof.
  intro H. apply in_map_iff in H. destruct H as [x [Hid Hx]].
  unfold putSession. apply in_map_iff. exists x. split; [|assumption].
  apply has_id_true in Hid. now rewrite Hid.
Qed.

Lemma putSession_elem (s : Session.t) (sessions : Store) (y : Session.t) :
  In y (putSession s sessions) -> y = s \/ In y sessions.
Proof.
  unfold putSession. intro H. apply in_map_iff in H. destruct H as [x [Hy Hx]].
  destruct (has_id (Session.session_id s) x); subst y; [now left | now right].
Qed.

Lemma accepted_inv (req : QuestionsRequest.t) :
  accepted req = true ->
  exists text severity,
    QuestionsBody.text (QuestionsRequest.body req) = Some text /\ text <> ""
    /\ QuestionsBody.severity (QuestionsRequest.body req) = Some severity
    /\ targetMismatch (cognitoCaller (QuestionsRequest.auth req))
                      (QuestionsBody.target_user_id (QuestionsRequest.body req)) = false.
Proof.
  unfold accepted, truthy. cbv zeta.
  destruct (QuestionsBody.text _) as [text|]; [|discriminate].
  destruct (QuestionsBody.severity _) as [severity|];
    [|rewrite andb_false_r; discriminate].
  destruct (text =? "")%string eqn:Et; [discriminate|].
  destruct (targetMismatch _ _); [discriminate|]. intros _.
  exists text, severity. apply String.eqb_neq in Et. now repeat split.
Qed.

(** An accepted request whose session does not already wait with a
    question: the question is installed on that session. *)
Lemma post_question_installs cfg env req sessions text severity :
  QuestionsBody.text (QuestionsRequest.body req) = Some text ->
  QuestionsBody.severity (QuestionsRequest.body req) = Some severity ->
  accepted req = true ->
  (Session.status (sessionFor env req sessions) = WAITING_USER ->
   Session.pending_question (sessionFor env req sessions) = None) ->
  post_question cfg env req sessions
  = QuestionsResult.mk
      (putSession
         (setPendingQuestion (QuestionsEnv.t_set env) (sessionFor env req sessions)
            (questionOf env (QuestionsRequest.body req) text severity))
         (fst (getOrCreateSession (QuestionsEnv.t_created env) (QuestionsEnv.t_updated env)
                 (QuestionsRequest.session_id req) WAITING_USER
                 (ownerUserIdOf (cognitoCaller (QuestionsRequest.auth req))
                    (QuestionsBody.target_user_id (QuestionsRequest.body req)))
                 sessions)))
      (Created (QuestionsRequest.session_id req) (QuestionsEnv.message_id env) WAITING_USER)
      (pushOf cfg env req text).
Proof.
  intros Ht Hs Hacc Hfree. destruct (accepted_inv req Hacc) as [t' [s' [Ht' [Hne [Hs' Hmm]]]]].
  rewrite Ht in Ht'. injection Ht' as <-. rewrite Hs in Hs'. injection Hs' as <-.
  unfold post_question, sessionFor in *. cbv zeta. rewrite Ht, Hs, Hmm.
  apply String.eqb_neq in Hne. rewrite Hne.
  destruct (getOrCreateSession _ _ _ _ _ sessions) as [sessions1 session]. simpl in *.
  unfold pushOf, questionOf.
  destruct (Session.status session) eqn:Est; try reflexivity.
  destruct (Session.pending_question session) eqn:Epq; [|reflexivity].
  specialize (Hfree eq_refl). discriminate.
Qed.

(** The table once the question is installed. *)
Lemma posted_table env req sessions q :
  let s1 := setPendingQuestion (QuestionsEnv.t_set env) (sessionFor env req sessions) q in
  let table :=
    putSession s1
      (fst (getOrCreateSession (QuestionsEnv.t_created env) (QuestionsEnv.t_updated env)
              (QuestionsRequest.session_id req) WAITING_USER
              (ownerUserIdOf (cognitoCaller (QuestionsRequest.auth req))
                 (QuestionsBody.target_user_id (QuestionsRequest.body req)))
              sessions)) in
  Session.session_id s1 = QuestionsRequest.session_id req
  /\ In s1 table
  /\ getSession (QuestionsRequest.session_id req) table = Some s1
  /\ (forall y, In y table -> y = s1 \/ In y sessions)
  /\ map Session.session_id table
     = match getSession (QuestionsRequest.session_id req) sessions with
       | Some _ => map Session.session_id sessions
       | None => (map Session.session_id sessions ++ [QuestionsRequest.session_id req])%list
       end.
Proof.
  cbv zeta. unfold sessionFor.
  destruct (getSession (QuestionsRequest.session_id req) sessions) as [s|] eqn:Hget.
  - erewrite getOrCreateSession_found by exact Hget. simpl.
    destruct (getSession_Some _ _ _ Hget) as [Hin Hid].
    assert (Hmem : In (Session.session_id
                         (setPendingQuestion (QuestionsEnv.t_set env) s q))
                      (map Session.session_id sessions))
      by (simpl; now apply in_map).
    split; [exact Hid|]. split; [now apply putSession_mem|]. split.
    + rewrite <- Hid. now apply (getSession_putSession (setPendingQuestion _ s q)).
    + split; [apply putSession_elem | apply putSession_ids].
  - rewrite getOrCreateSession_new by exact Hget. simpl.
    rewrite putSession_app_new; [|exact Hget | reflexivity].
    split; [reflexivity|]. split; [apply in_or_app; right; now left|]. split.
    + now apply getSession_app_new.
    + split.
      * intros y Hy. apply in_app_or in Hy. destruct Hy as [Hy|[<-|[]]];
          [now right | now left].
      * rewrite map_app. reflexivity.
Qed.

Lemma owner_is_true (u : string) (s : Session.t) :
  owner_is u s = true <-> Session.owner_user_id s = Some u.
Proof.
  unfold owner_is. destruct (Session.owner_user_id s) as [o|].
  - rewrite String.eqb_eq. split; congruence.
  - split; discriminate.
Qed.

(** A route that reaches the only waiting session selects it. *)
Lemma select_only_waiting userId (table : Store) (s1 : Session.t) :
  In s1 table -> Session.status s1 = WAITING_USER -> reaches userId s1 ->
  (forall y, In y table -> Session.status y = WAITING_USER -> y = s1) ->
  selectSession userId table = Some s1.
Proof.
  intros Hin Hw Hreach Honly.
  assert (Hglobal : findMostRecentWaitingSession table = Some s1).
  { pose proof (scan_inv_result _ _ global_body_spec table) as Hinv.
    unfold findMostRecentWaitingSession.
    destruct (fold_left _ table None) as [l|]; simpl in Hinv.
    - destruct Hinv as [Hl [Hc _]]. apply status_eqb_spec in Hc.
      now rewrite (Honly l Hl Hc).
    - specialize (Hinv s1 Hin). rewrite Hw in Hinv. discriminate. }
  unfold selectSession. destruct userId as [u|]; [|exact Hglobal].
  destruct Hreach as [Hne Hown]. unfold truthy.
  apply String.eqb_neq in Hne. rewrite Hne. simpl.
  pose proof (scan_inv_result _ _ (scoped_body_spec u) table) as Hinv.
  unfold findMostRecentWaitingSessionForUser.
  destruct (fold_left _ table None) as [l|]; simpl in Hinv.
  - destruct Hinv as [Hl [Hc _]]. apply andb_true_iff in Hc. destruct Hc as [Hc _].
    apply status_eqb_spec in Hc. now rewrite (Honly l Hl Hc).
  - specialize (Hinv s1 Hin). rewrite Hw in Hinv. simpl in Hinv.
    apply owner_is_true in Hown. rewrite Hown in Hinv. discriminate.
Qed.

Lemma app_cons_not_nil_sym (A : Type) (l : list A) (x : A) : (l ++ [x])%list <> [].
Proof. destruct l; discriminate. Qed.

(** A poll that sees a reply answers at once, and so does a firing. *)
Lemma get_replies_immediate env sid since wait_sec sessions s :
  getSession sid sessions = Some s ->
  collectReplies since (Session.replies s) <> [] ->
  get_replies env (RepliesRequest.mk sid since wait_sec) sessions
  = (sessions,
     Responded (RepliesResponse.mk sid (Session.status s)
                  (collectReplies since (Session.replies s)))).
Proof.
  intros Hget Hne. unfold get_replies. simpl.
  erewrite getOrCreateSession_found by exact Hget.
  destruct (collectReplies since (Session.replies s)); [now destruct Hne | reflexivity].
Qed.

Lemma poll_immediate date_now req deadline s :
  collectReplies (RepliesRequest.since req) (Session.replies s) <> [] ->
  poll date_now req deadline s
  = Responded (RepliesResponse.mk (RepliesRequest.session_id req) (Session.status s)
                 (collectReplies (RepliesRequest.since req) (Session.replies s))).
Proof.
  intro Hne. unfold poll.
  destruct (collectReplies _ (Session.replies s)); [now destruct Hne | reflexivity].
Qed.

Section EndToEnd.

Context {ops : StringOps}.
Variable cfg : Config.

(** After an accepted post on a server where no session waits, a route
    that reaches the session selects it, with the posted question. *)
Lemma post_then_select envq req st userId text severity :
  no_session_waits (Server.sessions st) ->
  QuestionsBody.text (QuestionsRequest.body req) = Some text ->
  QuestionsBody.severity (QuestionsRequest.body req) = Some severity ->
  accepted req = true ->
  reaches userId (sessionFor envq req (Server.sessions st)) ->
  selectSession userId (Server.sessions (step cfg st (PostQuestion envq req)))
  = Some (setPendingQuestion (QuestionsEnv.t_set envq)
            (sessionFor envq req (Server.sessions st))
            (questionOf envq (QuestionsRequest.body req) text severity)).
Proof.
  intros Hnone Ht Hs Hacc Hreach. simpl.
  assert (Hfree : Session.status (sessionFor envq req (Server.sessions st)) = WAITING_USER ->
                  Session.pending_question (sessionFor envq req (Server.sessions st)) = None).
  { unfold sessionFor.
    destruct (getSession (QuestionsRequest.session_id req) (Server.sessions st))
      as [s|] eqn:Hget.
    - erewrite getOrCreateSession_found by exact Hget. simpl. intro Hw.
      destruct (getSession_Some _ _ _ Hget) as [Hin _]. now destruct (Hnone s Hin).
    - rewrite getOrCreateSession_new by exact Hget. reflexivity. }
  rewrite (post_question_installs cfg envq req _ text severity Ht Hs Hacc Hfree). simpl.
  destruct (posted_table envq req (Server.sessions st)
              (questionOf envq (QuestionsRequest.body req) text severity))
    as [_ [Hin [_ [Helem _]]]].
  apply select_only_waiting; [exact Hin | reflexivity | |].
  - destruct userId as [u|]; [|exact I]. exact Hreach.
  - intros y Hy Hw. destruct (Helem y Hy) as [-> | Hold]; [reflexivity|].
    now destruct (Hnone y Hold).
Qed.

End EndToEnd.

(** X6. From question to answer.  On a server where no session waits, an
    accepted question is posted; a permitted sender whose route reaches
    the session then sends a message that is not a query.  The session is
    resolved: a poll of it (without [since]) answers at once with status
    [RESOLVED] and the session's earlier replies followed by the new one,
    whose type and choice are the classification of the message against
    the posted choices; a poll that was already suspended answers the
    same at its next firing. *)
Theorem question_answer_poll {ops : StringOps} (cfg : Config)
    (envq : QuestionsEnv.t) (req : QuestionsRequest.t)
    (envw : WebhookEnv.t) (body : WebhookBody.t)
    (envr : RepliesEnv.t) (wait_sec : option string)
    (st : Server.t) (userId : option string) (text : string) (severity : Severity) :
  no_session_waits (Server.sessions st) ->
  QuestionsBody.text (QuestionsRequest.body req) = Some text ->
  QuestionsBody.severity (QuestionsRequest.body req) = Some severity ->
  accepted req = true ->
  permitted cfg envw body userId ->
  reaches userId (sessionFor envq req (Server.sessions st)) ->
  isQueryMode (normalize (userTextOf body)) = false ->
  let sid := QuestionsRequest.session_id req in
  let st2 := fst (webhook cfg envw body (step cfg st (PostQuestion envq req))) in
  let reply :=
    Reply.mk (WebhookEnv.reply_id envw)
      (fst (classify (Some (questionOf envq (QuestionsRequest.body req) text severity))
              (normalize (userTextOf body))))
      (if (userTextOf body =? "")%string then None else Some (userTextOf body))
      (snd (classify (Some (questionOf envq (QuestionsRequest.body req) text severity))
              (normalize (userTextOf body))))
      (WebhookEnv.reply_created_at envw) in
  let answer :=
    RepliesResponse.mk sid RESOLVED
      (Session.replies (sessionFor envq req (Server.sessions st)) ++ [reply])%list in
  get_replies envr (RepliesRequest.mk sid None wait_sec) (Server.sessions st2)
  = (Server.sessions st2, Responded answer)
  /\ forall date_now deadline s2,
       getSession sid (Server.sessions st2) = Some s2 ->
       poll date_now (RepliesRequest.mk sid None wait_sec) deadline s2 = Responded answer.
Proof.
  intros Hnone Ht Hs Hacc Hperm Hreach Hq. cbv zeta.
  pose proof (post_then_select cfg envq req st userId text severity
                Hnone Ht Hs Hacc Hreach) as Hsel.
  rewrite (webhook_answer cfg envw body _ userId _ Hperm Hsel Hq). simpl.
  destruct (selectSession_Some _ _ _ Hsel) as [Hin _].
  match goal with
  | |- context [putSession ?r ?T] => set (resolved := r); set (table := T)
  end.
  assert (Hget : getSession (QuestionsRequest.session_id req) (putSession resolved table)
                 = Some resolved).
  { destruct (posted_table envq req (Server.sessions st)
                (questionOf envq (QuestionsRequest.body req) text severity))
      as [Hid _].
    cbv zeta in Hid. rewrite <- Hid.
    apply (getSession_putSession resolved). subst resolved. simpl.
    now apply (in_map Session.session_id) in Hin. }
  assert (Hrs : collectReplies None (Session.replies resolved) <> [])
    by (subst resolved; simpl; apply app_cons_not_nil_sym).
  split.
  - now rewrite (get_replies_immediate envr _ None wait_sec _ resolved Hget Hrs).
  - intros date_now deadline s2 Hs2. rewrite Hget in Hs2. injection Hs2 as <-.
    now rewrite (poll_immediate date_now (RepliesRequest.mk _ None wait_sec) deadline
                   resolved Hrs).
Qed.

Lemma question_answer_poll_witness :
  get_replies Sample.renv (RepliesRequest.mk "S1" None None)
    (Server.sessions (run Sample.cfgA (Sample.answeredWith "yes") initial))
  = (Server.sessions (run Sample.cfgA (Sample.answeredWith "yes") initial),
     Responded (RepliesResponse.mk "S1" RESOLVED
                  [Reply.mk "r-1" CHOICE (Some "yes") (Some "Yes") (Sample.at_sec "05")])).
Proof.
  assert (Hp : permitted Sample.cfgA (Sample.wenv "05" "r-1") (Sample.says "yes") None).
  { exists "kakao-user-1". repeat split. discriminate. }
  assert (Hnone : no_session_waits (Server.sessions initial)) by (intros c []).
  exact (proj1 (@question_answer_poll AsciiOps Sample.cfgA (Sample.qenv "01" "m-1")
                  Sample.deploy (Sample.wenv "05" "r-1") (Sample.says "yes")
                  Sample.renv None initial None "Deploy?" WARNING
                  Hnone eq_refl eq_refl eq_refl Hp I eq_refl)).
Defined.

(** X7. What is posted is what is shown.  On a server where no session
    waits, after an accepted post a query from a permitted sender whose
    route reaches the session is answered with the posted text and, when
    the request has a non-empty list of choices, one quick reply per
    choice, in order, each sending the choice back as the message. *)
Theorem posted_question_is_shown {ops : StringOps} (cfg : Config)
    (envq : QuestionsEnv.t) (req : QuestionsRequest.t)
    (envw : WebhookEnv.t) (body : WebhookBody.t)
    (st : Server.t) (userId : option string) (text : string) (severity : Severity) :
  no_session_waits (Server.sessions st) ->
  QuestionsBody.text (QuestionsRequest.body req) = Some text ->
  QuestionsBody.severity (QuestionsRequest.body req) = Some severity ->
  accepted req = true ->
  permitted cfg envw body userId ->
  reaches userId (sessionFor envq req (Server.sessions st)) ->
  isQueryMode (normalize (userTextOf body)) = true ->
  snd (webhook cfg envw body (step cfg st (PostQuestion envq req)))
  = KakaoResponse.mk "2.0" text
      match QuestionsBody.choices (QuestionsRequest.body req) with
      | Some ((_ :: _) as cs) => Some (map (fun c => QuickReply.mk c "message" c) cs)
      | _ => None
      end.
Proof.
  intros Hnone Ht Hs Hacc Hperm Hreach Hq.
  pose proof (post_then_select cfg envq req st userId text severity
                Hnone Ht Hs Hacc Hreach) as Hsel.
  destruct (webhook_query cfg envw body (step cfg st (PostQuestion envq req))
              userId Hperm Hq) as [_ Hresp].
  rewrite (Hresp _ Hsel). reflexivity.
Qed.

Lemma posted_question_is_shown_witness :
  snd (webhook Sample.cfgA (Sample.wenv "05" "r-1") (Sample.says "?")
         (step Sample.cfgA initial (PostQuestion (Sample.qenv "01" "m-1") Sample.deploy)))
  = KakaoResponse.mk "2.0" "Deploy?"
      (Some [QuickReply.mk "Yes" "message" "Yes"; QuickReply.mk "No" "message" "No"]).
Proof.
  assert (Hp : permitted Sample.cfgA (Sample.wenv "05" "r-1") (Sample.says "?") None).
  { exists "kakao-user-1". repeat split. discriminate. }
  assert (Hnone : no_session_waits (Server.sessions initial)) by (intros c []).
  exact (@posted_question_is_shown AsciiOps Sample.cfgA (Sample.qenv "01" "m-1")
           Sample.deploy (Sample.wenv "05" "r-1") (Sample.says "?")
           initial None "Deploy?" WARNING Hnone eq_refl eq_refl eq_refl Hp I eq_refl).
Defined.

(** X8. Asking again on a session keeps its old replies.  An accepted
    post to a stored session that does not wait and has the replies
    [r :: rest] is accepted ([Created]), and a poll of the session
    without [since] then answers at once with status [WAITING_USER] and
    those same replies; the bridge, which adopts the first reply of a
    poll, reports the old reply [r] as the answer. *)
Theorem asking_again_returns_old_reply (cfg : Config) (envq : QuestionsEnv.t)
    (req : QuestionsRequest.t) (envr : RepliesEnv.t) (wait_sec : option string)
    (sessions : Store) (s : Session.t) (r : Reply.t) (rest : list Reply.t) :
  getSession (QuestionsRequest.session_id req) sessions = Some s ->
  Session.status s <> WAITING_USER ->
  Session.replies s = r :: rest ->
  accepted req = true ->
  let sid := QuestionsRequest.session_id req in
  let posted := post_question cfg envq req sessions in
  let answer := RepliesResponse.mk sid WAITING_USER (r :: rest) in
  QuestionsResult.response posted = Created sid (QuestionsEnv.message_id envq) WAITING_USER
  /\ get_replies envr (RepliesRequest.mk sid None wait_sec) (QuestionsResult.sessions posted)
     = (QuestionsResult.sessions posted, Responded answer)
  /\ askUser_onPoll answer
     = Some (AskUserOutput.mk ASK_RESOLVED (Reply.text r) (Reply.choice r)
               (Some (Reply.reply_id r)) None None).
Proof.
  intros Hget Hst Hrs Hacc. cbv zeta.
  destruct (accepted_inv req Hacc) as [text [severity [Ht [_ [Hs _]]]]].
  assert (Hfor : sessionFor envq req sessions = s).
  { unfold sessionFor. now erewrite getOrCreateSession_found by exact Hget. }
  rewrite (post_question_installs cfg envq req sessions text severity Ht Hs Hacc)
    by (rewrite Hfor; intro Hw; now destruct Hst).
  simpl. split; [reflexivity|]. split; [|reflexivity].
  destruct (posted_table envq req sessions
              (questionOf envq (QuestionsRequest.body req) text severity))
    as [_ [_ [Hlook _]]].
  cbv zeta in Hlook. rewrite Hfor in *.
  rewrite (get_replies_immediate envr _ None wait_sec _ _ Hlook);
    simpl; rewrite Hrs; [reflexivity | discriminate].
Qed.

Lemma asking_again_returns_old_reply_witness :
  get_replies Sample.renv (RepliesRequest.mk "S3" None None)
    (QuestionsResult.sessions
       (post_question Sample.cfgA (Sample.qenv "50" "m-2")
          (QuestionsRequest.mk "S3" (Sample.question "Again?" None) Sample.staticAuth)
          [Sample.answered]))
  = (QuestionsResult.sessions
       (post_question Sample.cfgA (Sample.qenv "50" "m-2")
          (QuestionsRequest.mk "S3" (Sample.question "Again?" None) Sample.staticAuth)
          [Sample.answered]),
     Responded (RepliesResponse.mk "S3" WAITING_USER
                  [Sample.reply "r1"; Sample.reply "r2"; Sample.reply "r3"])).
Proof.
  assert (Hst : Session.status Sample.answered <> WAITING_USER) by discriminate.
  destruct (asking_again_returns_old_reply Sample.cfgA (Sample.qenv "50" "m-2")
              (QuestionsRequest.mk "S3" (Sample.question "Again?" None) Sample.staticAuth)
              Sample.renv None [Sample.answered] Sample.answered
              (Sample.reply "r1") [Sample.reply "r2"; Sample.reply "r3"]
              eq_refl Hst eq_refl eq_refl) as [_ [H _]].
  exact H.
Defined.

(** X9. A push is made exactly for an installed question.  Whenever the
    handler calls the sender, the answer is [Created] and the push names
    the session and the message id of the answer, carries the text and
    the choices (none as the empty list) of the question now pending on
    that session, the fixed user key and the owner derived from the
    caller; and every [Created] answer comes with a push when a sender is
    configured, and without one when none is. *)
Theorem push_matches_installed_question (cfg : Config) (env : QuestionsEnv.t)
    (req : QuestionsRequest.t) (sessions : Store) :
  let r := post_question cfg env req sessions in
  let sid := QuestionsRequest.session_id req in
  (forall p, QuestionsResult.push r = Some p ->
     senderEnabled cfg = true
     /\ QuestionsResult.response r = Created sid (SendQuestionInput.message_id p) WAITING_USER
     /\ SendQuestionInput.session_id p = sid
     /\ SendQuestionInput.kakao_user_key p = FIXED_USER_KEY cfg
     /\ SendQuestionInput.target_user_id p
        = ownerUserIdOf (cognitoCaller (QuestionsRequest.auth req))
            (QuestionsBody.target_user_id (QuestionsRequest.body req))
     /\ exists s q,
          getSession sid (QuestionsResult.sessions r) = Some s
          /\ Session.pending_question s = Some q
          /\ PendingQuestion.message_id q = SendQuestionInput.message_id p
          /\ PendingQuestion.text q = SendQuestionInput.question_text p
          /\ SendQuestionInput.choices p
             = match PendingQuestion.choices q with Some cs => cs | None => [] end)
  /\ (forall mid st, QuestionsResult.response r = Created sid mid st ->
        (QuestionsResult.push r <> None <-> senderEnabled cfg = true)).
Proof.
  cbv zeta.
  assert (Hcases :
    (QuestionsResult.push (post_question cfg env req sessions) = None
     /\ forall mid st, QuestionsResult.response (post_question cfg env req sessions)
                       <> Created (QuestionsRequest.session_id req) mid st)
    \/ exists text severity,
         QuestionsBody.text (QuestionsRequest.body req) = Some text
         /\ post_question cfg env req sessions
            = QuestionsResult.mk
                (putSession
                   (setPendingQuestion (QuestionsEnv.t_set env) (sessionFor env req sessions)
                      (questionOf env (QuestionsRequest.body req) text severity))
                   (fst (getOrCreateSession (QuestionsEnv.t_created env)
                           (QuestionsEnv.t_updated env)
                           (QuestionsRequest.session_id req) WAITING_USER
                           (ownerUserIdOf (cognitoCaller (QuestionsRequest.auth req))
                              (QuestionsBody.target_user_id (QuestionsRequest.body req)))
                           sessions)))
                (Created (QuestionsRequest.session_id req) (QuestionsEnv.message_id env)
                         WAITING_USER)
                (pushOf cfg env req text)).
  { unfold post_question, sessionFor, pushOf, questionOf. cbv zeta.
    destruct (QuestionsBody.text _) as [text|]; [|left; split; [reflexivity|discriminate]].
    destruct (QuestionsBody.severity _) as [severity|];
      [|left; split; [reflexivity|discriminate]].
    destruct (text =? "")%string; [left; split; [reflexivity|discriminate]|].
    destruct (targetMismatch _ _); [left; split; [reflexivity|discriminate]|].
    destruct (getOrCreateSession _ _ _ _ _ sessions) as [sessions1 session]. simpl.
    destruct (Session.status session), (Session.pending_question session);
      try (left; split; [reflexivity|discriminate]);
      right; exists text, severity; split; reflexivity. }
  destruct Hcases as [[Hnone Hresp] | [text [severity [Ht Heq]]]].
  - split.
    + intros p Hp. rewrite Hnone in Hp. discriminate.
    + intros mid st Hr. now destruct (Hresp mid st).
  - rewrite Heq. simpl. unfold pushOf. split.
    + intros p Hp. destruct (senderEnabled cfg); [|discriminate].
      injection Hp as <-. simpl. repeat split.
      destruct (posted_table env req sessions
                  (questionOf env (QuestionsRequest.body req) text severity))
        as [_ [_ [Hlook _]]].
      eexists _, _. split; [exact Hlook|]. repeat split.
    + intros mid st _. destruct (senderEnabled cfg); split;
        (discriminate || reflexivity || intro H; now destruct H).
Qed.

Lemma push_matches_installed_question_witness :
  QuestionsResult.response
    (post_question Sample.cfgB (Sample.qenv "01" "m-1") Sample.deploy [])
  = Created "S1" "m-1" WAITING_USER.
Proof.
  destruct (push_matches_installed_question Sample.cfgB (Sample.qenv "01" "m-1")
              Sample.deploy []) as [H _].
  destruct (H _ eq_refl) as [_ [Hr _]]. exact Hr.
Defined.

(* ------------------------------------------------------------------ *)
(** ** Who is routed where                                             *)
(* ------------------------------------------------------------------ *)

Lemma truthy_nonempty (v : string) : v <> "" -> truthy (Some v) = true.
Proof. intro H. unfold truthy. apply String.eqb_neq in H. now rewrite H. Qed.

Lemma vaultUserId_truthy (env : WebhookEnv.t) :
  truthy (vaultUserId env) = true ->
  exists u, vaultUserId env = Some u /\ u <> ""
            /\ (WebhookEnv.kakaoLookup env = Returned (Some u)
                \/ (WebhookEnv.chatbotLookup env = Returned (Some u)
                    /\ WebhookEnv.kakaoLookup env <> Returned (Some u))).
Proof.
  unfold vaultUserId.
  destruct (WebhookEnv.kakaoLookup env) as [[k|]|] eqn:Hk.
  - destruct (truthy (Some k)) eqn:Hkt.
    + intros _. exists k. split; [reflexivity|]. split; [|now left].
      unfold truthy in Hkt. apply negb_true_iff in Hkt. now apply String.eqb_neq.
    + destruct (WebhookEnv.chatbotLookup env) as [[c|]|]; intro Hc;
        try (rewrite Hc in Hkt; discriminate); try discriminate.
      exists c. split; [reflexivity|]. split.
      * unfold truthy in Hc. apply negb_true_iff in Hc. now apply String.eqb_neq.
      * right. split; [reflexivity|]. intros [= ->]. rewrite Hc in Hkt. discriminate.
  - simpl. destruct (WebhookEnv.chatbotLookup env) as [[c|]|]; intro Hc; try discriminate.
    exists c. split; [reflexivity|]. split.
    + unfold truthy in Hc. apply negb_true_iff in Hc. now apply String.eqb_neq.
    + right. split; [reflexivity | discriminate].
  - simpl. destruct (WebhookEnv.chatbotLookup env) as [[c|]|]; intro Hc; try discriminate.
    exists c. split; [reflexivity|]. split.
    + unfold truthy in Hc. apply negb_true_iff in Hc. now apply String.eqb_neq.
    + right. split; [reflexivity | discriminate].
Qed.

(** In multi-user mode [resolveUser] decides on the vault's answer. *)
Lemma resolveUser_multi (cfg : Config) (env : WebhookEnv.t) (userKey : string) :
  isMultiUserMode cfg = true ->
  resolveUser cfg env userKey
  = let userId2 := vaultUserId env in
    if negb (truthy userId2) && truthy (Some (FIXED_USER_KEY cfg))
       && (userKey =? FIXED_USER_KEY cfg)%string
    then Routed None
    else if negb (truthy userId2) then Unlinked
    else Routed userId2.
Proof. unfold resolveUser, vaultUserId. now intros ->. Qed.

Lemma resolveUser_scoped_nonempty (cfg : Config) (env : WebhookEnv.t)
    (userKey u : string) :
  resolveUser cfg env userKey = Routed (Some u) -> u <> "".
Proof.
  destruct (isMultiUserMode cfg) eqn:Hmode.
  - rewrite (resolveUser_multi cfg env userKey Hmode). cbv zeta.
    destruct (truthy (vaultUserId env)) eqn:Ht; cbn [negb andb].
    + intros [= Hu]. rewrite Hu in Ht. unfold truthy in Ht.
      apply negb_true_iff in Ht. now apply String.eqb_neq.
    + destruct (_ && _); intros; discriminate.
  - unfold resolveUser. rewrite Hmode.
    destruct (negb (userKey =? FIXED_USER_KEY cfg)%string); discriminate.
Qed.

(** X10. The routing rules of the webhook.  A sender gets the global
    route only with the configured fixed key.  A scoped route carries a
    non-empty user id that the token vault returned for the sender: the
    one of the Kakao-key lookup, or, when that lookup gave nothing, the
    one of the chatbot-id lookup.  Rejection happens only in single-user
    mode and a link code is handed out only in multi-user mode; in
    single-user mode the vault is not consulted. *)
Theorem routing_rules (cfg : Config) (env : WebhookEnv.t) (userKey : string) :
  (resolveUser cfg env userKey = Routed None -> userKey = FIXED_USER_KEY cfg)
  /\ (forall u, resolveUser cfg env userKey = Routed (Some u) ->
        isMultiUserMode cfg = true /\ u <> ""
        /\ (WebhookEnv.kakaoLookup env = Returned (Some u)
            \/ (WebhookEnv.chatbotLookup env = Returned (Some u)
                /\ WebhookEnv.kakaoLookup env <> Returned (Some u))))
  /\ (forall u, u <> "" -> isMultiUserMode cfg = true ->
        WebhookEnv.kakaoLookup env = Returned (Some u) ->
        resolveUser cfg env userKey = Routed (Some u))
  /\ (resolveUser cfg env userKey = Rejected ->
        isMultiUserMode cfg = false /\ userKey <> FIXED_USER_KEY cfg)
  /\ (resolveUser cfg env userKey = Unlinked ->
        isMultiUserMode cfg = true
        /\ (userKey <> FIXED_USER_KEY cfg \/ FIXED_USER_KEY cfg = ""))
  /\ (isMultiUserMode cfg = false ->
        forall env', resolveUser cfg env' userKey = resolveUser cfg env userKey).
Proof.
  pose proof (resolveUser_multi cfg env userKey) as Hmulti.
  unfold resolveUser in *.
  destruct (isMultiUserMode cfg) eqn:Hmode.
  - specialize (Hmulti eq_refl). cbv zeta in Hmulti.
    set (userId2 := vaultUserId env) in *.
    destruct (truthy userId2) eqn:Ht; simpl in *.
    + (* the vault knows the sender *)
      destruct (vaultUserId_truthy env Ht) as [u [Hu [Hne Hfrom]]].
      fold userId2 in Hu. rewrite Hmulti, Hu.
      split; [intros; discriminate|]. split; [intros v [= <-]; now repeat split|].
      split.
      * intros v Hv _ Hk. f_equal.
        rewrite <- Hu. unfold userId2, vaultUserId. rewrite Hk. cbv zeta.
        now rewrite (truthy_nonempty v Hv).
      * split; [intros; discriminate|]. split; [intros; discriminate|]. intros; discriminate.
    + rewrite Hmulti. clear Hmulti.
      assert (Hk : forall v, v <> "" -> WebhookEnv.kakaoLookup env <> Returned (Some v)).
      { intros v Hv Hk. unfold userId2, vaultUserId in Ht. rewrite Hk in Ht.
        cbv zeta in Ht. rewrite (truthy_nonempty v Hv) in Ht.
        rewrite (truthy_nonempty v Hv) in Ht. discriminate. }
      unfold truthy at 1. simpl.
      destruct (FIXED_USER_KEY cfg =? "")%string eqn:Hf; simpl;
        [|destruct (userKey =? FIXED_USER_KEY cfg)%string eqn:Eu; simpl].
      3:{ split; [intros; discriminate|]. split; [intros; discriminate|].
          split; [intros v Hv _ Hkv; now destruct (Hk v Hv)|].
          split; [intros; discriminate|]. split; [|intros; discriminate].
          intros _. split; [reflexivity|]. left. now apply String.eqb_neq. }
      1:{ split; [intros; discriminate|]. split; [intros; discriminate|].
          split; [intros v Hv _ Hkv; now destruct (Hk v Hv)|].
          split; [intros; discriminate|]. split; [|intros; discriminate].
          intros _. split; [reflexivity|]. right. now apply String.eqb_eq. }
      split; [intros _; now apply String.eqb_eq|]. split; [intros; discriminate|].
      split; [intros v Hv _ Hkv; now destruct (Hk v Hv)|].
      split; [intros; discriminate|]. split; [intros; discriminate|].
      intros; discriminate.
  - clear Hmulti. destruct (userKey =? FIXED_USER_KEY cfg)%string eqn:Eu; simpl.
    + split; [intros _; now apply String.eqb_eq|]. split; [intros; discriminate|].
      split; [intros; discriminate|]. split; [intros; discriminate|]. split; [intros; discriminate|].
      reflexivity.
    + split; [intros; discriminate|]. split; [intros; discriminate|]. split; [intros; discriminate|].
      split; [intros _; split; [reflexivity | now apply String.eqb_neq]|].
      split; [intros; discriminate|]. reflexivity.
Qed.

Lemma routing_rules_witness :
  isMultiUserMode Sample.cfgB = true /\ "userA" <> ""
  /\ (WebhookEnv.kakaoLookup Sample.wenvA = Returned (Some "userA")
      \/ (WebhookEnv.chatbotLookup Sample.wenvA = Returned (Some "userA")
          /\ WebhookEnv.kakaoLookup Sample.wenvA <> Returned (Some "userA"))).
Proof.
  destruct (routing_rules Sample.cfgB Sample.wenvA "kakao-user-7") as [_ [H _]].
  exact (H "userA" eq_refl).
Defined.

(** X11. Without a fixed user key, single-user mode serves nobody: every
    webhook call leaves the session table as it is and is answered with
    the "cannot identify" or the "not permitted" notice. *)
Theorem no_fixed_key_rejects_everyone {ops : StringOps} (cfg : Config)
    (env : WebhookEnv.t) (body : WebhookBody.t) (st : Server.t) :
  isMultiUserMode cfg = false ->
  FIXED_USER_KEY cfg = "" ->
  Server.sessions (fst (webhook cfg env body st)) = Server.sessions st
  /\ (snd (webhook cfg env body st) = kakaoResponse MSG_NO_USER_KEY
      \/ snd (webhook cfg env body st) = kakaoResponse MSG_REJECTED_USER).
Proof.
  intros Hmode Hfixed. unfold webhook. cbv zeta.
  destruct (userKeyOf body) as [key|]; [|split; [reflexivity | now left]].
  destruct (key =? "")%string eqn:Ek; [split; [reflexivity | now left]|].
  unfold resolveUser. rewrite Hmode, Hfixed, Ek. simpl.
  split; [reflexivity | now right].
Qed.

Lemma no_fixed_key_rejects_everyone_witness :
  Server.sessions
    (fst (webhook (Build_Config "" "" false) (Sample.wenv "05" "r-1") (Sample.says "Yes")
            (run Sample.cfgA Sample.posted initial)))
  = Server.sessions (run Sample.cfgA Sample.posted initial).
Proof.
  exact (proj1 (@no_fixed_key_rejects_everyone AsciiOps (Build_Config "" "" false)
                  (Sample.wenv "05" "r-1") (Sample.says "Yes")
                  (run Sample.cfgA Sample.posted initial) eq_refl eq_refl)).
Defined.

(** X12. Ownership.  A scoped route selects only sessions whose owner is
    its non-empty user id.  The owner of a session is fixed when the
    session is created and no later post changes it, whoever posts.  A
    session created by an accepted post is owned by the Cognito caller
    (by the empty string if the request names the empty string as
    target) and has no owner when posted with the static token; so such
    ownerless sessions are reached by the global route only. *)
Theorem ownership_rules (cfg : Config) (envq : QuestionsEnv.t)
    (req : QuestionsRequest.t) (sessions : Store) :
  let sid := QuestionsRequest.session_id req in
  let sessions' := QuestionsResult.sessions (post_question cfg envq req sessions) in
  (forall env userKey u x,
     resolveUser cfg env userKey = Routed (Some u) ->
     selectSession (Some u) sessions = Some x ->
     u <> "" /\ Session.owner_user_id x = Some u)
  /\ (forall s, getSession sid sessions = Some s ->
        exists s', getSession sid sessions' = Some s'
                   /\ Session.owner_user_id s' = Session.owner_user_id s)
  /\ (getSession sid sessions = None -> accepted req = true ->
        exists s', getSession sid sessions' = Some s'
          /\ match cognitoCaller (QuestionsRequest.auth req) with
             | None => Session.owner_user_id s' = None
             | Some caller =>
                 Session.owner_user_id s' = Some caller
                 \/ (QuestionsBody.target_user_id (QuestionsRequest.body req) = Some ""
                     /\ Session.owner_user_id s' = Some "")
             end).
Proof.
  cbv zeta. split; [|split].
  - intros env userKey u x Hres Hsel.
    pose proof (resolveUser_scoped_nonempty cfg env userKey u Hres) as Hne.
    split; [exact Hne|].
    unfold selectSession in Hsel. rewrite (truthy_nonempty u Hne) in Hsel.
    destruct (scoped_scan_Some _ _ _ Hsel) as [_ [_ Hown]]. exact Hown.
  - intros s Hget.
    destruct (post_question_sessions cfg envq req sessions)
      as [[-> _] | [s0 [q [Hid [_ [_ [[Hget0 [_ ->]] | [Hget0 _]]]]]]]].
    + now exists s.
    + rewrite Hget in Hget0. injection Hget0 as <-.
      exists (setPendingQuestion (QuestionsEnv.t_set envq) s q). split; [|reflexivity].
      rewrite <- Hid. apply (getSession_putSession (setPendingQuestion _ s q)).
      simpl. destruct (getSession_Some _ _ _ Hget) as [Hin _]. now apply in_map.
    + congruence.
  - intros Hnone Hacc.
    destruct (accepted_inv req Hacc) as [text [severity [Ht [_ [Hs Hmm]]]]].
    assert (Hfor : sessionFor envq req sessions
                   = Session.mk (QuestionsRequest.session_id req) WAITING_USER None []
                       (QuestionsEnv.t_created envq) (QuestionsEnv.t_updated envq)
                       (ownerUserIdOf (cognitoCaller (QuestionsRequest.auth req))
                          (QuestionsBody.target_user_id (QuestionsRequest.body req)))).
    { unfold sessionFor. now rewrite getOrCreateSession_new by exact Hnone. }
    rewrite (post_question_installs cfg envq req sessions text severity Ht Hs Hacc)
      by (now rewrite Hfor).
    simpl.
    destruct (posted_table envq req sessions
                (questionOf envq (QuestionsRequest.body req) text severity))
      as [_ [_ [Hlook _]]].
    cbv zeta in Hlook. eexists. split; [exact Hlook|]. rewrite Hfor. simpl.
    unfold targetMismatch in Hmm. unfold ownerUserIdOf.
    destruct (cognitoCaller (QuestionsRequest.auth req)) as [caller|]; [|reflexivity].
    destruct (QuestionsBody.target_user_id (QuestionsRequest.body req)) as [target|];
      simpl; [|now left].
    unfold truthy in Hmm. destruct (target =? "")%string eqn:Et; simpl in Hmm.
    + apply String.eqb_eq in Et. subst target. now right.
    + apply negb_false_iff in Hmm. apply String.eqb_eq in Hmm. subst target. now left.
Qed.

Lemma ownership_rules_witness :
  exists s', getSession "SA"
               (QuestionsResult.sessions
                  (post_question Sample.cfgB (Sample.qenv "30" "m-3")
                     (QuestionsRequest.mk "SA" (Sample.question "Mine?" None)
                        (Some (Build_Auth "userB" cognito_jwt)))
                     Sample.twoUsers)) = Some s'
             /\ Session.owner_user_id s' = Some "userA".
Proof.
  destruct (ownership_rules Sample.cfgB (Sample.qenv "30" "m-3")
              (QuestionsRequest.mk "SA" (Sample.question "Mine?" None)
                 (Some (Build_Auth "userB" cognito_jwt)))
              Sample.twoUsers) as [_ [H _]].
  exact (H _ eq_refl).
Defined.


(* ------------------------------------------------------------------ *)
(** ** More on reply retrieval                                         *)
(* ------------------------------------------------------------------ *)

(** X13. The [since] filter only ever cuts a prefix: what a poll sends is
    a suffix of the session's replies, in order.  With the non-empty id
    of a reply as [since], it is exactly what follows the first reply
    with that id; so a client that passes the id of the last reply it
    has seen gets each later reply once and none twice. *)
Theorem since_filter_is_incremental :
  (forall since replies,
     exists skipped, replies = (skipped ++ collectReplies since replies)%list)
  /\ (forall seen r later,
        Reply.reply_id r <> "" ->
        (forall y, In y seen -> Reply.reply_id y <> Reply.reply_id r) ->
        collectReplies (Some (Reply.reply_id r)) (seen ++ r :: later) = later).
Proof.
  split.
  - intros since replies. unfold collectReplies.
    destruct (truthy since); [|now exists []].
    destruct (findIndex _ replies) as [idx|]; [|now exists []].
    exists (firstn (idx + 1) replies). symmetry. apply firstn_skipn.
  - intros seen r later Hne Hseen. now apply collectReplies_after.
Qed.

Lemma since_filter_is_incremental_witness :
  collectReplies (Some "r2") [Sample.reply "r1"; Sample.reply "r2"; Sample.reply "r3"]
  = [Sample.reply "r3"].
Proof.
  destruct since_filter_is_incremental as [_ H].
  apply (H [Sample.reply "r1"] (Sample.reply "r2") [Sample.reply "r3"]).
  - discriminate.
  - intros y [<-|[]]. discriminate.
Defined.

Lemma get_replies_outcome env req sessions :
  match snd (get_replies env req sessions) with
  | Responded r => RepliesResponse.replies r <> []
  | Suspended deadline =>
      deadline = RepliesEnv.date_now env + waitSec (RepliesRequest.wait_sec req) * 1000
  end.
Proof.
  unfold get_replies. destruct (getOrCreateSession _ _ _ _ _ sessions) as [s1 session].
  destruct (collectReplies _ _); simpl; [reflexivity | discriminate].
Qed.

Lemma poll_loop_bound req deadline : forall (m : nat) ticks base,
  (1 <= m)%nat -> deadline <= base + 1000 * Z.of_nat m ->
  timely base ticks -> (m <= length ticks)%nat ->
  exists n r, poll_loop req deadline ticks = Some (n, r) /\ (1 <= n <= m)%nat.
Proof.
  induction m as [|m IH]; intros ticks base Hm Hd Htime Hlen; [lia|].
  destruct ticks as [|[t s] rest]; [simpl in Hlen; lia|].
  pose proof (Htime 0%nat t s eq_refl) as Ht. simpl in Ht.
  simpl. unfold poll.
  destruct (collectReplies _ (Session.replies s)) as [|x l].
  - destruct (deadline <=? t) eqn:Edl.
    + eexists 1%nat, _. split; [reflexivity | lia].
    + apply Z.leb_gt in Edl.
      destruct (IH rest (base + 1000)) as [n [r [Hloop Hn]]].
      * lia.
      * lia.
      * intros k t' s' Hk. pose proof (Htime (S k) t' s' Hk) as H1. lia.
      * simpl in Hlen. lia.
      * rewrite Hloop. eexists (S n), r. split; [reflexivity | lia].
  - eexists 1%nat, _. split; [reflexivity | lia].
Qed.

Lemma poll_loop_empty req deadline : forall ticks n r,
  poll_loop req deadline ticks = Some (n, r) -> RepliesResponse.replies r = [] ->
  exists t s, nth_error ticks (n - 1) = Some (t, s) /\ deadline <= t.
Proof.
  induction ticks as [|[t s] rest IH]; intros n r; simpl; [discriminate|].
  unfold poll.
  destruct (collectReplies _ (Session.replies s)) as [|x l] eqn:Ec.
  - destruct (deadline <=? t) eqn:Edl.
    + intros [= <- <-] _. exists t, s. split; [reflexivity | now apply Z.leb_le].
    + destruct (poll_loop req deadline rest) as [[n' r']|] eqn:Hloop; [|discriminate].
      intros [= <- <-] Hr. destruct (IH n' r' eq_refl Hr) as [t' [s' [Hnth Hle]]].
      exists t', s'. split; [|exact Hle].
      assert (Hpos : (1 <= n')%nat).
      { destruct n'; [|lia]. clear -Hloop. exfalso. revert Hloop.
        induction rest as [|[t1 s1] rest IH1]; simpl; [discriminate|].
        destruct (poll t1 req deadline s1); [discriminate|].
        destruct (poll_loop req deadline rest) as [[n r]|]; discriminate. }
      replace (S n' - 1)%nat with (S (n' - 1)) by lia. exact Hnth.
  - intros [= <- <-]. discriminate.
Qed.

(** X14. The long poll is bounded.  If timers fire no earlier than asked
    and enough firings are observed, the request is answered at the
    latest by firing number [max 1 waitSec], which is at most 60, however
    the session changes in between; an answer with no reply is never the
    immediate one and is given only by a firing whose clock has reached
    the deadline [Date.now() + waitSec * 1000]; and the loop itself never
    changes the session table. *)
Theorem long_poll_is_bounded (env : RepliesEnv.t) (req : RepliesRequest.t)
    (sessions : Store) (ticks : list (Z * Session.t)) :
  let w := waitSec (RepliesRequest.wait_sec req) in
  let deadline := RepliesEnv.date_now env + w * 1000 in
  (timely (RepliesEnv.date_now env) ticks ->
   (Z.to_nat (Z.max 1 w) <= length ticks)%nat ->
   exists n r, snd (long_poll env req sessions ticks) = Some (n, r)
               /\ (n <= Z.to_nat (Z.max 1 w) <= 60)%nat)
  /\ (forall n r, snd (long_poll env req sessions ticks) = Some (n, r) ->
        RepliesResponse.replies r = [] ->
        (1 <= n)%nat
        /\ exists t s, nth_error ticks (n - 1) = Some (t, s) /\ deadline <= t)
  /\ fst (long_poll env req sessions ticks) = fst (get_replies env req sessions).
Proof.
  cbv zeta. pose proof (waitSec_range (RepliesRequest.wait_sec req)) as Hw.
  pose proof (get_replies_outcome env req sessions) as Hout.
  unfold long_poll. destruct (get_replies env req sessions) as [s1 [r0|d]]; simpl in *.
  - split; [|split; [|reflexivity]].
    + intros _ _. exists 0%nat, r0. split; [reflexivity | lia].
    + intros n r [= <- <-] Hr. contradiction.
  - subst d. split; [|split; [|reflexivity]].
    + intros Htime Hlen.
      destruct (poll_loop_bound req
                  (RepliesEnv.date_now env + waitSec (RepliesRequest.wait_sec req) * 1000)
                  (Z.to_nat (Z.max 1 (waitSec (RepliesRequest.wait_sec req))))
                  ticks (RepliesEnv.date_now env)) as [n [r [Hloop Hn]]];
        try assumption; try lia.
      exists n, r. split; [exact Hloop | lia].
    + intros n r Hloop Hr.
      destruct (poll_loop_empty req _ ticks n r Hloop Hr) as [t [s [Hnth Hle]]].
      split; [|now exists t, s].
      destruct n; [|lia]. exfalso. clear -Hloop. revert Hloop.
      induction ticks as [|[t1 s1] rest IH1]; simpl; [discriminate|].
      destruct (poll t1 req _ s1); [discriminate|].
      destruct (poll_loop req _ rest) as [[n r']|]; discriminate.
Qed.

Lemma long_poll_is_bounded_witness :
  exists n r,
    snd (long_poll Sample.renv Sample.pollS2 []
           [(1767225631000, Session.mk "S2" IDLE None [] "" "" None);
            (1767225632000, Session.mk "S2" IDLE None [] "" "" None);
            (1767225633000, Session.mk "S2" IDLE None [] "" "" None);
            (1767225634000, Session.mk "S2" IDLE None [] "" "" None);
            (1767225635000, Session.mk "S2" IDLE None [] "" "" None)])
    = Some (n, r) /\ (n <= 5 <= 60)%nat.
Proof.
  destruct (long_poll_is_bounded Sample.renv Sample.pollS2 []
              [(1767225631000, Session.mk "S2" IDLE None [] "" "" None);
               (1767225632000, Session.mk "S2" IDLE None [] "" "" None);
               (1767225633000, Session.mk "S2" IDLE None [] "" "" None);
               (1767225634000, Session.mk "S2" IDLE None [] "" "" None);
               (1767225635000, Session.mk "S2" IDLE None [] "" "" None)]) as [H _].
  apply H.
  - intros k t s Hk.
    do 5 (destruct k as [|k]; [injection Hk as <- <-; vm_compute; discriminate|]).
    destruct k; discriminate.
  - vm_compute. repeat constructor.
Defined.


(* ------------------------------------------------------------------ *)
(** ** Authentication                                                  *)
(* ------------------------------------------------------------------ *)

Lemma startsWith_split (p s : string) :
  JsText.startsWith p s = true ->
  s = p ++ JsText.sliceFrom (String.length p) s.
Proof.
  revert s. induction p as [|a p IH]; intros s; simpl; [reflexivity|].
  destruct s as [|b s]; [discriminate|]. intro H.
  apply andb_true_iff in H. destruct H as [Hab Hrest].
  apply Ascii.eqb_eq in Hab. subst b. f_equal. now apply IH.
Qed.

Lemma startsWith_append (p r : string) :
  JsText.startsWith p (p ++ r) = true
  /\ JsText.sliceFrom (String.length p) (p ++ r) = r.
Proof.
  induction p as [|a p [IH1 IH2]]; simpl; [now split|].
  rewrite Ascii.eqb_refl, IH1. now split.
Qed.

Lemma requireAuth_bearer (acfg : AuthConfig.t) (verify : string -> JwtOutcome)
    (token : string) :
  requireAuth acfg verify (Some ("Bearer " ++ token))
  = if truthy (Some (AuthConfig.AUTH_TOKEN acfg))
       && (token =? AuthConfig.AUTH_TOKEN acfg)%string
    then Some (Build_Auth "static-token" static_token)
    else if negb (cognitoEnabled acfg) then None
    else match verify token with
         | JwtVerified sub => Some (Build_Auth sub cognito_jwt)
         | JwtRejected => None
         end.
Proof. reflexivity. Qed.

Lemma requireAuth_no_bearer (acfg : AuthConfig.t) (verify : string -> JwtOutcome)
    (header : string) :
  JsText.startsWith "Bearer " header = false ->
  requireAuth acfg verify (Some header) = None.
Proof.
  intro Hsw. unfold requireAuth. rewrite Hsw. now rewrite orb_true_r.
Qed.

Lemma requireAuth_header (acfg : AuthConfig.t) (verify : string -> JwtOutcome)
    (authorization : option string) (a : Auth) :
  requireAuth acfg verify authorization = Some a ->
  exists token, authorization = Some ("Bearer " ++ token).
Proof.
  destruct authorization as [header|]; [|discriminate].
  destruct (JsText.startsWith "Bearer " header) eqn:Hsw.
  - intros _. apply startsWith_split in Hsw. eexists. f_equal. exact Hsw.
  - rewrite (requireAuth_no_bearer acfg verify header Hsw). discriminate.
Qed.

(** X15. Who [requireAuth] lets through.  The static identity is given
    exactly for the header "Bearer " followed by a non-empty configured
    [AUTH_TOKEN], whatever the JWT check would say; a Cognito identity is
    given only when Cognito is configured and the JWT check verified the
    token after "Bearer ", and it carries the verified subject; every
    request without a header that starts with "Bearer " is refused. *)
Theorem auth_rules (acfg : AuthConfig.t) (verify : string -> JwtOutcome)
    (authorization : option string) :
  (forall a, requireAuth acfg verify authorization = Some a ->
     method a = static_token ->
     AuthConfig.AUTH_TOKEN acfg <> ""
     /\ authorization = Some ("Bearer " ++ AuthConfig.AUTH_TOKEN acfg)
     /\ user_id a = "static-token")
  /\ (AuthConfig.AUTH_TOKEN acfg <> "" ->
      requireAuth acfg verify (Some ("Bearer " ++ AuthConfig.AUTH_TOKEN acfg))
      = Some (Build_Auth "static-token" static_token))
  /\ (forall a, requireAuth acfg verify authorization = Some a ->
        method a = cognito_jwt ->
        cognitoEnabled acfg = true
        /\ exists token, authorization = Some ("Bearer " ++ token)
                         /\ verify token = JwtVerified (user_id a))
  /\ (forall header, JsText.startsWith "Bearer " header = false ->
        requireAuth acfg verify (Some header) = None)
  /\ requireAuth acfg verify None = None.
Proof.
  split; [|split; [|split; [|split]]].
  - intros a Hreq Hm.
    destruct (requireAuth_header acfg verify authorization a Hreq) as [token ->].
    rewrite requireAuth_bearer in Hreq.
    destruct (truthy (Some (AuthConfig.AUTH_TOKEN acfg))) eqn:Ht;
      [destruct (token =? AuthConfig.AUTH_TOKEN acfg)%string eqn:Etok|];
      cbn [andb] in Hreq.
    + injection Hreq as <-. apply String.eqb_eq in Etok. subst token.
      split; [|split; reflexivity].
      unfold truthy in Ht. apply negb_true_iff in Ht. now apply String.eqb_neq.
    + destruct (negb (cognitoEnabled acfg)); [discriminate|].
      destruct (verify token); [|discriminate]. injection Hreq as <-. discriminate.
    + destruct (negb (cognitoEnabled acfg)); [discriminate|].
      destruct (verify token); [|discriminate]. injection Hreq as <-. discriminate.
  - intro Hne. rewrite requireAuth_bearer.
    now rewrite String.eqb_refl, (truthy_nonempty _ Hne).
  - intros a Hreq Hm.
    destruct (requireAuth_header acfg verify authorization a Hreq) as [token ->].
    rewrite requireAuth_bearer in Hreq.
    destruct (truthy (Some (AuthConfig.AUTH_TOKEN acfg))
              && (token =? AuthConfig.AUTH_TOKEN acfg)%string).
    + injection Hreq as <-. discriminate.
    + destruct (cognitoEnabled acfg); [|discriminate]. cbn [negb] in Hreq.
      destruct (verify token) as [sub|] eqn:Hv; [|discriminate]. injection Hreq as <-.
      split; [reflexivity|]. exists token. split; [reflexivity | exact Hv].
  - intros header Hsw. now apply requireAuth_no_bearer.
  - reflexivity.
Qed.

Lemma auth_rules_witness :
  requireAuth (AuthConfig.mk "s3cret" "" "" "") (fun _ => JwtRejected)
    (Some "Bearer s3cret")
  = Some (Build_Auth "static-token" static_token).
Proof.
  destruct (auth_rules (AuthConfig.mk "s3cret" "" "" "") (fun _ => JwtRejected) None)
    as [_ [H _]].
  apply H. discriminate.
Defined.



(* ------------------------------------------------------------------ *)
(** ** Link codes                                                      *)
(* ------------------------------------------------------------------ *)

Lemma hexDigit_pair (b : ascii) :
  JsText.isAsciiByte (JsText.hexDigit (N_of_ascii b / 16)) = true
  /\ JsText.isAsciiByte (JsText.hexDigit (N_of_ascii b mod 16)) = true
  /\ JsText.isUpperHexByte (JsText.upperByte (JsText.hexDigit (N_of_ascii b / 16))) = true
  /\ JsText.isUpperHexByte (JsText.upperByte (JsText.hexDigit (N_of_ascii b mod 16))) = true.
Proof.
  destruct b as [[] [] [] [] [] [] [] []]; vm_compute; repeat split.
Qed.

Lemma upperHexByte_fixed (c : ascii) :
  JsText.isUpperHexByte c = true ->
  JsText.isAsciiByte c = true /\ JsText.upperByte c = c.
Proof.
  destruct c as [[] [] [] [] [] [] [] []]; vm_compute; intro H;
    try discriminate H; split; reflexivity.
Qed.

Lemma toHex_ascii (bytes : list ascii) :
  JsText.isAscii (JsText.toHex bytes) = true.
Proof.
  induction bytes as [|b rest IH]; [reflexivity|].
  destruct (hexDigit_pair b) as [H1 [H2 _]].
  cbn [JsText.toHex JsText.isAscii]. now rewrite H1, H2, IH.
Qed.

Lemma toHex_upper_hex (bytes : list ascii) :
  JsText.isUpperHex (JsText.upperAscii (JsText.toHex bytes)) = true.
Proof.
  induction bytes as [|b rest IH]; [reflexivity|].
  destruct (hexDigit_pair b) as [_ [_ [H1 H2]]].
  cbn [JsText.toHex JsText.upperAscii JsText.isUpperHex]. now rewrite H1, H2, IH.
Qed.

Lemma toHex_upper_length (bytes : list ascii) :
  String.length (JsText.upperAscii (JsText.toHex bytes)) = (2 * List.length bytes)%nat.
Proof.
  induction bytes as [|b rest IH]; [reflexivity|].
  cbn [JsText.toHex JsText.upperAscii String.length List.length]. rewrite IH. lia.
Qed.

Lemma upperHex_fixed (s : string) :
  JsText.isUpperHex s = true ->
  JsText.isAscii s = true /\ JsText.upperAscii s = s.
Proof.
  induction s as [|c r IH]; [now split|].
  cbn [JsText.isUpperHex JsText.isAscii JsText.upperAscii]. intro H.
  apply andb_true_iff in H. destruct H as [Hc Hr].
  destruct (upperHexByte_fixed c Hc) as [Ha Hu]. destruct (IH Hr) as [Hra Hru].
  rewrite Ha, Hu, Hra, Hru. now split.
Qed.

Lemma linkGet_cons (code c : string) (x : LinkCodeEntry.t) (r : LinkStore) :
  linkGet code ((c, x) :: r)
  = if (c =? code)%string then Some x else linkGet code r.
Proof. unfold linkGet. simpl. now destruct (c =? code)%string. Qed.

Lemma linkGet_app_None (code : string) (store l : LinkStore) :
  linkGet code store = None -> linkGet code (store ++ l)%list = linkGet code l.
Proof.
  induction store as [|[c x] r IH]; [reflexivity|].
  simpl app. rewrite !linkGet_cons. destruct (c =? code)%string; [discriminate|].
  exact IH.
Qed.

Lemma linkGet_set_same (code : string) (e : LinkCodeEntry.t) (store : LinkStore) :
  linkGet code (linkSet code e store) = Some e.
Proof.
  unfold linkSet. destruct (linkGet code store) as [old|] eqn:Hget.
  - revert Hget. induction store as [|[c x] r IH]; [discriminate|].
    rewrite linkGet_cons. cbn [map fst]. destruct (c =? code)%string eqn:Ec.
    + intros _. rewrite linkGet_cons. now rewrite String.eqb_refl.
    + intro H. rewrite linkGet_cons, Ec. now apply IH.
  - rewrite (linkGet_app_None code store _ Hget), linkGet_cons.
    now rewrite String.eqb_refl.
Qed.

Lemma linkGet_set_other (code other : string) (e : LinkCodeEntry.t) (store : LinkStore) :
  other <> code -> linkGet other (linkSet code e store) = linkGet other store.
Proof.
  intro Hne. assert (Hoc : (code =? other)%string = false)
    by (apply String.eqb_neq; congruence).
  unfold linkSet. destruct (linkGet code store) as [old|].
  - induction store as [|[c x] r IH]; [reflexivity|].
    cbn [map fst]. destruct (c =? code)%string eqn:Ec.
    + apply String.eqb_eq in Ec. subst c. rewrite !linkGet_cons, Hoc. exact IH.
    + rewrite !linkGet_cons, IH. reflexivity.
  - induction store as [|[c x] r IH].
    + simpl app. rewrite linkGet_cons, Hoc. reflexivity.
    + simpl app. rewrite !linkGet_cons, IH. reflexivity.
Qed.

Lemma linkGet_delete (code other : string) (store : LinkStore) :
  linkGet other (linkDelete code store)
  = if (code =? other)%string then None else linkGet other store.
Proof.
  induction store as [|[c x] r IH].
  - now destruct (code =? other)%string.
  - unfold linkDelete in *. cbn [filter fst]. destruct (c =? code)%string eqn:Ec.
    + cbn [negb]. rewrite IH, linkGet_cons. apply String.eqb_eq in Ec. subst c.
      now destruct (code =? other)%string.
    + cbn [negb]. rewrite !linkGet_cons, IH.
      destruct (code =? other)%string eqn:Eo; [|reflexivity].
      apply String.eqb_eq in Eo. subst other. now rewrite Ec.
Qed.

Lemma linkGet_In (code : string) (e : LinkCodeEntry.t) (store : LinkStore) :
  linkGet code store = Some e -> In code (map fst store).
Proof.
  induction store as [|[c x] r IH]; [discriminate|].
  rewrite linkGet_cons. destruct (c =? code)%string eqn:Ec.
  - intros _. left. now apply String.eqb_eq.
  - intro H. right. now apply IH.
Qed.

Lemma linkGet_not_In (code : string) (store : LinkStore) :
  ~ In code (map fst store) -> linkGet code store = None.
Proof.
  intro Hn. destruct (linkGet code store) as [e|] eqn:H; [|reflexivity].
  exfalso. apply Hn. exact (linkGet_In code e store H).
Qed.

Lemma linkGet_clean (now : Z) (code : string) (store : LinkStore) :
  NoDup (map fst store) ->
  linkGet code (cleanExpired now store)
  = match linkGet code store with
    | Some e => if linkExpired now e then None else Some e
    | None => None
    end.
Proof.
  induction store as [|[c x] r IH]; [reflexivity|].
  cbn [map fst]. intro Hnd. inversion Hnd as [|? ? Hnin Hnd' ]; subst.
  unfold cleanExpired in *. cbn [filter snd]. rewrite linkGet_cons.
  destruct (c =? code)%string eqn:Ec.
  - apply String.eqb_eq in Ec. subst c.
    destruct (linkExpired now x); cbn [negb].
    + rewrite (IH Hnd'), (linkGet_not_In code r Hnin). reflexivity.
    + rewrite linkGet_cons, String.eqb_refl. reflexivity.
  - destruct (linkExpired now x); cbn [negb].
    + exact (IH Hnd').
    + rewrite linkGet_cons, Ec. exact (IH Hnd').
Qed.

Lemma filter_keys_incl (p : string * LinkCodeEntry.t -> bool) (store : LinkStore)
    (c : string) :
  In c (map fst (filter p store)) -> In c (map fst store).
Proof.
  intro H. apply in_map_iff in H. destruct H as [ce [Hc Hin]].
  apply filter_In in Hin. apply in_map_iff. exists ce. tauto.
Qed.

Lemma filter_keys_NoDup (p : string * LinkCodeEntry.t -> bool) (store : LinkStore) :
  NoDup (map fst store) -> NoDup (map fst (filter p store)).
Proof.
  induction store as [|[c x] r IH]; [intros; constructor|].
  cbn [map fst filter]. intro Hnd. inversion Hnd as [|? ? Hnin Hnd']; subst.
  destruct (p (c, x)); [|now apply IH].
  cbn [map fst]. constructor; [|now apply IH].
  intro H. apply Hnin. exact (filter_keys_incl p r c H).
Qed.

Lemma linkSet_keys (code : string) (e : LinkCodeEntry.t) (store : LinkStore) :
  NoDup (map fst store) -> NoDup (map fst (linkSet code e store)).
Proof.
  intro Hnd. unfold linkSet. destruct (linkGet code store) as [old|] eqn:Hget.
  - assert (Heq : map fst (map (fun ce : string * LinkCodeEntry.t =>
                    if (fst ce =? code)%string then (code, e) else ce) store)
                  = map fst store).
    { clear. induction store as [|[c x] r IH]; [reflexivity|].
      cbn [map fst]. rewrite IH. destruct (c =? code)%string eqn:Ec; [|reflexivity].
      apply String.eqb_eq in Ec. now subst c. }
    now rewrite Heq.
  - rewrite map_app. cbn [map fst]. apply NoDup_snoc; [exact Hnd|].
    intro Hin. apply in_map_iff in Hin. destruct Hin as [[c x] [Hc Hin]].
    cbn [fst] in Hc. subst c.
    assert (Hsome : linkGet code store <> None).
    { clear Hget Hnd. induction store as [|[c y] r IH]; [destruct Hin|].
      rewrite linkGet_cons. destruct (c =? code)%string eqn:Ec; [discriminate|].
      destruct Hin as [Heq|Hin]; [|now apply IH].
      injection Heq as -> _. now rewrite String.eqb_refl in Ec. }
    now apply Hsome.
Qed.

Section LinkCodeFacts.
Context {up : UpperCase}.

Lemma createLinkCode_code (now_clean : Z) (random : ascii * ascii * ascii)
    (now_set : Z) (chatbotUserId : string) (store : LinkStore) :
  snd (createLinkCode now_clean random now_set chatbotUserId store)
  = JsText.upperAscii
      (JsText.toHex [fst (fst random); snd (fst random); snd random]).
Proof.
  destruct random as [[b1 b2] b3]. unfold createLinkCode. cbn [fst snd].
  apply toUpperCase_ascii. apply toHex_ascii.
Qed.

Lemma createLinkCode_store (now_clean : Z) (random : ascii * ascii * ascii)
    (now_set : Z) (chatbotUserId : string) (store : LinkStore) :
  fst (createLinkCode now_clean random now_set chatbotUserId store)
  = linkSet (snd (createLinkCode now_clean random now_set chatbotUserId store))
      (LinkCodeEntry.mk chatbotUserId now_set) (cleanExpired now_clean store).
Proof. destruct random as [[b1 b2] b3]. reflexivity. Qed.

Lemma createLinkCode_upper (now_clean : Z) (random : ascii * ascii * ascii)
    (now_set : Z) (chatbotUserId : string) (store : LinkStore) :
  toUpperCase (snd (createLinkCode now_clean random now_set chatbotUserId store))
  = snd (createLinkCode now_clean random now_set chatbotUserId store).
Proof.
  rewrite createLinkCode_code.
  destruct (upperHex_fixed _ (toHex_upper_hex
              [fst (fst random); snd (fst random); snd random])) as [Ha Hu].
  rewrite (toUpperCase_ascii _ Ha). exact Hu.
Qed.

Lemma resolveLinkCode_get (now : Z) (code : string) (store : LinkStore) :
  resolveLinkCode now code store
  = match linkGet (toUpperCase code) store with
    | None => (store, None)
    | Some entry =>
        (linkDelete (toUpperCase code) store,
         if linkExpired now entry then None
         else Some (LinkCodeEntry.chatbot_user_id entry))
    end.
Proof.
  unfold resolveLinkCode. destruct (linkGet (toUpperCase code) store) as [e|];
    [|reflexivity].
  now destruct (linkExpired now e).
Qed.

Lemma resolveLinkCode_consumes (now : Z) (code : string) (store : LinkStore) :
  linkGet (toUpperCase code) (fst (resolveLinkCode now code store)) = None.
Proof.
  rewrite resolveLinkCode_get.
  destruct (linkGet (toUpperCase code) store) as [e|] eqn:Hget; cbn [fst].
  - rewrite linkGet_delete. now rewrite String.eqb_refl.
  - exact Hget.
Qed.

(** X16. The shape of a link code.  Whatever three random bytes are drawn,
    [createLinkCode] returns six characters, each a digit or a capital
    letter A-F; upper-casing leaves the code unchanged, and the store binds
    it to the sender it was made for, stamped with the creation time. *)
Theorem link_code_shape (now_clean : Z) (random : ascii * ascii * ascii)
    (now_set : Z) (chatbotUserId : string) (store : LinkStore) :
  let created := createLinkCode now_clean random now_set chatbotUserId store in
  String.length (snd created) = 6%nat
  /\ JsText.isUpperHex (snd created) = true
  /\ toUpperCase (snd created) = snd created
  /\ linkGet (snd created) (fst created)
     = Some (LinkCodeEntry.mk chatbotUserId now_set).
Proof.
  cbv zeta. split; [|split; [|split]].
  - rewrite createLinkCode_code. now rewrite toHex_upper_length.
  - rewrite createLinkCode_code. apply toHex_upper_hex.
  - apply createLinkCode_upper.
  - rewrite createLinkCode_store. apply linkGet_set_same.
Qed.

(** X17. A link code is good once, for ten minutes.  Let [typed] be the
    created code in any letter case.  Resolving it while at most
    [LINK_CODE_TTL_MS] have passed since its creation gives the sender it
    was made for; later than that it gives nothing; either way the code is
    gone, so that every further resolution of it gives nothing. *)
Theorem link_code_single_use (now_clean : Z) (random : ascii * ascii * ascii)
    (now_set : Z) (chatbotUserId : string) (store : LinkStore)
    (now : Z) (typed : string) :
  let created := createLinkCode now_clean random now_set chatbotUserId store in
  toUpperCase typed = snd created ->
  snd (resolveLinkCode now typed (fst created))
  = (if now - now_set <=? LINK_CODE_TTL_MS then Some chatbotUserId else None)
  /\ forall now2 typed2,
       toUpperCase typed2 = snd created ->
       snd (resolveLinkCode now2 typed2
              (fst (resolveLinkCode now typed (fst created)))) = None.
Proof.
  cbv zeta. intro Htyped. split.
  - rewrite resolveLinkCode_get, Htyped, createLinkCode_store, linkGet_set_same.
    cbn [snd]. unfold linkExpired. cbn [LinkCodeEntry.created_at LinkCodeEntry.chatbot_user_id].
    destruct (now - now_set <=? LINK_CODE_TTL_MS) eqn:E1;
      destruct (LINK_CODE_TTL_MS <? now - now_set) eqn:E2; try reflexivity; lia.
  - intros now2 typed2 Htyped2.
    pose proof (resolveLinkCode_consumes now typed
      (fst (createLinkCode now_clean random now_set chatbotUserId store))) as Hgone.
    rewrite Htyped in Hgone.
    rewrite (resolveLinkCode_get now2 typed2), Htyped2, Hgone. reflexivity.
Qed.

(** X18. Link codes do not disturb one another.  In a store without
    duplicate keys, creating a code leaves what every other code resolves
    to unchanged (at any time not before the creation's clean-up), and
    resolving a code leaves every other binding as it was; both operations
    keep the keys distinct. *)
Theorem link_codes_independent (now_clean : Z) (random : ascii * ascii * ascii)
    (now_set : Z) (chatbotUserId : string) (store : LinkStore)
    (now : Z) (other : string) :
  let created := createLinkCode now_clean random now_set chatbotUserId store in
  NoDup (map fst store) ->
  (now_clean <= now -> toUpperCase other <> snd created ->
   snd (resolveLinkCode now other (fst created))
   = snd (resolveLinkCode now other store))
  /\ (forall code, toUpperCase code <> toUpperCase other ->
        linkGet (toUpperCase other) (fst (resolveLinkCode now code store))
        = linkGet (toUpperCase other) store)
  /\ NoDup (map fst (fst created))
  /\ NoDup (map fst (fst (resolveLinkCode now other store))).
Proof.
  cbv zeta. intro Hnd. split; [|split; [|split]].
  - intros Hclock Hother.
    rewrite !resolveLinkCode_get, createLinkCode_store.
    rewrite (linkGet_set_other _ _ _ _ Hother), (linkGet_clean _ _ _ Hnd).
    destruct (linkGet (toUpperCase other) store) as [e|]; [|reflexivity].
    unfold linkExpired.
    destruct (LINK_CODE_TTL_MS <? now_clean - LinkCodeEntry.created_at e) eqn:E1;
      cbn [snd]; [|reflexivity].
    destruct (LINK_CODE_TTL_MS <? now - LinkCodeEntry.created_at e) eqn:E2;
      [reflexivity | lia].
  - intros code Hne. rewrite resolveLinkCode_get.
    destruct (linkGet (toUpperCase code) store) as [e|]; cbn [fst]; [|reflexivity].
    rewrite linkGet_delete.
    destruct (toUpperCase code =? toUpperCase other)%string eqn:E; [|reflexivity].
    apply String.eqb_eq in E. contradiction.
  - rewrite createLinkCode_store. apply linkSet_keys.
    unfold cleanExpired. now apply filter_keys_NoDup.
  - rewrite resolveLinkCode_get.
    destruct (linkGet (toUpperCase other) store) as [e|]; cbn [fst]; [|exact Hnd].
    unfold linkDelete. now apply filter_keys_NoDup.
Qed.

End LinkCodeFacts.

Lemma link_code_single_use_witness :
  snd (resolveLinkCode 600500 "0a1b2c"
         (fst (createLinkCode 400 ("010"%char, "027"%char, "044"%char) 500 "bot-7" [])))
  = Some "bot-7"
  /\ snd (resolveLinkCode 600501 "0A1B2C"
         (fst (createLinkCode 400 ("010"%char, "027"%char, "044"%char) 500 "bot-7" [])))
  = None.
Proof.
  split.
  - exact (proj1 (@link_code_single_use AsciiUpper 400
             ("010"%char, "027"%char, "044"%char) 500 "bot-7" [] 600500 "0a1b2c"
             eq_refl)).
  - exact (proj1 (@link_code_single_use AsciiUpper 400
             ("010"%char, "027"%char, "044"%char) 500 "bot-7" [] 600501 "0A1B2C"
             eq_refl)).
Defined.

Lemma link_codes_independent_witness :
  snd (resolveLinkCode 700 "ffee00"
         (fst (createLinkCode 600 ("010"%char, "027"%char, "044"%char) 650 "bot-7"
                 [("FFEE00", LinkCodeEntry.mk "bot-1" 100)])))
  = Some "bot-1".
Proof.
  rewrite (proj1 (@link_codes_independent AsciiUpper 600
             ("010"%char, "027"%char, "044"%char) 650 "bot-7"
             [("FFEE00", LinkCodeEntry.mk "bot-1" 100)] 700 "ffee00"
             ltac:(repeat constructor; intros [])));
    [reflexivity | lia | discriminate].
Defined.


(* ------------------------------------------------------------------ *)
(** ** POST /v1/link-chatbot                                           *)
(* ------------------------------------------------------------------ *)

Section LinkChatbotFacts.
Context {up : UpperCase}.

(** The three ways a link request ends: turned away before the code is
    looked at, turned away by the code, or handed to the vault. *)
Lemma link_chatbot_inv (now : Z) (save : SaveOutcome) (auth : option Auth)
    (body : LinkBody.t) (store : LinkStore) :
  let r := link_chatbot now save auth body store in
  (LinkResult.store r = store /\ LinkResult.saved r = None
   /\ (LinkResult.response r = LINK_CODE_REQUIRED
       \/ LinkResult.response r = LINK_TARGET_REQUIRED
       \/ LinkResult.response r = LINK_FORBIDDEN))
  \/ exists lc,
       LinkBody.link_code body = Some lc /\ lc <> ""
       /\ LinkResult.store r = fst (resolveLinkCode now lc store)
       /\ ((LinkResult.saved r = None
            /\ LinkResult.response r = LINK_INVALID_CODE
            /\ (snd (resolveLinkCode now lc store) = None
                \/ snd (resolveLinkCode now lc store) = Some ""))
           \/ exists user chatbot,
                snd (resolveLinkCode now lc store) = Some chatbot
                /\ chatbot <> "" /\ user <> ""
                /\ LinkResult.saved r = Some (user, chatbot)
                /\ LinkResult.response r
                   = match save with
                     | SaveDone => LINK_OK chatbot
                     | SaveThrew => LINK_INTERNAL_ERROR
                     end
                /\ (forall uid, cognitoCaller auth = Some uid -> user = uid)
                /\ (cognitoCaller auth = None
                    -> LinkBody.target_user_id body = Some user)).
Proof.
  cbv zeta. unfold link_chatbot.
  destruct (LinkBody.link_code body) as [lc|]; [|left; cbn; tauto].
  destruct (lc =? "")%string eqn:Elc; cbn [truthy negb]; rewrite Elc; cbn [negb].
  { left; cbn; tauto. }
  apply String.eqb_neq in Elc.
  set (userId := match cognitoCaller auth with
                 | Some uid => nullish (LinkBody.target_user_id body) (Some uid)
                 | None => LinkBody.target_user_id body
                 end).
  assert (Huser : forall user, userId = Some user ->
            targetMismatch (cognitoCaller auth) (LinkBody.target_user_id body) = false ->
            user <> "" ->
            (forall uid, cognitoCaller auth = Some uid -> user = uid)
            /\ (cognitoCaller auth = None -> LinkBody.target_user_id body = Some user)).
  { intros user Hu Hmis Hne. subst userId.
    destruct (cognitoCaller auth) as [uid|].
    - split; [|discriminate]. intros uid' [= <-].
      destruct (LinkBody.target_user_id body) as [t|]; cbn in Hu, Hmis.
      + injection Hu as ->. apply String.eqb_neq in Hne. rewrite Hne in Hmis.
        cbn in Hmis. apply negb_false_iff in Hmis. apply String.eqb_eq in Hmis.
        congruence.
      + congruence.
    - split; [discriminate|]. intros _. exact Hu. }
  cbv zeta. fold userId. destruct userId as [user|]; [|left; cbn; tauto].
  cbn [truthy]. destruct (user =? "")%string eqn:Eu; cbn [negb].
  { left; cbn; tauto. }
  apply String.eqb_neq in Eu.
  destruct (targetMismatch (cognitoCaller auth) (LinkBody.target_user_id body))
    eqn:Hmis.
  { left; cbn; tauto. }
  right. exists lc. split; [reflexivity|]. split; [exact Elc|].
  destruct (Huser user eq_refl eq_refl Eu) as [Hc Hs].
  destruct (resolveLinkCode now lc store) as [store1 [chatbot|]]; cbn [fst snd].
  - cbn [truthy]. destruct (chatbot =? "")%string eqn:Ec; cbn [negb].
    + apply String.eqb_eq in Ec. subst chatbot. cbn. split; [reflexivity|].
      left. auto.
    + apply String.eqb_neq in Ec.
      split; [now destruct save|]. right. exists user, chatbot.
      split; [reflexivity|]. split; [exact Ec|]. split; [exact Eu|].
      split; [now destruct save|]. split; [now destruct save|]. split; assumption.
  - cbn. split; [reflexivity|]. left. auto.
Qed.

(** X19. What a link request must pass before anything is saved.  A request
    answered "code required", "target required" or "forbidden" leaves the
    link-code table untouched and saves nothing.  A pair (user, chatbot)
    reaches the vault only when the code was bound to that chatbot id and
    not yet expired, both ids are non-empty, a Cognito caller links its own
    id and a static-token caller the target it names; the answer is then
    200 with that chatbot id if the save succeeds and 500 if it throws.
    A 200 answer always comes with a save. *)
Theorem link_request_gates (now : Z) (save : SaveOutcome) (auth : option Auth)
    (body : LinkBody.t) (store : LinkStore) :
  let r := link_chatbot now save auth body store in
  ((LinkResult.response r = LINK_CODE_REQUIRED
    \/ LinkResult.response r = LINK_TARGET_REQUIRED
    \/ LinkResult.response r = LINK_FORBIDDEN) ->
   LinkResult.store r = store /\ LinkResult.saved r = None)
  /\ (forall user chatbot, LinkResult.saved r = Some (user, chatbot) ->
        user <> "" /\ chatbot <> ""
        /\ (exists lc e, LinkBody.link_code body = Some lc
              /\ linkGet (toUpperCase lc) store = Some e
              /\ LinkCodeEntry.chatbot_user_id e = chatbot
              /\ now - LinkCodeEntry.created_at e <= LINK_CODE_TTL_MS)
        /\ (forall uid, cognitoCaller auth = Some uid -> user = uid)
        /\ (cognitoCaller auth = None -> LinkBody.target_user_id body = Some user)
        /\ LinkResult.response r
           = match save with
             | SaveDone => LINK_OK chatbot
             | SaveThrew => LINK_INTERNAL_ERROR
             end)
  /\ (forall chatbot, LinkResult.response r = LINK_OK chatbot ->
        exists user, LinkResult.saved r = Some (user, chatbot)).
Proof.
  cbv zeta.
  destruct (link_chatbot_inv now save auth body store)
    as [[Hst [Hsv Hresp]]
       |[lc [Hlc [Hne [Hst [[Hsv [Hresp Hres]]
                           |[user [chatbot [Hres [Hc [Hu [Hsv [Hresp [Hcog Hstat]]]]]]]]]]]]]].
  - split; [tauto|]. split.
    + intros user chatbot H. rewrite Hsv in H. discriminate.
    + intros chatbot H. destruct Hresp as [H1|[H1|H1]]; rewrite H1 in H; discriminate.
  - split; [|split].
    + intros [H|[H|H]]; rewrite Hresp in H; discriminate.
    + intros user chatbot H. rewrite Hsv in H. discriminate.
    + intros chatbot H. rewrite Hresp in H. discriminate.
  - split; [|split].
    + intros [H|[H|H]]; rewrite Hresp in H; destruct save; discriminate.
    + intros user' chatbot' H. rewrite Hsv in H. injection H as <- <-.
      split; [exact Hu|]. split; [exact Hc|]. split; [|tauto].
      rewrite resolveLinkCode_get in Hres.
      destruct (linkGet (toUpperCase lc) store) as [e|] eqn:Hget; [|discriminate].
      cbn [snd] in Hres. unfold linkExpired in Hres.
      destruct (LINK_CODE_TTL_MS <? now - LinkCodeEntry.created_at e) eqn:E;
        [discriminate|].
      injection Hres as Hres. apply Z.ltb_ge in E. exists lc, e.
      split; [exact Hlc|]. split; [exact Hget|]. split; [exact Hres | exact E].
    + intros chatbot' H. rewrite Hresp in H. destruct save; [|discriminate].
      injection H as <-. exists user. exact Hsv.
Qed.

(** X20. A link code is spent before the save is tried.  Once a request got
    as far as the code (its answer is "invalid code", 200 or 500), the code
    it named is gone from the table: every later request naming that code,
    in any letter case, saves nothing and is not answered 200 -- also
    after a 500, where the first save failed. *)
Theorem link_code_spent_before_save (now : Z) (save : SaveOutcome)
    (auth : option Auth) (body : LinkBody.t) (store : LinkStore) (lc : string) :
  let r := link_chatbot now save auth body store in
  LinkBody.link_code body = Some lc ->
  (LinkResult.response r = LINK_INVALID_CODE
   \/ (exists c, LinkResult.response r = LINK_OK c)
   \/ LinkResult.response r = LINK_INTERNAL_ERROR) ->
  linkGet (toUpperCase lc) (LinkResult.store r) = None
  /\ forall now2 save2 auth2 body2 lc2,
       LinkBody.link_code body2 = Some lc2 ->
       toUpperCase lc2 = toUpperCase lc ->
       let r2 := link_chatbot now2 save2 auth2 body2 (LinkResult.store r) in
       LinkResult.saved r2 = None
       /\ forall c, LinkResult.response r2 <> LINK_OK c.
Proof.
  cbv zeta. intros Hbody Hresp.
  assert (Hgone : linkGet (toUpperCase lc)
                    (LinkResult.store (link_chatbot now save auth body store)) = None).
  { destruct (link_chatbot_inv now save auth body store)
      as [[_ [_ H]]|[lc' [Hlc [_ [Hst _]]]]].
    - exfalso. destruct Hresp as [R|[[c R]|R]];
        destruct H as [H|[H|H]]; rewrite H in R; discriminate.
    - rewrite Hbody in Hlc. injection Hlc as <-. rewrite Hst.
      apply resolveLinkCode_consumes. }
  split; [exact Hgone|].
  intros now2 save2 auth2 body2 lc2 Hbody2 Hsame.
  destruct (link_chatbot_inv now2 save2 auth2 body2
              (LinkResult.store (link_chatbot now save auth body store)))
    as [[_ [Hsv H]]
       |[lc' [Hlc [_ [_ [[Hsv [H _]]|[user [chatbot [Hres _]]]]]]]]].
  - split; [exact Hsv|]. intros c R.
    destruct H as [H|[H|H]]; rewrite H in R; discriminate.
  - split; [exact Hsv|]. intros c R. rewrite H in R. discriminate.
  - exfalso. rewrite Hbody2 in Hlc. injection Hlc as <-.
    rewrite resolveLinkCode_get, Hsame, Hgone in Hres. discriminate.
Qed.

End LinkChatbotFacts.


Lemma link_request_gates_witness :
  exists user,
    LinkResult.saved
      (link_chatbot 1000 SaveDone (Some (Build_Auth "alice" cognito_jwt))
         (LinkBody.mk (Some "0a1b2c") None)
         [("0A1B2C", LinkCodeEntry.mk "bot-7" 500)])
    = Some (user, "bot-7").
Proof.
  exact (proj2 (proj2 (@link_request_gates AsciiUpper 1000 SaveDone
           (Some (Build_Auth "alice" cognito_jwt))
           (LinkBody.mk (Some "0a1b2c") None)
           [("0A1B2C", LinkCodeEntry.mk "bot-7" 500)])) "bot-7" eq_refl).
Defined.

Lemma link_code_spent_before_save_witness :
  LinkResult.response
    (link_chatbot 1000 SaveThrew (Some (Build_Auth "static-token" static_token))
       (LinkBody.mk (Some "0a1b2c") (Some "alice"))
       [("0A1B2C", LinkCodeEntry.mk "bot-7" 500)])
  = LINK_INTERNAL_ERROR
  /\ LinkResult.saved
       (link_chatbot 2000 SaveDone (Some (Build_Auth "static-token" static_token))
          (LinkBody.mk (Some "0A1B2C") (Some "alice"))
          (LinkResult.store
             (link_chatbot 1000 SaveThrew
                (Some (Build_Auth "static-token" static_token))
                (LinkBody.mk (Some "0a1b2c") (Some "alice"))
                [("0A1B2C", LinkCodeEntry.mk "bot-7" 500)])))
     = None.
Proof.
  split; [reflexivity|].
  exact (proj1 (proj2 (@link_code_spent_before_save AsciiUpper 1000 SaveThrew
           (Some (Build_Auth "static-token" static_token))
           (LinkBody.mk (Some "0a1b2c") (Some "alice"))
           [("0A1B2C", LinkCodeEntry.mk "bot-7" 500)] "0a1b2c" eq_refl
           (or_intror (or_intror eq_refl)))
         2000 SaveDone (Some (Build_Auth "static-token" static_token))
         (LinkBody.mk (Some "0A1B2C") (Some "alice")) "0A1B2C" eq_refl eq_refl)).
Defined.

(* ------------------------------------------------------------------ *)
(** ** From the webhook's link code to the vault                       *)
(* ------------------------------------------------------------------ *)

Lemma resolveUser_withLinkCode (cfg : Config) (code : string) (env : WebhookEnv.t)
    (key : string) :
  resolveUser cfg (withLinkCode code env) key = resolveUser cfg env key.
Proof. reflexivity. Qed.

Section LinkingFlow.
Context {ops : StringOps} {up : UpperCase}.

Lemma link_chatbot_accepts (now : Z) (save : SaveOutcome) (auth : option Auth)
    (typed : string) (target : option string) (store : LinkStore) (user : string) :
  typed <> "" -> user <> "" ->
  (cognitoCaller auth = Some user /\ (target = None \/ target = Some user))
  \/ (cognitoCaller auth = None /\ target = Some user) ->
  forall chatbot, snd (resolveLinkCode now typed store) = Some chatbot ->
  chatbot <> "" ->
  link_chatbot now save auth (LinkBody.mk (Some typed) target) store
  = LinkResult.mk (fst (resolveLinkCode now typed store))
      match save with
      | SaveDone => LINK_OK chatbot
      | SaveThrew => LINK_INTERNAL_ERROR
      end
      (Some (user, chatbot)).
Proof.
  intros Ht Hu Hwho chatbot Hres Hc.
  apply String.eqb_neq in Ht. apply String.eqb_neq in Hu. apply String.eqb_neq in Hc.
  unfold link_chatbot. cbn [LinkBody.link_code LinkBody.target_user_id truthy].
  rewrite Ht. cbn [negb].
  destruct (resolveLinkCode now typed store) as [store1 c].
  cbn [fst snd] in *. subst c.
  destruct Hwho as [[Hcog [->| ->]]|[Hcog ->]]; rewrite Hcog;
    cbn [nullish truthy targetMismatch]; rewrite ?Hu, ?String.eqb_refl, ?Hc;
    cbn [negb andb]; now destruct save.
Qed.

Lemma webhook_unlinked (cfg : Config) (env : WebhookEnv.t) (body : WebhookBody.t)
    (st : Server.t) (key : string) :
  userKeyOf body = Some key -> key <> "" ->
  resolveUser cfg env key = Unlinked ->
  webhook cfg env body st
  = (Server.mk (Server.sessions st) (S (Server.webhookCallCount st))
       (Some (WebhookEnv.t_called env)),
     kakaoResponse (MSG_LINK (WebhookEnv.linkCode env))).
Proof.
  intros Hkey Hne Hres. apply String.eqb_neq in Hne.
  unfold webhook. rewrite Hkey, Hne, Hres. reflexivity.
Qed.

(** X21. From the webhook's link code to a stored link.  When the webhook
    answers a sender it cannot resolve, the answer shows a six-character
    code, no session changes, and that code -- typed in any letter case
    into POST /v1/link-chatbot within [LINK_CODE_TTL_MS] of its creation,
    by a Cognito caller for itself or by a static-token caller for a named
    target -- hands exactly (user, the sender's key) to the vault. *)
Theorem unlinked_sender_can_link (cfg : Config) (env : WebhookEnv.t)
    (now_clean : Z) (random : ascii * ascii * ascii) (now_set : Z)
    (body : WebhookBody.t) (st : Server.t) (links : LinkStore) (key : string) :
  let out := webhook_links cfg env now_clean random now_set body st links in
  userKeyOf body = Some key -> key <> "" ->
  resolveUser cfg env key = Unlinked ->
  exists code,
    snd (fst out) = kakaoResponse (MSG_LINK code)
    /\ String.length code = 6%nat
    /\ Server.sessions (fst (fst out)) = Server.sessions st
    /\ forall now save auth typed target user,
         toUpperCase typed = code ->
         now - now_set <= LINK_CODE_TTL_MS ->
         user <> "" ->
         (cognitoCaller auth = Some user /\ (target = None \/ target = Some user))
         \/ (cognitoCaller auth = None /\ target = Some user) ->
         let r := link_chatbot now save auth (LinkBody.mk (Some typed) target)
                    (snd out) in
         LinkResult.saved r = Some (user, key)
         /\ LinkResult.response r
            = match save with
              | SaveDone => LINK_OK key
              | SaveThrew => LINK_INTERNAL_ERROR
              end.
Proof.
  cbv zeta. intros Hkey Hne Hres.
  exists (snd (createLinkCode now_clean random now_set key links)).
  assert (Hout : webhook_links cfg env now_clean random now_set body st links
                 = (webhook cfg
                      (withLinkCode
                         (snd (createLinkCode now_clean random now_set key links)) env)
                      body st,
                    fst (createLinkCode now_clean random now_set key links))).
  { unfold webhook_links. rewrite Hkey, Hres.
    apply String.eqb_neq in Hne. rewrite Hne.
    now destruct (createLinkCode now_clean random now_set key links). }
  rewrite Hout. cbn [fst snd].
  rewrite (webhook_unlinked cfg _ body st key Hkey Hne
             (eq_trans (resolveUser_withLinkCode cfg _ env key) Hres)).
  cbn [fst snd Server.sessions].
  split; [reflexivity|]. split.
  { rewrite createLinkCode_code. now rewrite toHex_upper_length. }
  split; [reflexivity|].
  intros now save auth typed target user Htyped Hfresh Hu Hwho.
  assert (Hresolve : snd (resolveLinkCode now typed
                            (fst (createLinkCode now_clean random now_set key links)))
                     = Some key).
  { rewrite resolveLinkCode_get, Htyped, createLinkCode_store, linkGet_set_same.
    cbn [snd]. unfold linkExpired. cbn [LinkCodeEntry.created_at].
    destruct (LINK_CODE_TTL_MS <? now - now_set) eqn:E; [lia | reflexivity]. }
  assert (Hty : typed <> "").
  { intros ->. assert (Hlen : String.length
        (snd (createLinkCode now_clean random now_set key links)) = 6%nat)
      by (rewrite createLinkCode_code; now rewrite toHex_upper_length).
    rewrite <- Htyped, (toUpperCase_ascii "" eq_refl) in Hlen. discriminate Hlen. }
  rewrite (link_chatbot_accepts now save auth typed target _ user Hty Hu Hwho
             key Hresolve Hne).
  cbn [LinkResult.saved LinkResult.response]. now split.
Qed.

End LinkingFlow.

Lemma unlinked_sender_can_link_witness :
  exists code,
    snd (fst (webhook_links Sample.cfgB
                (WebhookEnv.mk "t0" (Returned None) (Returned None) "" "r1" "t1" "t2")
                400 ("010"%char, "027"%char, "044"%char) 500
                (WebhookBody.mk (Some "hi") None (Some "kakao-9") None None)
                (Server.mk [] 0 None) []))
    = kakaoResponse (MSG_LINK code)
    /\ String.length code = 6%nat.
Proof.
  destruct (@unlinked_sender_can_link AsciiOps AsciiUpper Sample.cfgB
              (WebhookEnv.mk "t0" (Returned None) (Returned None) "" "r1" "t1" "t2")
              400 ("010"%char, "027"%char, "044"%char) 500
              (WebhookBody.mk (Some "hi") None (Some "kakao-9") None None)
              (Server.mk [] 0 None) [] "kakao-9" eq_refl
              ltac:(discriminate) eq_refl) as [code [H1 [H2 _]]].
  exists code. split; assumption.
Defined.


(* ------------------------------------------------------------------ *)
(** ** Retries                                                         *)
(* ------------------------------------------------------------------ *)

Ltac retry_cases fn :=
  repeat match goal with
         | |- context [match fn ?k with _ => _ end] =>
             let H := fresh "Hcall" in
             destruct (fn k) as [?v|?err] eqn:H; cbn
         | |- context [if KakaoSender.isRetryable ?e then _ else _] =>
             let H := fresh "Hretry" in
             destruct (KakaoSender.isRetryable e) eqn:H; cbn
         end.

Ltac retry_earlier :=
  let k := fresh "k" in
  let Hk := fresh "Hk" in
  intros k Hk;
  destruct k as [|[|[|k]]]; try (exfalso; lia); eauto.

(** X22. The relay's retry policy.  [withRetry] calls the function at
    least once and at most four times, sleeping 500, 1000 and 2000 ms
    between the calls; it ends with what its last call settled to; every
    earlier call failed with a server or network error; and it stops
    before the fourth call only on a success or on an HTTP error below
    500, which is never retried. *)
Theorem sender_retry_policy (T : Type) (fn : nat -> Attempt T KakaoSender.Thrown) :
  let r := KakaoSender.withRetry fn in
  (1 <= Retry.calls r <= 4)%nat
  /\ Retry.slept r = firstn (Retry.calls r - 1) KakaoSender.RETRY_DELAYS
  /\ Retry.outcome r = settled (fn (Retry.calls r - 1)%nat)
  /\ (forall k, (k < Retry.calls r - 1)%nat ->
        exists err, fn k = Failed err /\ KakaoSender.isRetryable err = true)
  /\ ((Retry.calls r < 4)%nat ->
      forall err, fn (Retry.calls r - 1)%nat = Failed err ->
                  KakaoSender.isRetryable err = false).
Proof.
  cbv zeta. unfold KakaoSender.withRetry. cbn.
  retry_cases fn;
    (split; [lia|]); (split; [reflexivity|]);
    (split; [rewrite ?Hcall, ?Hcall0, ?Hcall1, ?Hcall2; reflexivity|]);
    (split; [retry_earlier|]);
    intros Hlt err' Herr; try (exfalso; lia); congruence.
Qed.


(** X23. The bridge's retry policy.  Its [withRetry] retries every throw:
    it calls the function until a call resolves, at most four times,
    sleeping 500, 1000 and 2000 ms between the calls; it returns the first
    response it gets -- whatever its HTTP status -- and after four failed
    calls it throws the error of the fourth. *)
Theorem bridge_retry_policy (T E : Type) (fn : nat -> Attempt T E) :
  let r := Bridge.withRetry fn in
  (1 <= Retry.calls r <= 4)%nat
  /\ Retry.slept r = firstn (Retry.calls r - 1) Bridge.DELAYS
  /\ Retry.outcome r = settled (fn (Retry.calls r - 1)%nat)
  /\ (forall k, (k < Retry.calls r - 1)%nat -> exists err, fn k = Failed err)
  /\ ((Retry.calls r < 4)%nat ->
      exists v, fn (Retry.calls r - 1)%nat = Fulfilled v).
Proof.
  cbv zeta. unfold Bridge.withRetry. cbn.
  retry_cases fn;
    (split; [lia|]); (split; [reflexivity|]);
    (split; [rewrite ?Hcall, ?Hcall0, ?Hcall1, ?Hcall2; reflexivity|]);
    (split; [retry_earlier|]);
    intros Hlt; try (exfalso; lia); eauto.
Qed.


(* ------------------------------------------------------------------ *)
(** ** The bridge's requests                                           *)
(* ------------------------------------------------------------------ *)

(** X24. Refresh and retry, once.  [relayFetchWithRefresh] throws only
    when its first request throws; once a response is in, it returns a
    response.  It sends one request, or two: the second only after a 401
    under stored credentials and a successful refresh, and then with the
    refreshed token, which is also the only way the current token changes.
    When the second request throws, the error is swallowed and the 401 is
    returned, the token staying refreshed. *)
Theorem refresh_retries_once (E : Type) (authSource : AuthSource)
    (currentAuthToken : string) (first : Attempt HttpResponse.t E)
    (env : RefreshEnv.t E) :
  let f := relayFetchWithRefresh authSource currentAuthToken first env in
  (forall err, Fetched.result f = Failed err ->
     first = Failed err /\ Fetched.sent f = [currentAuthToken]
     /\ Fetched.token f = currentAuthToken)
  /\ (forall res, first = Fulfilled res ->
        exists res', Fetched.result f = Fulfilled res')
  /\ (Fetched.sent f = [currentAuthToken]
      \/ (Fetched.sent f = [currentAuthToken; Fetched.token f]
          /\ authSource = credentials
          /\ (exists res, first = Fulfilled res /\ HttpResponse.status res = 401)
          /\ RefreshEnv.refreshAndSave env = Fulfilled (Fetched.token f)))
  /\ (Fetched.sent f = [currentAuthToken] -> Fetched.token f = currentAuthToken)
  /\ (forall res err, first = Fulfilled res ->
        Fetched.sent f = [currentAuthToken; Fetched.token f] ->
        RefreshEnv.retried env = Failed err ->
        Fetched.result f = Fulfilled res).
Proof.
  cbv zeta. unfold relayFetchWithRefresh.
  destruct first as [res|err0].
  - destruct (HttpResponse.status res =? 401)%Z eqn:Est;
      [apply Z.eqb_eq in Est|];
      (destruct authSource; cbn [fromCredentials andb]);
      try (repeat split; cbn; intros; try discriminate; eauto; fail).
    destruct (RefreshEnv.loadCredentials env) as [[creds|]|e1];
      try (repeat split; cbn; intros; try discriminate; eauto; fail).
    destruct (RefreshEnv.refreshAndSave env) as [id_token|e2] eqn:Href;
      try (repeat split; cbn; intros; try discriminate; eauto; fail).
    destruct (RefreshEnv.retried env) as [res2|e3] eqn:Hret; cbn.
    + split; [intros; discriminate|]. split; [eauto|].
      split; [right; repeat split; eauto|].
      split; [intros; discriminate|]. intros; discriminate.
    + split; [intros; discriminate|]. split; [eauto|].
      split; [right; repeat split; eauto|].
      split; [intros; discriminate|]. intros res0 err [= <-] _ _. reflexivity.
  - cbn. split; [intros err [= <-]; auto|]. split; [intros; discriminate|].
    split; [now left|]. split; [reflexivity|]. intros; discriminate.
Qed.

Lemma refresh_retries_once_witness :
  Fetched.result
    (relayFetchWithRefresh credentials "old" (Fulfilled (HttpResponse.mk 401 "no"))
       (RefreshEnv.mk (Fulfilled (Some "creds")) (Fulfilled "new") (Failed tt)))
  = Fulfilled (HttpResponse.mk 401 "no").
Proof.
  exact (proj2 (proj2 (proj2 (proj2
           (refresh_retries_once unit credentials "old"
              (Fulfilled (HttpResponse.mk 401 "no"))
              (RefreshEnv.mk (Fulfilled (Some "creds")) (Fulfilled "new") (Failed tt))))))
         (HttpResponse.mk 401 "no") tt eq_refl eq_refl eq_refl).
Defined.

Lemma waitSec_of_decimal (n : nat) :
  (n < 25)%nat ->
  waitSec (Some (numberToString (Z.of_nat (S n)))) = Z.of_nat (S n).
Proof.
  intro H. do 25 (destruct n as [|n]; [vm_compute; reflexivity|]). lia.
Qed.

Lemma remainingSec_positive (deadline : Q) (date_now : Z) :
  (inject_Z date_now < deadline)%Q -> 1 <= remainingSec deadline date_now.
Proof.
  intro H. unfold remainingSec.
  assert (Hpos : (0 < (deadline - inject_Z date_now) / inject_Z 1000)%Q).
  { apply Qlt_shift_div_l; [reflexivity|]. rewrite Qmult_0_l.
    unfold Qminus. apply -> Qlt_minus_iff. exact H. }
  pose proof (Qle_ceiling ((deadline - inject_Z date_now) / inject_Z 1000)) as Hc.
  pose proof (Qlt_le_trans _ _ _ Hpos Hc) as Hlt.
  change 0%Q with (inject_Z 0) in Hlt. rewrite <- Zlt_Qlt in Hlt. lia.
Qed.

(** X25. The relay waits as long as the bridge asks.  Every poll that
    [askUser] sends asks for a whole number of seconds between 1 and 25,
    and the relay's [waitSec] reads exactly that number back from the
    query string: neither the clamp at 60 nor the default for an
    unreadable or zero [wait_sec] comes into play.  The wait asked for
    ends less than a second after the deadline. *)
Theorem bridge_poll_wait_honoured (deadline : Q) (now_loop now_rem : Z) :
  ((inject_Z now_loop < deadline)%Q -> (inject_Z now_rem < deadline)%Q ->
   exists w, askUser_turn deadline now_loop now_rem = Some w)
  /\ forall w, askUser_turn deadline now_loop now_rem = Some w ->
       1 <= w <= 25
       /\ waitSec (Some (numberToString w)) = w
       /\ (inject_Z ((w - 1) * 1000) < deadline - inject_Z now_rem)%Q.
Proof.
  unfold askUser_turn. split.
  - intros Hloop Hrem.
    destruct (Qle_bool deadline (inject_Z now_loop)) eqn:Eloop.
    + apply Qle_bool_iff in Eloop. exfalso.
      exact (Qlt_irrefl _ (Qlt_le_trans _ _ _ Hloop Eloop)).
    + cbn [negb]. cbv zeta. pose proof (remainingSec_positive deadline now_rem Hrem).
      unfold POLL_WAIT.
      destruct (Z.min (Z.min 25 (remainingSec deadline now_rem)) 60 <=? 0) eqn:E;
        [apply Z.leb_le in E; lia | eauto].
  - intro w.
    destruct (negb (Qle_bool deadline (inject_Z now_loop))); [|discriminate].
    cbv zeta.
    destruct (Z.min (Z.min POLL_WAIT (remainingSec deadline now_rem)) 60 <=? 0) eqn:E;
      [discriminate|].
    intros [= Heq]. apply Z.leb_gt in E. unfold POLL_WAIT in *.
    assert (Hr : 1 <= w <= 25 /\ w <= remainingSec deadline now_rem) by lia.
    clear E Heq. destruct Hr as [Hw Hle]. split; [exact Hw|]. split.
    + replace w with (Z.of_nat (S (Z.to_nat (w - 1)))) by lia.
      apply waitSec_of_decimal. lia.
    + pose proof (Qceiling_lt ((deadline - inject_Z now_rem) / inject_Z 1000)) as Hc.
      fold (remainingSec deadline now_rem) in Hc.
      assert (Hw1 : (inject_Z (w - 1) <= inject_Z (remainingSec deadline now_rem - 1))%Q)
        by (rewrite <- Zle_Qle; lia).
      pose proof (Qle_lt_trans _ _ _ Hw1 Hc) as Hlt.
      apply (Qmult_lt_r _ _ (inject_Z 1000)) in Hlt; [|reflexivity].
      rewrite inject_Z_mult.
      eapply Qlt_le_trans; [exact Hlt|].
      unfold Qdiv. rewrite <- Qmult_assoc, (Qmult_comm (/ inject_Z 1000)),
        Qmult_inv_r, Qmult_1_r; [apply Qle_refl | discriminate].
Qed.

Lemma bridge_poll_wait_honoured_witness :
  waitSec (Some (numberToString 8)) = 8.
Proof.
  exact (proj1 (proj2 (proj2 (bridge_poll_wait_honoured (7500 # 1) 0 0) 8 eq_refl))).
Defined.


Lemma sender_retry_policy_witness :
  Retry.slept
    (KakaoSender.withRetry
       (fun k => match k with
                 | O => Failed KakaoSender.NetworkError
                 | S _ => Failed (T := Z) (KakaoSender.HttpError 404)
                 end))
  = [500]
  /\ KakaoSender.isRetryable (KakaoSender.HttpError 404) = false.
Proof.
  destruct (sender_retry_policy Z
              (fun k => match k with
                        | O => Failed KakaoSender.NetworkError
                        | S _ => Failed (KakaoSender.HttpError 404)
                        end)) as [_ [Hs [_ [_ Hstop]]]].
  split; [exact Hs|].
  apply Hstop; [vm_compute; lia | reflexivity].
Defined.

Lemma bridge_retry_policy_witness :
  Retry.outcome
    (Bridge.withRetry
       (fun k => match k with
                 | O | S O => Failed (T := Z) tt
                 | S (S _) => Fulfilled 503
                 end))
  = Gives 503
  /\ Retry.slept
       (Bridge.withRetry
          (fun k => match k with
                    | O | S O => Failed (T := Z) tt
                    | S (S _) => Fulfilled 503
                    end))
     = [500; 1000].
Proof.
  destruct (bridge_retry_policy Z unit
              (fun k => match k with
                        | O | S O => Failed tt
                        | S (S _) => Fulfilled 503
                        end)) as [_ [Hs [Ho _]]].
  split; [exact Ho | exact Hs].
Defined.


(* ------------------------------------------------------------------ *)
(** ** The diagnostics of the webhook                                  *)
(* ------------------------------------------------------------------ *)

Lemma last_cons_default (A : Type) (rest : list A) (e d : A) :
  last (e :: rest) d = last rest e.
Proof.
  revert e d. induction rest as [|x rest IH]; intros e d; [reflexivity|].
  change (last (e :: x :: rest) d) with (last (x :: rest) d).
  now rewrite !IH.
Qed.

Section Diagnostics.
Context {ops : StringOps}.
Variable cfg : Config.

Lemma webhook_diagnostics (env : WebhookEnv.t) (body : WebhookBody.t) (st : Server.t) :
  Server.webhookCallCount (fst (webhook cfg env body st))
  = S (Server.webhookCallCount st)
  /\ Server.lastWebhookAt (fst (webhook cfg env body st))
     = Some (WebhookEnv.t_called env).
Proof.
  unfold webhook. cbv zeta.
  destruct (userKeyOf body) as [key|]; [|now split].
  destruct (key =? "")%string; [now split|].
  destruct (resolveUser cfg env key) as [userId| |]; try now split.
  destruct (selectSession userId (Server.sessions st)) as [s|]; [|now split].
  destruct (isQueryMode _); [now split|].
  destruct (classify _ _) as [replyType choice]. now split.
Qed.

Lemma run_diagnostics (l : list Op) (st : Server.t) :
  Server.webhookCallCount (run cfg l st)
  = (Server.webhookCallCount st + List.length (webhookCalls l))%nat
  /\ Server.lastWebhookAt (run cfg l st)
     = match webhookCalls l with
       | [] => Server.lastWebhookAt st
       | e :: rest => Some (WebhookEnv.t_called (last rest e))
       end.
Proof.
  revert st. induction l as [|op l IH]; intro st.
  - cbn. split; [lia | reflexivity].
  - unfold run in *. cbn [fold_left].
    destruct (IH (step cfg st op)) as [IHc IHl]. rewrite IHc, IHl.
    destruct op as [env req|env req|env body]; cbn [step webhookCalls];
      try (cbn; split; [lia | reflexivity]).
    destruct (webhook_diagnostics env body st) as [Hc Hl]. rewrite Hc, Hl.
    cbn [List.length]. split; [lia|].
    destruct (webhookCalls l) as [|e rest]; [reflexivity|].
    now rewrite last_cons_default.
Qed.

(** X26. The webhook's diagnostics count every call.  On a server that
    has handled the requests [l] since its start, [webhookCallCount] is
    the number of webhook calls among them -- the rejected, unidentified
    and unlinked ones included, question posts and polls not -- and
    [lastWebhookAt] is the arrival time of the last such call, [null] if
    there was none. *)
Theorem webhook_calls_counted (l : list Op) :
  Server.webhookCallCount (run cfg l initial) = List.length (webhookCalls l)
  /\ Server.lastWebhookAt (run cfg l initial)
     = match webhookCalls l with
       | [] => None
       | e :: rest => Some (WebhookEnv.t_called (last rest e))
       end.
Proof.
  destruct (run_diagnostics l initial) as [Hc Hl]. now rewrite Hc, Hl.
Qed.

End Diagnostics.


(* ------------------------------------------------------------------ *)
(** ** The sender factory                                              *)
(* ------------------------------------------------------------------ *)

Lemma pushMissing_nil (v name : string) (missing : list string) :
  pushMissing v name missing = [] -> v <> "" /\ missing = [].
Proof.
  unfold pushMissing. cbn [truthy]. destruct (v =? "")%string eqn:E; cbn [negb].
  - intro H. destruct missing; discriminate H.
  - intros ->. apply String.eqb_neq in E. now split.
Qed.

Lemma loadBizMessageConfig_complete (e : SenderEnv.t) (config : BizMessageConfig.t) :
  loadBizMessageConfig e = Some config ->
  SenderEnv.KAKAO_OAUTH_CLIENT_ID e = Some (BizMessageConfig.clientId config)
  /\ SenderEnv.KAKAO_OAUTH_SECRET e = Some (BizMessageConfig.clientSecret config)
  /\ SenderEnv.KAKAO_SENDER_KEY e = Some (BizMessageConfig.senderKey config)
  /\ SenderEnv.KAKAO_TEMPLATE_CODE e = Some (BizMessageConfig.templateCode config)
  /\ SenderEnv.KAKAO_SENDER_NO e = Some (BizMessageConfig.senderNo config)
  /\ SenderEnv.KAKAO_PHONE_NUMBER e = Some (BizMessageConfig.phoneNumber config)
  /\ BizMessageConfig.clientId config <> ""
  /\ BizMessageConfig.clientSecret config <> ""
  /\ BizMessageConfig.senderKey config <> ""
  /\ BizMessageConfig.templateCode config <> ""
  /\ BizMessageConfig.senderNo config <> ""
  /\ BizMessageConfig.phoneNumber config <> "".
Proof.
  unfold loadBizMessageConfig. cbv zeta.
  match goal with
  | |- (if (0 <? List.length ?m)%nat then _ else _) = _ -> _ =>
      destruct m as [|x m'] eqn:Hm; [|discriminate]
  end.
  cbn. intros [= <-]. cbn.
  apply pushMissing_nil in Hm. destruct Hm as [H6 Hm].
  apply pushMissing_nil in Hm. destruct Hm as [H5 Hm].
  apply pushMissing_nil in Hm. destruct Hm as [H4 Hm].
  apply pushMissing_nil in Hm. destruct Hm as [H3 Hm].
  apply pushMissing_nil in Hm. destruct Hm as [H2 Hm].
  apply pushMissing_nil in Hm. destruct Hm as [H1 _].
  destruct e as [p m c [o1|] [o2|] [o3|] [o4|] [o5|] [o6|] b]; cbn in *;
    try congruence.
  repeat split; assumption.
Qed.

(** X27. A sender is enabled exactly when it is a real one.  The factory
    reports [enabled = false] exactly when it built the no-op sender.  The
    live BizMessage sender is built only when all six of its settings are
    set and non-empty, and it carries them unchanged; the live memo sender
    only with a non-empty [KAKAO_CLIENT_ID]; and with
    [KAKAO_PROVIDER_MODE=MOCK] a known provider gets its mock sender
    without any credential. *)
Theorem sender_enabled_iff_real (e : SenderEnv.t) :
  (snd (createSender e) = false <-> fst (createSender e) = NoopKakaoSender)
  /\ (forall config, fst (createSender e) = BizMessageKakaoSender config ->
        SenderEnv.KAKAO_PROVIDER e = Some "bizmessage"
        /\ loadBizMessageConfig e = Some config
        /\ SenderEnv.KAKAO_OAUTH_CLIENT_ID e = Some (BizMessageConfig.clientId config)
        /\ SenderEnv.KAKAO_OAUTH_SECRET e = Some (BizMessageConfig.clientSecret config)
        /\ SenderEnv.KAKAO_SENDER_KEY e = Some (BizMessageConfig.senderKey config)
        /\ SenderEnv.KAKAO_TEMPLATE_CODE e = Some (BizMessageConfig.templateCode config)
        /\ SenderEnv.KAKAO_SENDER_NO e = Some (BizMessageConfig.senderNo config)
        /\ SenderEnv.KAKAO_PHONE_NUMBER e = Some (BizMessageConfig.phoneNumber config)
        /\ BizMessageConfig.clientId config <> ""
        /\ BizMessageConfig.clientSecret config <> ""
        /\ BizMessageConfig.senderKey config <> ""
        /\ BizMessageConfig.templateCode config <> ""
        /\ BizMessageConfig.senderNo config <> ""
        /\ BizMessageConfig.phoneNumber config <> "")
  /\ (fst (createSender e) = KakaoMemoSender ->
      SenderEnv.KAKAO_PROVIDER e = Some "kakao_memo"
      /\ exists id, SenderEnv.KAKAO_CLIENT_ID e = Some id /\ id <> "")
  /\ (SenderEnv.KAKAO_PROVIDER_MODE e = Some "MOCK" ->
      (SenderEnv.KAKAO_PROVIDER e = Some "kakao_memo" ->
       createSender e = (MockKakaoMemoSender, true))
      /\ (SenderEnv.KAKAO_PROVIDER e = Some "bizmessage" ->
          createSender e = (MockBizMessageKakaoSender, true))).
Proof.
  split; [|split; [|split]].
  - unfold createSender. cbv zeta.
    repeat match goal with
           | |- context [if ?b then _ else _] => destruct b
           | |- context [match loadBizMessageConfig e with _ => _ end] =>
               destruct (loadBizMessageConfig e)
           end; cbn; split; intro H; try reflexivity; discriminate H.
  - intros config. unfold createSender. cbv zeta.
    destruct (envOr (SenderEnv.KAKAO_PROVIDER e) "" =? "kakao_memo")%string.
    { repeat match goal with
             | |- context [if ?b then _ else _] => destruct b
             end; cbn; intro H; discriminate H. }
    destruct (envOr (SenderEnv.KAKAO_PROVIDER e) "" =? "bizmessage")%string eqn:Ep;
      [|cbn; intro H; discriminate H].
    destruct (envOr (SenderEnv.KAKAO_PROVIDER_MODE e) "LIVE" =? "MOCK")%string;
      [cbn; intro H; discriminate H|].
    destruct (loadBizMessageConfig e) as [c|] eqn:Hload; cbn; intro H;
      [|discriminate H].
    injection H as ->. split.
    { apply String.eqb_eq in Ep. destruct (SenderEnv.KAKAO_PROVIDER e); cbn in Ep;
        [now subst | discriminate Ep]. }
    split; [reflexivity|]. exact (loadBizMessageConfig_complete e config Hload).
  - unfold createSender. cbv zeta.
    destruct (envOr (SenderEnv.KAKAO_PROVIDER e) "" =? "kakao_memo")%string eqn:Ep.
    + destruct (envOr (SenderEnv.KAKAO_PROVIDER_MODE e) "LIVE" =? "MOCK")%string;
        [cbn; intro H; discriminate H|].
      cbn [truthy]. destruct (envOr (SenderEnv.KAKAO_CLIENT_ID e) "" =? "")%string eqn:Ec;
        cbn; intro H; [discriminate H|].
      apply String.eqb_eq in Ep. apply String.eqb_neq in Ec. split.
      * destruct (SenderEnv.KAKAO_PROVIDER e); cbn in Ep; [now subst | discriminate Ep].
      * destruct (SenderEnv.KAKAO_CLIENT_ID e) as [id|]; cbn in Ec;
          [now exists id | now contradiction Ec].
    + repeat match goal with
             | |- context [if ?b then _ else _] => destruct b
             | |- context [match loadBizMessageConfig e with _ => _ end] =>
                 destruct (loadBizMessageConfig e)
             end; cbn; intro H; discriminate H.
  - intro Hmode. unfold createSender. rewrite Hmode. cbv zeta.
    split; intros ->; reflexivity.
Qed.

Lemma sender_enabled_iff_real_witness :
  createSender
    (SenderEnv.mk (Some "bizmessage") (Some "MOCK") None None None None None None
       None None)
  = (MockBizMessageKakaoSender, true).
Proof.
  exact (proj2 (proj2 (proj2 (proj2
           (sender_enabled_iff_real
              (SenderEnv.mk (Some "bizmessage") (Some "MOCK") None None None None None
                 None None None)))) eq_refl) eq_refl).
Defined.
